(** * Account-transaction aggregation over the Xero API

    A shallow embedding of [src/handlers/list-xero-account-transactions.handler.ts]
    and the properties its specification states about it.

    Conventions of the embedding.
    - A JavaScript [number] holding an amount is a rational ([Q]); the
      additions and negations of the handler are taken exact.  Counts, page
      numbers and millisecond delays are integers.
    - A JavaScript string is a [string] of 8-bit characters; white space is
      the ASCII white space.
    - An optional or nullable field is an [option]; [undefined] and [null] are
      both [None] (the handler reads such fields through [??], [?.] and
      truthiness tests only, which do not tell them apart).
    - A promise is a function on the state of the remote service that returns
      an [Outcome] (fulfilled or rejected) and the next state; [await]
      sequences them.  The tasks of one [Promise.allSettled] batch are run in
      the order they are listed. *)

From Stdlib Require Import ZArith QArith Qabs String Ascii List Bool Lia.
From Stdlib Require Import Sorting.Sorted Sorting.Permutation.
From Stdlib Require Import OrderedTypeEx DecimalString.
From stdpp Require Import gmap strings.

Import ListNotations.
Set Warnings "-register-all,-abstract-large-number".
Local Open Scope string_scope.
Local Open Scope Z_scope.

(** ** Constants *)

Definition PAGE_SIZE : nat := 100.
Definition MJ_PAGE_SIZE : nat := 1000.
Definition MAX_PAGES : nat := 50.
Definition MAX_RETRIES : nat := 5.
Definition RETRY_BUFFER_MS : Z := 2000.

(** ** JavaScript values, as far as error payloads need them

    The scalars and objects of a parsed JSON text; numbers are the integers
    (status codes, seconds), and arrays are left out. *)

Inductive JsVal : Type :=
| VUndefined
| VNull
| VBool (b : bool)
| VNum (n : Z)
| VStr (s : string)
| VObj (fields : list (string * JsVal)).

(** [o?.[k]]: the property of an object, [undefined] on every other value. *)
Fixpoint assoc (k : string) (fields : list (string * JsVal)) : JsVal :=
  match fields with
  | [] => VUndefined
  | (k', v) :: rest => if String.eqb k k' then v else assoc k rest
  end.

Definition getProp (o : JsVal) (k : string) : JsVal :=
  match o with
  | VObj fields => assoc k fields
  | _ => VUndefined
  end.

(** Truthiness. *)
Definition truthy (v : JsVal) : bool :=
  match v with
  | VUndefined | VNull => false
  | VBool b => b
  | VNum n => negb (n =? 0)
  | VStr s => negb (String.eqb s "")
  | VObj _ => true
  end.

Definition truthyStr (s : option string) : bool :=
  match s with
  | Some s => negb (String.eqb s "")
  | None => false
  end.

(** Decimal rendering of an integer, as a template literal prints it. *)
Definition showZ (n : Z) : string :=
  NilZero.string_of_int (Z.to_int n).

(** [String(v)]. *)
Definition JsString (v : JsVal) : string :=
  match v with
  | VUndefined => "undefined"
  | VNull => "null"
  | VBool true => "true"
  | VBool false => "false"
  | VNum n => showZ n
  | VStr s => s
  | VObj _ => "[object Object]"
  end.

(** ** String helpers of the host *)

Definition isWhite (c : ascii) : bool :=
  let n := nat_of_ascii c in
  ((9 <=? n)%nat && (n <=? 13)%nat) || (n =? 32)%nat.

Fixpoint trimStart (s : string) : string :=
  match s with
  | String c rest => if isWhite c then trimStart rest else s
  | EmptyString => EmptyString
  end.

(** Drops trailing white space: a character is kept when something that is
    kept follows it, or when it is not white space itself. *)
Fixpoint trimEnd (s : string) : string :=
  match s with
  | EmptyString => EmptyString
  | String c rest =>
      match trimEnd rest with
      | EmptyString => if isWhite c then EmptyString else String c EmptyString
      | kept => String c kept
      end
  end.

(** [s.trim()]. *)
Definition trim (s : string) : string := trimEnd (trimStart s).

(** [s.includes(sub)]. *)
Definition includes (s sub : string) : bool :=
  match index 0 sub s with
  | Some _ => true
  | None => false
  end.

(** [s.split(sep)] for a one-character separator. *)
Fixpoint splitOn (sep : ascii) (s : string) : list string :=
  match s with
  | EmptyString => [EmptyString]
  | String c rest =>
      if Ascii.eqb c sep then EmptyString :: splitOn sep rest
      else
        match splitOn sep rest with
        | piece :: pieces => String c piece :: pieces
        | [] => [String c EmptyString]
        end
  end.

Definition digitOf (c : ascii) : option Z :=
  let n := nat_of_ascii c in
  if ((48 <=? n)%nat && (n <=? 57)%nat) then Some (Z.of_nat (n - 48)) else None.

(** The digits at the front of [s], read in base ten; [acc] is [None] until
    the first digit. *)
Fixpoint readDigits (acc : option Z) (s : string) : option Z :=
  match s with
  | EmptyString => acc
  | String c rest =>
      match digitOf c with
      | Some d =>
          readDigits (Some (match acc with Some a => 10 * a + d | None => d end)) rest
      | None => acc
      end
  end.

(** [parseInt(s, 10)]; [None] is [NaN]. *)
Definition parseInt (s : string) : option Z :=
  match trimStart s with
  | String "-" rest => option_map Z.opp (readDigits None rest)
  | String "+" rest => readDigits None rest
  | rest => readDigits None rest
  end.

(** The double-quote character, for the filter expressions. *)
Definition dq : string := String (ascii_of_nat 34) EmptyString.

(** ** Promises *)

Inductive Outcome (A : Type) : Type :=
| Fulfilled (value : A)
| Rejected (reason : JsVal).
Arguments Fulfilled {A} value.
Arguments Rejected {A} reason.

(** ** The account matcher *)

(** [filter?.length] is truthy. *)
Definition hasLength (filter : option (list string)) : bool :=
  match filter with
  | Some (_ :: _) => true
  | _ => false
  end.

(** [filter.includes(x)]. *)
Definition arrIncludes (filter : option (list string)) (x : string) : bool :=
  match filter with
  | Some l => existsb (String.eqb x) l
  | None => false
  end.

Definition lineMatchesAccount (lineAccountCode lineAccountId : option string)
    (filterCodes filterIds : option (list string)) : bool :=
  if hasLength filterCodes && truthyStr lineAccountCode
     && arrIncludes filterCodes (default "" lineAccountCode) then true
  else if hasLength filterIds && truthyStr lineAccountId
     && arrIncludes filterIds (default "" lineAccountId) then true
  else negb (hasLength filterCodes) && negb (hasLength filterIds).

(** ** The rate-limited fetch wrapper *)

Section Retry.

(** [JSON.parse] of the host; [None] when it throws. *)
Variable JSON_parse : string -> option JsVal.

Definition parseXeroError (error : JsVal) : JsVal :=
  match error with
  | VStr s =>
      match JSON_parse s with
      | Some v => v
      | None => VNull
      end
  | _ => error
  end.

Definition is429 (v : JsVal) : bool :=
  match v with
  | VNum n => n =? 429
  | _ => false
  end.

Definition getRetryAfterMs (error : JsVal) : option Z :=
  let parsed := parseXeroError error in
  let resp := getProp parsed "response" in
  if is429 (getProp resp "statusCode") || is429 (getProp resp "status") then
    let retryAfter := getProp (getProp resp "headers") "retry-after" in
    let seconds :=
      if truthy retryAfter then parseInt (JsString retryAfter) else Some 60 in
    Some (match seconds with None => 60 | Some n => n end * 1000 + RETRY_BUFFER_MS)
  else None.

End Retry.

(** ** Documents of the remote service

    Only the fields the handler reads are kept. *)

(** The value of a date field, as [formatDate] tells it apart.  A [Date] is
    one with a time value; on an invalid [Date], whose time value is [NaN],
    [toISOString] throws a [RangeError]: documents with such a date are not
    among the documents of this model. *)
Inductive JsDate : Type :=
| DateObject (iso : string)   (* a [Date]; [iso] is its [toISOString()] *)
| DateString (s : string)
| DateOther.                  (* absent, or any other value *)

Module LineItem.
Record t : Type := {
  accountCode : option string;
  accountID : option string;
  lineAmount : option Q;
  taxAmount : option Q;
  description : option string
}.
End LineItem.

Module Contact.
Record t : Type := { name : option string }.
End Contact.

Module Invoice.
Record t : Type := {
  type : option string;
  contact : option Contact.t;
  date : JsDate;
  lineItems : option (list LineItem.t);
  invoiceNumber : option string;
  reference : option string
}.
End Invoice.

Module CreditNote.
Record t : Type := {
  type : option string;
  contact : option Contact.t;
  date : JsDate;
  lineItems : option (list LineItem.t);
  creditNoteNumber : option string;
  reference : option string
}.
End CreditNote.

Module BankAccount.
Record t : Type := {
  code : option string;
  name : option string;
  accountID : option string
}.
End BankAccount.

Module BankTransaction.
Record t : Type := {
  type : option string;
  contact : option Contact.t;
  date : JsDate;
  bankAccount : option BankAccount.t;
  lineItems : option (list LineItem.t);
  reference : option string;
  total : option Q;
  subTotal : option Q;
  totalTax : option Q
}.
End BankTransaction.

Module ManualJournalLine.
Record t : Type := {
  accountCode : option string;
  accountID : option string;
  lineAmount : option Q;
  taxAmount : option Q;
  description : option string
}.
End ManualJournalLine.

Module ManualJournal.
Record t : Type := {
  date : JsDate;
  journalLines : option (list ManualJournalLine.t);
  narration : option string
}.
End ManualJournal.

Module Account.
Record t : Type := {
  code : option string;
  name : option string
}.
End Account.

(** ** Results *)

Record AccountTransactionRow : Type := {
  date : string;
  source : string;
  contactName : option string;
  description : option string;
  invoiceNumber : option string;
  reference : option string;
  debit : option Q;
  credit : option Q;
  net : option Q;
  gross : option Q;
  vat : option Q;
  accountCode : option string;
  accountName : option string;
  relatedAccount : option string
}.

Record AccountTransactionsResult : Type := {
  rows : list AccountTransactionRow;
  hasMore : bool;
  nextOffset : option Z;
  warnings : list string
}.

Module FetchResult.
Record t : Type := {
  rows : list AccountTransactionRow;
  truncated : bool;
  scanned : Z
}.
End FetchResult.

Record XeroClientResponse : Type := {
  result : option AccountTransactionsResult;
  isError : bool;
  error : option string
}.

(** ** Helpers on dates and amounts *)

Definition formatDate (d : JsDate) : string :=
  match d with
  | DateObject iso => substring 0 10 iso
  | DateString s => substring 0 10 s
  | DateOther => ""
  end.

(** [x > 0] and [x < 0] on amounts. *)
Definition Qpositive (x : Q) : bool := negb (Qle_bool x 0).
Definition Qnegative (x : Q) : bool := negb (Qle_bool 0 x).

(** [netToAccount > 0 ? netToAccount : null]. *)
Definition debitOf (netToAccount : Q) : option Q :=
  if Qpositive netToAccount then Some netToAccount else None.

(** [netToAccount < 0 ? Math.abs(netToAccount) : null]. *)
Definition creditOf (netToAccount : Q) : option Q :=
  if Qnegative netToAccount then Some (Qabs netToAccount) else None.

Definition contactNameOf (c : option Contact.t) : option string :=
  match c with
  | Some c => Contact.name c
  | None => None
  end.

Definition typeStrOf (t : option string) : string := default "" t.

(** ** Rows pushed for one document

    The body of each extractor's [for] loop over the documents of a page:
    the rows it pushes for one document, in order. *)

Section Rows.

Variables accountCodes accountIds : option (list string).

Definition liMatches (li : LineItem.t) : bool :=
  lineMatchesAccount (LineItem.accountCode li) (LineItem.accountID li)
    accountCodes accountIds.

Definition mjlMatches (l : ManualJournalLine.t) : bool :=
  lineMatchesAccount (ManualJournalLine.accountCode l) (ManualJournalLine.accountID l)
    accountCodes accountIds.

(** *** Invoices *)

Definition invoiceLineRow (inv : Invoice.t) (li : LineItem.t) : AccountTransactionRow :=
  let typeStr := typeStrOf (Invoice.type inv) in
  let isAccPay := String.eqb typeStr "ACCPAY" in
  let sourceLabel := if isAccPay then "Purchase Invoice" else "Sales Invoice" in
  let lineAmt := default 0%Q (LineItem.lineAmount li) in
  let netToAccount := if isAccPay then lineAmt else Qopp lineAmt in
  let taxAmt := default 0%Q (LineItem.taxAmount li) in
  {| date := formatDate (Invoice.date inv);
     source := sourceLabel;
     contactName := contactNameOf (Invoice.contact inv);
     description := LineItem.description li;
     invoiceNumber := Invoice.invoiceNumber inv;
     reference := Invoice.reference inv;
     debit := debitOf netToAccount;
     credit := creditOf netToAccount;
     net := Some lineAmt;
     gross := Some (Qplus lineAmt taxAmt);
     vat := Some taxAmt;
     accountCode := LineItem.accountCode li;
     accountName := None;
     relatedAccount := None |}.

Definition invoiceRows (inv : Invoice.t) : list AccountTransactionRow :=
  List.map (invoiceLineRow inv)
    (List.filter liMatches (default [] (Invoice.lineItems inv))).

(** *** Credit notes *)

Definition creditNoteLineRow (cn : CreditNote.t) (li : LineItem.t) : AccountTransactionRow :=
  let typeStr := typeStrOf (CreditNote.type cn) in
  let isDebitToAccount := String.eqb typeStr "ACCRECCREDIT" in
  let sourceLabel :=
    if String.eqb typeStr "ACCPAYCREDIT" then "Purchase Credit Note"
    else "Sales Credit Note" in
  let lineAmt := default 0%Q (LineItem.lineAmount li) in
  let netToAccount := if isDebitToAccount then lineAmt else Qopp lineAmt in
  let taxAmt := default 0%Q (LineItem.taxAmount li) in
  {| date := formatDate (CreditNote.date cn);
     source := sourceLabel;
     contactName := contactNameOf (CreditNote.contact cn);
     description := LineItem.description li;
     invoiceNumber := CreditNote.creditNoteNumber cn;
     reference := CreditNote.reference cn;
     debit := debitOf netToAccount;
     credit := creditOf netToAccount;
     net := Some lineAmt;
     gross := Some (Qplus lineAmt taxAmt);
     vat := Some taxAmt;
     accountCode := LineItem.accountCode li;
     accountName := None;
     relatedAccount := None |}.

Definition creditNoteRows (cn : CreditNote.t) : list AccountTransactionRow :=
  List.map (creditNoteLineRow cn)
    (List.filter liMatches (default [] (CreditNote.lineItems cn))).

(** *** Bank transactions *)

Definition bankAcctCode (bt : BankTransaction.t) : option string :=
  match BankTransaction.bankAccount bt with
  | Some a => BankAccount.code a
  | None => None
  end.

Definition bankAcctName (bt : BankTransaction.t) : option string :=
  match BankTransaction.bankAccount bt with
  | Some a => BankAccount.name a
  | None => None
  end.

Definition bankAcctID (bt : BankTransaction.t) : option string :=
  match BankTransaction.bankAccount bt with
  | Some a => BankAccount.accountID a
  | None => None
  end.

Definition isSpend (bt : BankTransaction.t) : bool :=
  String.eqb (typeStrOf (BankTransaction.type bt)) "SPEND".

Definition bankSourceLabel (bt : BankTransaction.t) : string :=
  if isSpend bt then "Spend Money" else "Receive Money".

(** The row of one line item: the side of the transaction that is not the
    bank account. *)
Definition bankLineRow (bt : BankTransaction.t) (li : LineItem.t) : AccountTransactionRow :=
  let lineAmt := default 0%Q (LineItem.lineAmount li) in
  let netToAccount := if isSpend bt then lineAmt else Qopp lineAmt in
  let taxAmt := default 0%Q (LineItem.taxAmount li) in
  {| date := formatDate (BankTransaction.date bt);
     source := bankSourceLabel bt;
     contactName := contactNameOf (BankTransaction.contact bt);
     description := LineItem.description li;
     invoiceNumber := None;
     reference := BankTransaction.reference bt;
     debit := debitOf netToAccount;
     credit := creditOf netToAccount;
     net := Some lineAmt;
     gross := Some (Qplus lineAmt taxAmt);
     vat := Some taxAmt;
     accountCode := LineItem.accountCode li;
     accountName := None;
     relatedAccount :=
       if truthyStr (bankAcctCode bt)
       then Some (trim (default "" (bankAcctCode bt) ++ " - " ++ default "" (bankAcctName bt)))
       else None |}.

(** [bt.lineItems?.map((l) => l.description).filter(Boolean).join("; ") ?? null]. *)
Definition joinedDescriptions (bt : BankTransaction.t) : option string :=
  match BankTransaction.lineItems bt with
  | Some lis =>
      Some (String.concat "; "
              (List.map (default "")
                 (List.filter truthyStr (List.map LineItem.description lis))))
  | None => None
  end.

(** [bt.lineItems?.[0]?.accountCode]. *)
Definition firstLineAccount (bt : BankTransaction.t) : option string :=
  match BankTransaction.lineItems bt with
  | Some (li :: _) => LineItem.accountCode li
  | _ => None
  end.

(** The row of the bank account itself. *)
Definition bankSideRow (bt : BankTransaction.t) : AccountTransactionRow :=
  let totalAmount := default 0%Q (BankTransaction.total bt) in
  let subTotal := default 0%Q (BankTransaction.subTotal bt) in
  let totalTax := default 0%Q (BankTransaction.totalTax bt) in
  let netToAccount := if isSpend bt then Qopp totalAmount else totalAmount in
  {| date := formatDate (BankTransaction.date bt);
     source := bankSourceLabel bt;
     contactName := contactNameOf (BankTransaction.contact bt);
     description := joinedDescriptions bt;
     invoiceNumber := None;
     reference := BankTransaction.reference bt;
     debit := debitOf netToAccount;
     credit := creditOf netToAccount;
     net := Some subTotal;
     gross := Some totalAmount;
     vat := Some totalTax;
     accountCode := bankAcctCode bt;
     accountName := bankAcctName bt;
     relatedAccount := firstLineAccount bt |}.

Definition bankMatches (bt : BankTransaction.t) : bool :=
  lineMatchesAccount (bankAcctCode bt) (bankAcctID bt) accountCodes accountIds.

Definition bankTransactionRows (bt : BankTransaction.t) : list AccountTransactionRow :=
  List.map (bankLineRow bt)
    (List.filter liMatches (default [] (BankTransaction.lineItems bt)))
  ++ (if bankMatches bt then [bankSideRow bt] else []).

(** *** Manual journals *)

Definition allLines (mj : ManualJournal.t) : list ManualJournalLine.t :=
  default [] (ManualJournal.journalLines mj).

Definition matchingLines (mj : ManualJournal.t) : list ManualJournalLine.t :=
  List.filter mjlMatches (allLines mj).

Definition otherLines (mj : ManualJournal.t) : list ManualJournalLine.t :=
  List.filter (fun l => negb (mjlMatches l)) (allLines mj).

Definition journalRelatedAccount (mj : ManualJournal.t) : option string :=
  match otherLines mj with
  | first :: _ => Some (trim (default "" (ManualJournalLine.accountCode first)))
  | [] => None
  end.

Definition journalLineRow (mj : ManualJournal.t) (line : ManualJournalLine.t)
    : AccountTransactionRow :=
  let amt := default 0%Q (ManualJournalLine.lineAmount line) in
  let taxAmt := default 0%Q (ManualJournalLine.taxAmount line) in
  {| date := formatDate (ManualJournal.date mj);
     source := "Manual Journal";
     contactName := None;
     description :=
       match ManualJournalLine.description line with
       | Some d => Some d
       | None => ManualJournal.narration mj
       end;
     invoiceNumber := None;
     reference := ManualJournal.narration mj;
     debit := debitOf amt;
     credit := creditOf amt;
     net := Some amt;
     gross := Some (Qplus amt taxAmt);
     vat := Some taxAmt;
     accountCode := ManualJournalLine.accountCode line;
     accountName := None;
     relatedAccount := journalRelatedAccount mj |}.

Definition manualJournalRows (mj : ManualJournal.t) : list AccountTransactionRow :=
  List.map (journalLineRow mj) (matchingLines mj).

End Rows.

(** ** State and effects

    [remote] is the state of the remote service, of a type [W] the embedding
    leaves open; [slept] lists the delays passed to [sleep], oldest first. *)

Record St (W : Type) : Type := {
  remote : W;
  slept : list Z
}.
Arguments remote {W} _.
Arguments slept {W} _.

(** One call to the remote service. *)
Definition Call (W A : Type) : Type := W -> Outcome A * W.

(** An asynchronous computation of the handler. *)
Definition M (W A : Type) : Type := St W -> Outcome A * St W.

Definition ret {W A} (a : A) : M W A := fun s => (Fulfilled a, s).

Definition bind {W A B} (m : M W A) (k : A -> M W B) : M W B :=
  fun s =>
    match m s with
    | (Fulfilled a, s') => k a s'
    | (Rejected e, s') => (Rejected e, s')
    end.

Notation "'let*' x ':=' m 'in' k" := (bind m (fun x => k))
  (at level 10, x pattern, m at level 100, k at level 200).

(** [await sleep(ms)]. *)
Definition sleep {W} (ms : Z) (s : St W) : St W :=
  {| remote := remote s; slept := slept s ++ [ms] |}.

(** The client of the remote service: the calls the handler makes, with the
    arguments that vary ([where], [page], page size; for manual journals the
    modified-since stamp and the order as well). *)
Record XeroClient (W : Type) : Type := {
  authenticate : Call W unit;
  getAccounts : Call W (option (list Account.t));
  getInvoices : string -> nat -> nat -> Call W (option (list Invoice.t));
  getCreditNotes : string -> nat -> nat -> Call W (option (list CreditNote.t));
  getBankTransactions : string -> nat -> nat -> Call W (option (list BankTransaction.t));
  getManualJournals :
    string -> string -> string -> nat -> nat -> Call W (option (list ManualJournal.t))
}.
Arguments authenticate {W} _.
Arguments getAccounts {W} _.
Arguments getInvoices {W} _.
Arguments getCreditNotes {W} _.
Arguments getBankTransactions {W} _.
Arguments getManualJournals {W} _.

Section Handler.

Context {W : Type}.

(** Host functions and collaborators that are not part of the handler:
    [JSON.parse]; [formatError] of the helpers; the collation
    [a.localeCompare(b)]; and [numberText s], the text a template literal
    prints for [Number(s)]. *)
Variable JSON_parse : string -> option JsVal.
Variable formatError : JsVal -> string.
Variable localeCompare : string -> string -> Z.
Variable numberText : string -> string.

Variable xeroClient : XeroClient W.

(** *** [withRetry]

    The loop [for (attempt = 0; ; attempt++)] retries only while
    [attempt < MAX_RETRIES]; the recursion is on [MAX_RETRIES - attempt],
    the retries still allowed. *)
Fixpoint retryLoop {A} (retriesLeft : nat) (fn : Call W A) (s : St W)
    : Outcome A * St W :=
  match fn (remote s) with
  | (Fulfilled v, w) => (Fulfilled v, {| remote := w; slept := slept s |})
  | (Rejected err, w) =>
      let s' := {| remote := w; slept := slept s |} in
      match getRetryAfterMs JSON_parse err, retriesLeft with
      | Some waitMs, S retriesLeft' => retryLoop retriesLeft' fn (sleep waitMs s')
      | _, _ => (Rejected err, s')
      end
  end.

Definition withRetry {A} (fn : Call W A) : M W A := retryLoop MAX_RETRIES fn.

(** *** [buildDateWhere] *)

Definition datePart (parts : list string) (i : nat) : string :=
  nth i (List.map numberText parts) "undefined".

Definition buildDateWhere (fromDate toDate : string) : string :=
  let f := splitOn "-" fromDate in
  let t := splitOn "-" toDate in
  "Date>=DateTime(" ++ datePart f 0 ++ "," ++ datePart f 1 ++ "," ++ datePart f 2
  ++ ")&&Date<=DateTime(" ++ datePart t 0 ++ "," ++ datePart t 1 ++ "," ++ datePart t 2
  ++ ")".

(** *** [buildAccountNameMap] *)

Definition setAccount (map : gmap string string) (acct : Account.t) : gmap string string :=
  if truthyStr (Account.code acct)
  then <[ default "" (Account.code acct) := default "" (Account.name acct) ]> map
  else map.

Definition buildAccountNameMap : M W (gmap string string) :=
  let* resp := withRetry (getAccounts xeroClient) in
  ret (fold_left setAccount (default [] resp) ∅).

(** [sourceType === t]. *)
Definition sourceIs (sourceType : option string) (t : string) : bool :=
  match sourceType with
  | Some s => String.eqb s t
  | None => false
  end.

Variables fromDate toDate : string.
Variables accountCodes accountIds : option (list string).
Variable sourceType : option string.

(** *** Page loops

    Each loop is [while (page <= MAX_PAGES)] with [page] starting at 1; the
    recursion is on [MAX_PAGES + 1 - page], the pages still allowed. *)

Definition invoiceWhere : string :=
  buildDateWhere fromDate toDate
  ++ "&&Status!=" ++ dq ++ "DRAFT" ++ dq ++ "&&Status!=" ++ dq ++ "DELETED" ++ dq
  ++ (if sourceIs sourceType "ACCREC" then "&&Type==" ++ dq ++ "ACCREC" ++ dq
      else if sourceIs sourceType "ACCPAY" then "&&Type==" ++ dq ++ "ACCPAY" ++ dq
      else "").

(** The page fetch of the loop, wrapped by [withRetry]. *)
Definition invoicePage (page : nat) : M W (option (list Invoice.t)) :=
  withRetry (getInvoices xeroClient invoiceWhere page PAGE_SIZE).

Fixpoint invoicePages (pagesLeft page : nat) (rows : list AccountTransactionRow)
    : M W (list AccountTransactionRow) :=
  match pagesLeft with
  | O => ret rows
  | S pagesLeft' =>
      let* resp := invoicePage page in
      let invoices := default [] resp in
      let rows' := (rows ++ flat_map (invoiceRows accountCodes accountIds) invoices)%list in
      if (length invoices <? PAGE_SIZE)%nat then ret rows'
      else invoicePages pagesLeft' (S page) rows'
  end.

Definition fetchInvoiceRows : M W (list AccountTransactionRow) :=
  if truthyStr sourceType && negb (sourceIs sourceType "ACCREC")
     && negb (sourceIs sourceType "ACCPAY")
  then ret []
  else invoicePages MAX_PAGES 1 [].

Definition creditNoteWhere : string :=
  buildDateWhere fromDate toDate
  ++ "&&Status!=" ++ dq ++ "DRAFT" ++ dq ++ "&&Status!=" ++ dq ++ "DELETED" ++ dq
  ++ (if sourceIs sourceType "ACCRECCREDIT" then "&&Type==" ++ dq ++ "ACCRECCREDIT" ++ dq
      else if sourceIs sourceType "ACCPAYCREDIT" then "&&Type==" ++ dq ++ "ACCPAYCREDIT" ++ dq
      else "").

Definition creditNotePage (page : nat) : M W (option (list CreditNote.t)) :=
  withRetry (getCreditNotes xeroClient creditNoteWhere page PAGE_SIZE).

Fixpoint creditNotePages (pagesLeft page : nat) (rows : list AccountTransactionRow)
    : M W (list AccountTransactionRow) :=
  match pagesLeft with
  | O => ret rows
  | S pagesLeft' =>
      let* resp := creditNotePage page in
      let creditNotes := default [] resp in
      let rows' := (rows ++ flat_map (creditNoteRows accountCodes accountIds) creditNotes)%list in
      if (length creditNotes <? PAGE_SIZE)%nat then ret rows'
      else creditNotePages pagesLeft' (S page) rows'
  end.

Definition fetchCreditNoteRows : M W (list AccountTransactionRow) :=
  if truthyStr sourceType && negb (sourceIs sourceType "ACCRECCREDIT")
     && negb (sourceIs sourceType "ACCPAYCREDIT")
  then ret []
  else creditNotePages MAX_PAGES 1 [].

Definition bankTransactionWhere : string :=
  buildDateWhere fromDate toDate
  ++ "&&Status!=" ++ dq ++ "DELETED" ++ dq
  ++ (if sourceIs sourceType "CASHREC" then "&&Type==" ++ dq ++ "RECEIVE" ++ dq
      else if sourceIs sourceType "CASHPAID" then "&&Type==" ++ dq ++ "SPEND" ++ dq
      else "").

Definition bankTransactionPage (page : nat) : M W (option (list BankTransaction.t)) :=
  withRetry (getBankTransactions xeroClient bankTransactionWhere page PAGE_SIZE).

Fixpoint bankTransactionPages (pagesLeft page : nat) (rows : list AccountTransactionRow)
    : M W (list AccountTransactionRow) :=
  match pagesLeft with
  | O => ret rows
  | S pagesLeft' =>
      let* resp := bankTransactionPage page in
      let txns := default [] resp in
      let rows' := (rows ++ flat_map (bankTransactionRows accountCodes accountIds) txns)%list in
      if (length txns <? PAGE_SIZE)%nat then ret rows'
      else bankTransactionPages pagesLeft' (S page) rows'
  end.

Definition fetchBankTransactionRows : M W (list AccountTransactionRow) :=
  if truthyStr sourceType && negb (sourceIs sourceType "CASHREC")
     && negb (sourceIs sourceType "CASHPAID")
  then ret []
  else bankTransactionPages MAX_PAGES 1 [].

Definition manualJournalWhere : string :=
  buildDateWhere fromDate toDate ++ "&&Status!=" ++ dq ++ "DRAFT" ++ dq.

(** [ifModifiedSince] is [new Date(fromDate + "T00:00:00Z")], given by the
    text it is made from. *)
Definition manualJournalPage (page : nat) : M W (option (list ManualJournal.t)) :=
  let ifModifiedSince := fromDate ++ "T00:00:00Z" in
  withRetry (getManualJournals xeroClient ifModifiedSince manualJournalWhere
               "Date DESC" page MJ_PAGE_SIZE).

(** The loop returns the rows, the value of [page] when it ends, and
    [totalScanned]. *)
Fixpoint manualJournalPages (pagesLeft page : nat) (rows : list AccountTransactionRow)
    (totalScanned : Z) : M W (list AccountTransactionRow * nat * Z) :=
  match pagesLeft with
  | O => ret (rows, page, totalScanned)
  | S pagesLeft' =>
      let* resp := manualJournalPage page in
      let journals := default [] resp in
      let totalScanned' := totalScanned + Z.of_nat (length journals) in
      let rows' := (rows ++ flat_map (manualJournalRows accountCodes accountIds) journals)%list in
      if (length journals <? MJ_PAGE_SIZE)%nat then ret (rows', page, totalScanned')
      else manualJournalPages pagesLeft' (S page) rows' totalScanned'
  end.

Definition fetchManualJournalRows : M W FetchResult.t :=
  if truthyStr sourceType && negb (sourceIs sourceType "MANJOURNAL")
  then ret {| FetchResult.rows := []; FetchResult.truncated := false;
              FetchResult.scanned := 0 |}
  else
    let* loop := manualJournalPages MAX_PAGES 1 [] 0 in
    let '(rows, page, totalScanned) := loop in
    ret {| FetchResult.rows := rows;
           FetchResult.truncated := (MAX_PAGES <? page)%nat;
           FetchResult.scanned := totalScanned |}.

(** *** Enrichment and sort *)

(** The body of the loop that fills in account names, for one row. *)
Definition enrichRow (accountNameMap : gmap string string) (row : AccountTransactionRow)
    : AccountTransactionRow :=
  let accountName' :=
    if truthyStr (accountCode row) && negb (truthyStr (accountName row))
    then accountNameMap !! default "" (accountCode row)
    else accountName row in
  let relatedAccount' :=
    if truthyStr (relatedAccount row)
       && negb (includes (default "" (relatedAccount row)) " - ")
    then
      match accountNameMap !! default "" (relatedAccount row) with
      | Some name =>
          if negb (String.eqb name "")
          then Some (default "" (relatedAccount row) ++ " - " ++ name)
          else relatedAccount row
      | None => relatedAccount row
      end
    else relatedAccount row in
  {| date := date row;
     source := source row;
     contactName := contactName row;
     description := description row;
     invoiceNumber := invoiceNumber row;
     reference := reference row;
     debit := debit row;
     credit := credit row;
     net := net row;
     gross := gross row;
     vat := vat row;
     accountCode := accountCode row;
     accountName := accountName';
     relatedAccount := relatedAccount' |}.

(** The comparator [(a, b) => b.date.localeCompare(a.date)]. *)
Definition compareRows (a b : AccountTransactionRow) : Z :=
  localeCompare (date b) (date a).

(** [Array.prototype.sort] is a stable sort: [a] stays before [b] unless
    the comparator is positive on [(a, b)].  Stable insertion sort. *)
Fixpoint insertRow (x : AccountTransactionRow) (l : list AccountTransactionRow)
    : list AccountTransactionRow :=
  match l with
  | [] => [x]
  | y :: l' => if compareRows x y <=? 0 then x :: l else y :: insertRow x l'
  end.

Definition sortRows (l : list AccountTransactionRow) : list AccountTransactionRow :=
  fold_right insertRow [] l.

(** *** The public handler *)

(** A settled task of row arrays: its rows are pushed, or a warning that
    names the endpoint. *)
Definition settleRows (label : string) (r : Outcome (list AccountTransactionRow))
    (acc : list string * list (list AccountTransactionRow))
    : list string * list (list AccountTransactionRow) :=
  match r with
  | Fulfilled value => (fst acc, (snd acc ++ [value])%list)
  | Rejected reason =>
      ((fst acc ++ [(label ++ " endpoint failed: " ++ formatError reason)%string])%list,
       snd acc)
  end.

Definition truncationWarning (scanned : Z) : string :=
  "Manual Journals results may be incomplete: scanned " ++ showZ scanned
  ++ " journals but hit the pagination limit. "
  ++ "Try narrowing the date range for complete results.".

Definition settleJournals (r : Outcome FetchResult.t)
    (acc : list string * list (list AccountTransactionRow))
    : list string * list (list AccountTransactionRow) :=
  match r with
  | Fulfilled value =>
      ((if FetchResult.truncated value
        then fst acc ++ [truncationWarning (FetchResult.scanned value)]
        else fst acc)%list,
       (snd acc ++ [FetchResult.rows value])%list)
  | Rejected reason =>
      ((fst acc ++ [("Manual Journals endpoint failed: " ++ formatError reason)%string])%list,
       snd acc)
  end.

Definition settleAccounts (r : Outcome (gmap string string)) (warnings : list string)
    : gmap string string * list string :=
  match r with
  | Fulfilled value => (value, warnings)
  | Rejected reason =>
      (∅, (warnings ++ [("Account name lookup failed: " ++ formatError reason)%string])%list)
  end.

Definition listXeroAccountTransactions (s0 : St W) : XeroClientResponse * St W :=
  match authenticate xeroClient (remote s0) with
  | (Rejected e, w) =>
      ({| result := None; isError := true; error := Some (formatError e) |},
       {| remote := w; slept := slept s0 |})
  | (Fulfilled _, w) =>
      let s1 := {| remote := w; slept := slept s0 |} in
      (* batch 1 *)
      let invoices := fetchInvoiceRows s1 in
      let creditNotes := fetchCreditNoteRows (snd invoices) in
      let accounts := buildAccountNameMap (snd creditNotes) in
      let acc := settleRows "Invoices" (fst invoices) ([], []) in
      let acc := settleRows "Credit Notes" (fst creditNotes) acc in
      let names := settleAccounts (fst accounts) (fst acc) in
      let accountNameMap := fst names in
      let acc := (snd names, snd acc) in
      (* batch 2 *)
      let bankTransactions := fetchBankTransactionRows (snd accounts) in
      let manualJournals := fetchManualJournalRows (snd bankTransactions) in
      let acc := settleRows "Bank Transactions" (fst bankTransactions) acc in
      let acc := settleJournals (fst manualJournals) acc in
      let allRows := List.concat (snd acc) in
      let allRows := List.map (enrichRow accountNameMap) allRows in
      let allRows := sortRows allRows in
      ({| result := Some {| rows := allRows; hasMore := false; nextOffset := None;
                            warnings := fst acc |};
          isError := false;
          error := None |},
       snd manualJournals)
  end.

End Handler.

(** * Properties

    ** Predicates of the specification *)

(** The members of an optional filter array. *)
Definition filterSet (filter : option (list string)) : list string := default [] filter.

(** Exactly one of [debit] and [credit] is set. *)
Definition exactlyOne (r : AccountTransactionRow) : Prop :=
  (debit r <> None /\ credit r = None) \/ (debit r = None /\ credit r <> None).

(** A side that is set is positive and has magnitude [|amount|]; the two sides
    are never set together; one is set when [amount] is not zero. *)
Definition sidesFollow (amount : Q) (r : AccountTransactionRow) : Prop :=
  (~ (amount == 0)%Q -> exactlyOne r)
  /\ (forall d, debit r = Some d -> (0 < d)%Q /\ d = Qabs amount /\ credit r = None)
  /\ (forall c, credit r = Some c -> (0 < c)%Q /\ c = Qabs amount /\ debit r = None).

(** The invariant of a row made from a line: the sides follow [net], and
    [gross = net + vat]. *)
Definition lineRowInvariant (r : AccountTransactionRow) : Prop :=
  exists n t,
    net r = Some n /\ vat r = Some t /\ gross r = Some (n + t)%Q /\ sidesFollow n r.

(** What holds of the row [r] of the bank account of the transaction [bt]:
    [net], [vat] and [gross] are the subtotal, the total tax and the total
    that the document states (0 where it states none), and the sides follow
    the total. *)
Definition bankSideOf (bt : BankTransaction.t) (r : AccountTransactionRow) : Prop :=
  net r = Some (default 0%Q (BankTransaction.subTotal bt))
  /\ vat r = Some (default 0%Q (BankTransaction.totalTax bt))
  /\ gross r = Some (default 0%Q (BankTransaction.total bt))
  /\ sidesFollow (default 0%Q (BankTransaction.total bt)) r.

(** The total of the document is its subtotal plus its total tax. *)
Definition totalAddsUp (bt : BankTransaction.t) : Prop :=
  (default 0 (BankTransaction.total bt)
   == default 0 (BankTransaction.subTotal bt) + default 0 (BankTransaction.totalTax bt))%Q.

(** Rows in date-descending order, by the order of character codes. *)
Definition dateDescending (a b : AccountTransactionRow) : Prop :=
  String.leb (date b) (date a) = true.

(** The seven source types the tool names. *)
Definition knownSourceTypes : list string :=
  ["ACCREC"; "ACCPAY"; "ACCRECCREDIT"; "ACCPAYCREDIT"; "CASHREC"; "CASHPAID"; "MANJOURNAL"].

(** ** Sample documents *)

Definition line400 : LineItem.t :=
  {| LineItem.accountCode := Some "400";
     LineItem.accountID := Some "id-400";
     LineItem.lineAmount := Some (100 # 1)%Q;
     LineItem.taxAmount := Some (20 # 1)%Q;
     LineItem.description := Some "Paper" |}.

Definition purchaseInvoice : Invoice.t :=
  {| Invoice.type := Some "ACCPAY";
     Invoice.contact := Some {| Contact.name := Some "Stationer" |};
     Invoice.date := DateString "2024-03-15T00:00:00";
     Invoice.lineItems := Some [line400];
     Invoice.invoiceNumber := Some "INV-1";
     Invoice.reference := None |}.

Definition salesInvoice : Invoice.t :=
  {| Invoice.type := Some "ACCREC";
     Invoice.contact := None;
     Invoice.date := DateString "2024-01-01";
     Invoice.lineItems := Some [line400];
     Invoice.invoiceNumber := Some "INV-2";
     Invoice.reference := None |}.

Definition salesCreditNote : CreditNote.t :=
  {| CreditNote.type := Some "ACCRECCREDIT";
     CreditNote.contact := None;
     CreditNote.date := DateString "2024-02-10";
     CreditNote.lineItems := Some [line400];
     CreditNote.creditNoteNumber := Some "CN-1";
     CreditNote.reference := None |}.

(** A journal of two lines: one on account 200, one with no account code. *)
Definition journalLine200 : ManualJournalLine.t :=
  {| ManualJournalLine.accountCode := Some "200";
     ManualJournalLine.accountID := Some "id-200";
     ManualJournalLine.lineAmount := Some (50 # 1)%Q;
     ManualJournalLine.taxAmount := None;
     ManualJournalLine.description := None |}.

Definition journalLineNoCode : ManualJournalLine.t :=
  {| ManualJournalLine.accountCode := None;
     ManualJournalLine.accountID := Some "id-other";
     ManualJournalLine.lineAmount := Some (- 50 # 1)%Q;
     ManualJournalLine.taxAmount := None;
     ManualJournalLine.description := None |}.

Definition journal : ManualJournal.t :=
  {| ManualJournal.date := DateString "2024-02-10";
     ManualJournal.journalLines := Some [journalLine200; journalLineNoCode];
     ManualJournal.narration := Some "Accrual" |}.

(** ** The fetch wrapper, in the words of the specification *)

(** The failure carries a rate-limit signal: HTTP 429 on its response. *)
Definition rateLimited (JSON_parse : string -> option JsVal) (error : JsVal) : bool :=
  let resp := getProp (parseXeroError JSON_parse error) "response" in
  is429 (getProp resp "statusCode") || is429 (getProp resp "status").

(** The [retry-after] header of the failure's response. *)
Definition retryAfterHeader (JSON_parse : string -> option JsVal) (error : JsVal) : JsVal :=
  getProp (getProp (getProp (parseXeroError JSON_parse error) "response") "headers")
    "retry-after".

(** The header's value in seconds; 60 when the header is absent (or any other
    falsy value) or its text does not start with an integer. *)
Definition headerSeconds (retryAfter : JsVal) : Z :=
  match retryAfter with
  | VUndefined | VNull => 60
  | VStr s => default 60 (parseInt s)
  | other => if truthy other then default 60 (parseInt (JsString other)) else 60
  end.

(** [Failures fn w errs w']: from state [w] of the remote service, [fn] was
    called once per element of [errs], each call was rejected with that
    element, and the service is left in state [w']. *)
Inductive Failures {W A : Type} (fn : Call W A) : W -> list JsVal -> W -> Prop :=
| Failures_nil w : Failures fn w [] w
| Failures_cons w e w1 errs w2 :
    fn w = (Rejected e, w1) -> Failures fn w1 errs w2 -> Failures fn w (e :: errs) w2.

(** A 429 failure whose response says [retry-after: 5]. *)
Definition rateLimit5 : JsVal :=
  VObj [("response",
         VObj [("statusCode", VNum 429);
               ("headers", VObj [("retry-after", VStr "5")])])].

(** A call that is rate-limited the first time and succeeds afterwards; the
    state of the service counts the calls. *)
Definition limitedOnce : Call nat string :=
  fun calls =>
    match calls with
    | O => (Rejected rateLimit5, S calls)
    | _ => (Fulfilled "page", S calls)
    end.

(** ** The page loops, read as one loop

    [pagesOf fetch size pagesLeft page] is the loop that all four extractors
    share, with the row building taken out: it returns the documents of the
    pages it fetched, in order, and the value of [page] when it ends. *)
Fixpoint pagesOf {W D : Type} (fetch : nat -> M W (option (list D))) (size : nat)
    (pagesLeft page : nat) (s : St W) : Outcome (list D * nat) * St W :=
  match pagesLeft with
  | O => (Fulfilled ([], page), s)
  | S pagesLeft' =>
      match fetch page s with
      | (Fulfilled resp, s') =>
          let docs := default [] resp in
          if (length docs <? size)%nat then (Fulfilled (docs, page), s')
          else
            match pagesOf fetch size pagesLeft' (S page) s' with
            | (Fulfilled (rest, lastPage), s'') => (Fulfilled ((docs ++ rest)%list, lastPage), s'')
            | (Rejected e, s'') => (Rejected e, s'')
            end
      | (Rejected e, s') => (Rejected e, s')
      end
  end.

Definition mapOutcome {W A B : Type} (g : A -> B) (r : Outcome A * St W)
    : Outcome B * St W :=
  match r with
  | (Fulfilled a, s) => (Fulfilled (g a), s)
  | (Rejected e, s) => (Rejected e, s)
  end.

(** ** The handler after its tasks have settled *)

Section Settled.

Variable formatError : JsVal -> string.
Variable localeCompare : string -> string -> Z.

(** The warnings and the row arrays, from the settled outcomes of the five
    tasks, in the order the handler looks at them. *)
Definition settledTasks (invoices creditNotes : Outcome (list AccountTransactionRow))
    (accounts : Outcome (gmap string string))
    (bankTransactions : Outcome (list AccountTransactionRow))
    (manualJournals : Outcome FetchResult.t)
    : list string * list (list AccountTransactionRow) :=
  let acc := settleRows formatError "Invoices" invoices ([], []) in
  let acc := settleRows formatError "Credit Notes" creditNotes acc in
  let acc := (snd (settleAccounts formatError accounts (fst acc)), snd acc) in
  let acc := settleRows formatError "Bank Transactions" bankTransactions acc in
  settleJournals formatError manualJournals acc.

Definition settledNames (accounts : Outcome (gmap string string)) : gmap string string :=
  fst (settleAccounts formatError accounts []).

Definition settledResult (invoices creditNotes : Outcome (list AccountTransactionRow))
    (accounts : Outcome (gmap string string))
    (bankTransactions : Outcome (list AccountTransactionRow))
    (manualJournals : Outcome FetchResult.t) : AccountTransactionsResult :=
  let acc := settledTasks invoices creditNotes accounts bankTransactions manualJournals in
  {| rows :=
       sortRows localeCompare
         (List.map (enrichRow (settledNames accounts)) (List.concat (snd acc)));
     hasMore := false;
     nextOffset := None;
     warnings := fst acc |}.

(** The collation orders the dates of the rows of [l] as the order of
    character codes does. *)
Definition collationAgrees (l : list AccountTransactionRow) : Prop :=
  forall a b, In a l -> In b l ->
    (localeCompare (date a) (date b) ?= 0) = String.compare (date a) (date b).

End Settled.

(** The rows of a settled task: none when it was rejected. *)
Definition rowsOf (r : Outcome (list AccountTransactionRow)) : list AccountTransactionRow :=
  match r with
  | Fulfilled value => value
  | Rejected _ => []
  end.

Definition journalRowsOf (r : Outcome FetchResult.t) : list AccountTransactionRow :=
  match r with
  | Fulfilled value => FetchResult.rows value
  | Rejected _ => []
  end.

(** The collation by character codes. *)
Definition codeOrder (a b : string) : Z :=
  match String.compare a b with
  | Lt => -1
  | Eq => 0
  | Gt => 1
  end.

(** ** Sample services

    The state of a sample service counts the calls made to it. *)

Definition firstPage {D : Type} (docs : list D) (page : nat) : option (list D) :=
  Some (if (page =? 1)%nat then docs else []).

(** A service that authenticates, answers page 1 of each listing with the
    given documents and every later page with none. *)
Definition serviceOf (invoices : list Invoice.t) (creditNotes : list CreditNote.t)
    (bankTransactions : list BankTransaction.t) (journals : list ManualJournal.t)
    : XeroClient nat :=
  {| authenticate := fun calls => (Fulfilled tt, S calls);
     getAccounts := fun calls =>
       (Fulfilled (Some [ {| Account.code := Some "400"; Account.name := Some "Stationery" |};
                          {| Account.code := Some "090"; Account.name := Some "Bank" |} ]),
        S calls);
     getInvoices := fun _ page _ calls => (Fulfilled (firstPage invoices page), S calls);
     getCreditNotes := fun _ page _ calls => (Fulfilled (firstPage creditNotes page), S calls);
     getBankTransactions := fun _ page _ calls =>
       (Fulfilled (firstPage bankTransactions page), S calls);
     getManualJournals := fun _ _ _ page _ calls =>
       (Fulfilled (firstPage journals page), S calls) |}.

(** The same, with a bank-transactions listing that always fails. *)
Definition bankDown (client : XeroClient nat) : XeroClient nat :=
  {| authenticate := authenticate client;
     getAccounts := getAccounts client;
     getInvoices := getInvoices client;
     getCreditNotes := getCreditNotes client;
     getBankTransactions := fun _ _ _ calls => (Rejected (VStr "socket hang up"), S calls);
     getManualJournals := getManualJournals client |}.

Definition emptyJournal : ManualJournal.t :=
  {| ManualJournal.date := DateString "2024-02-10";
     ManualJournal.journalLines := None;
     ManualJournal.narration := None |}.

(** A service whose manual-journal listing has 51 full pages of 1000 journals
    and nothing after them. *)
Definition fullJournalPages : XeroClient nat :=
  {| authenticate := fun calls => (Fulfilled tt, S calls);
     getAccounts := fun calls => (Fulfilled None, S calls);
     getInvoices := fun _ _ _ calls => (Fulfilled None, S calls);
     getCreditNotes := fun _ _ _ calls => (Fulfilled None, S calls);
     getBankTransactions := fun _ _ _ calls => (Fulfilled None, S calls);
     getManualJournals := fun _ _ _ page _ calls =>
       (Fulfilled (Some (if (page <=? 51)%nat then repeat emptyJournal 1000 else [])),
        S calls) |}.

(** A SPEND of 100 from bank account 090, one line of 100 on account 400. *)
Definition line400net : LineItem.t :=
  {| LineItem.accountCode := Some "400";
     LineItem.accountID := None;
     LineItem.lineAmount := Some (100 # 1)%Q;
     LineItem.taxAmount := None;
     LineItem.description := Some "Paper" |}.

Definition bank090 : BankAccount.t :=
  {| BankAccount.code := Some "090";
     BankAccount.name := Some "Bank";
     BankAccount.accountID := None |}.

Definition spend100 : BankTransaction.t :=
  {| BankTransaction.type := Some "SPEND";
     BankTransaction.contact := None;
     BankTransaction.date := DateString "2024-03-15";
     BankTransaction.bankAccount := Some bank090;
     BankTransaction.lineItems := Some [line400net];
     BankTransaction.reference := None;
     BankTransaction.total := Some (100 # 1)%Q;
     BankTransaction.subTotal := Some (100 # 1)%Q;
     BankTransaction.totalTax := Some (0 # 1)%Q |}.

(** A SPEND whose document states a subtotal and a tax but no total. *)
Definition spendNoTotal : BankTransaction.t :=
  {| BankTransaction.type := Some "SPEND";
     BankTransaction.contact := None;
     BankTransaction.date := DateString "2024-03-15";
     BankTransaction.bankAccount := Some bank090;
     BankTransaction.lineItems := Some [line400net];
     BankTransaction.reference := None;
     BankTransaction.total := None;
     BankTransaction.subTotal := Some (100 # 1)%Q;
     BankTransaction.totalTax := Some (20 # 1)%Q |}.

Definition start : St nat := {| remote := O; slept := [] |}.

Definition noJSON : string -> option JsVal := fun _ => None.
Definition plainError : JsVal -> string := JsString.
Definition plainNumber : string -> string := fun s => s.

(** The sample service of the sort-order scenario: rows dated 2024-01-01,
    2024-03-15 and 2024-02-10, in that order before the sort. *)
Definition threeDates : XeroClient nat :=
  serviceOf [salesInvoice; purchaseInvoice] [salesCreditNote] [] [].

(** A service with one document of each kind. *)
Definition oneOfEach : XeroClient nat :=
  serviceOf [purchaseInvoice] [salesCreditNote] [spend100] [journal].

(** ** Further predicates and samples *)

(** A call that is rate-limited every time. *)
Definition alwaysLimited : Call nat string :=
  fun calls => (Rejected rateLimit5, S calls).

(** A host [JSON.parse] that reads one text, ["payload"], as [rateLimit5]. *)
Definition parsePayload : string -> option JsVal :=
  fun s => if String.eqb s "payload" then Some rateLimit5 else None.

(** The text [s], after leading white space, does not start with a minus
    sign. *)
Definition unsigned (s : string) : Prop :=
  forall rest, trimStart s <> String "-" rest.

(** A [retry-after] header that is absent, or a text with no minus sign in
    front (numbers, which HTTP headers are not, are left aside). *)
Definition unsignedHeader (header : JsVal) : Prop :=
  match header with
  | VStr text => unsigned text
  | VNum _ => False
  | _ => True
  end.

(** The account code of the row is one of the codes asked for. *)
Definition codeWithin (accountCodes : option (list string)) (r : AccountTransactionRow)
    : Prop :=
  exists c, accountCode r = Some c /\ In c (filterSet accountCodes).

(** The source labels a source type can give. *)
Definition labelsOf (sourceType : string) : list string :=
  if String.eqb sourceType "ACCREC" || String.eqb sourceType "ACCPAY"
  then ["Purchase Invoice"; "Sales Invoice"]
  else if String.eqb sourceType "ACCRECCREDIT" || String.eqb sourceType "ACCPAYCREDIT"
  then ["Purchase Credit Note"; "Sales Credit Note"]
  else if String.eqb sourceType "CASHREC" || String.eqb sourceType "CASHPAID"
  then ["Spend Money"; "Receive Money"]
  else if String.eqb sourceType "MANJOURNAL" then ["Manual Journal"]
  else [].

(** One warning for a rejected task. *)
Definition failed {A : Type} (r : Outcome A) : nat :=
  match r with
  | Fulfilled _ => 0
  | Rejected _ => 1
  end.

(** One warning for the manual journals: rejected, or truncated. *)
Definition failedOrTruncated (r : Outcome FetchResult.t) : nat :=
  match r with
  | Fulfilled fr => if FetchResult.truncated fr then 1 else 0
  | Rejected _ => 1
  end.

Section TasksSettle.

Context {W : Type}.
Variable JSON_parse : string -> option JsVal.
Variable numberText : string -> string.
Variable xeroClient : XeroClient W.
Variables fromDate toDate : string.
Variables accountCodes accountIds : option (list string).
Variable sourceType : option string.

(** From [s0], authentication succeeds and the five tasks settle with the
    given outcomes, run in the order of the handler. *)
Definition tasksSettle (s0 : St W) (inv cn : Outcome (list AccountTransactionRow))
    (accts : Outcome (gmap string string)) (bt : Outcome (list AccountTransactionRow))
    (mj : Outcome FetchResult.t) : Prop :=
  exists u w s2 s3 s4 s5 s6,
    authenticate xeroClient (remote s0) = (Fulfilled u, w)
    /\ fetchInvoiceRows JSON_parse numberText xeroClient fromDate toDate accountCodes
         accountIds sourceType {| remote := w; slept := slept s0 |} = (inv, s2)
    /\ fetchCreditNoteRows JSON_parse numberText xeroClient fromDate toDate accountCodes
         accountIds sourceType s2 = (cn, s3)
    /\ buildAccountNameMap JSON_parse xeroClient s3 = (accts, s4)
    /\ fetchBankTransactionRows JSON_parse numberText xeroClient fromDate toDate
         accountCodes accountIds sourceType s4 = (bt, s5)
    /\ fetchManualJournalRows JSON_parse numberText xeroClient fromDate toDate
         accountCodes accountIds sourceType s5 = (mj, s6).

End TasksSettle.

(** The text has no dash. *)
Fixpoint dashFree (s : string) : bool :=
  match s with
  | EmptyString => true
  | String c rest => negb (Ascii.eqb c "-") && dashFree rest
  end.

(** The rows of [l] dated [d], in the order of [l]. *)
Definition datedOn (d : string) (l : list AccountTransactionRow)
    : list AccountTransactionRow :=
  List.filter (fun r => String.eqb (date r) d) l.

(** The name map of a list of accounts, as [buildAccountNameMap] builds it. *)
Definition namesOf (accounts : list Account.t) : gmap string string :=
  fold_left setAccount accounts ∅.

(** * The tool around the handler

    The callback of the [list-account-transactions] tool: it runs the handler,
    writes the rows to a file in the temporary directory and answers with a
    summary text.  The file system is a map from paths to contents, which a
    write may be refused; [Date.now()] reads the clock of the host. *)

Module ToolContent.
Record t : Type := {
  type : string;
  text : string
}.
End ToolContent.

Record Host : Type := {
  clock : Z;
  files : gmap string string
}.

(** The line feed. *)
Definition newline : string := String (ascii_of_nat 10) EmptyString.

(** What destructuring [null] throws. *)
Definition typeError : JsVal := VStr "TypeError".

Definition accountLabel (accountCodes accountIds : option (list string)) : string :=
  if hasLength accountCodes
  then "accounts " ++ String.concat ", " (default [] accountCodes)
  else if hasLength accountIds
  then "accounts " ++ String.concat ", " (default [] accountIds)
  else "all accounts".

Definition headerLines (fromDate toDate : string)
    (accountCodes accountIds : option (list string))
    (rows : list AccountTransactionRow) (warnings : list string) (tmpFile : string)
    : list string :=
  let head :=
    [ "Account Transactions for " ++ accountLabel accountCodes accountIds;
      "Date range: " ++ fromDate ++ " to " ++ toDate;
      "Rows returned: " ++ showZ (Z.of_nat (length rows));
      "Results file: " ++ tmpFile ] in
  let bullets := List.map (fun w => "  - " ++ w) warnings in
  if (0 <? length warnings)%nat
  then (head ++ ["" ; "Warnings:"] ++ bullets)%list
  else head.

Section Tool.

Context {W : Type}.

Variable JSON_parse : string -> option JsVal.
Variable formatError : JsVal -> string.
Variable localeCompare : string -> string -> Z.
Variable numberText : string -> string.
Variable xeroClient : XeroClient W.

(** Of the host: [os.tmpdir()], [path.join] and
    [JSON.stringify(rows, null, 2)]; and how [fs.writeFileSync] fares:
    [writeError path h] is the error it throws for [path] on the host [h]
    (no such directory, no permission, no room left), if it throws, and
    [afterFailedWrite path h] is the host that the refused write leaves. *)
Variable tmpdir : string.
Variable pathJoin : string -> string -> string.
Variable stringifyRows : list AccountTransactionRow -> string.
Variable writeError : string -> Host -> option JsVal.
Variable afterFailedWrite : string -> Host -> Host.

Definition tmpFileAt (now : Z) : string :=
  pathJoin tmpdir ("xero-acct-txns-" ++ showZ now ++ ".json").

(** [fs.writeFileSync(path, text)]. *)
Definition writeFileSync (path text : string) (h : Host) : Outcome unit * Host :=
  match writeError path h with
  | Some e => (Rejected e, afterFailedWrite path h)
  | None => (Fulfilled tt, {| clock := clock h; files := <[ path := text ]> (files h) |})
  end.

Definition listAccountTransactionsTool (fromDate toDate : string)
    (accountCodes accountIds : option (list string)) (sourceType : option string)
    (s : St W) (h : Host) : Outcome (list ToolContent.t) * St W * Host :=
  let response :=
    listXeroAccountTransactions JSON_parse formatError localeCompare numberText
      xeroClient fromDate toDate accountCodes accountIds sourceType s in
  match error (fst response) with
  | Some e =>
      (Fulfilled [ {| ToolContent.type := "text";
                      ToolContent.text := "Error listing account transactions: " ++ e |} ],
       snd response, h)
  | None =>
      match result (fst response) with
      | None => (Rejected typeError, snd response, h)
      | Some r =>
          let tmpFile := tmpFileAt (clock h) in
          match writeFileSync tmpFile (stringifyRows (rows r)) h with
          | (Rejected e, h') => (Rejected e, snd response, h')
          | (Fulfilled _, h') =>
              (Fulfilled [ {| ToolContent.type := "text";
                              ToolContent.text :=
                                String.concat newline
                                  (headerLines fromDate toDate accountCodes accountIds
                                     (rows r) (warnings r) tmpFile) |} ],
               snd response, h')
          end
      end
  end.

End Tool.

(** * The OAuth helper, [xero-auth.mjs]

    The script's state is the file system (a map from paths to contents), the
    lines printed to the console, the commands handed to [exec], the token
    requests sent and the HTTP responses of the local server, each oldest
    first, and the state of the token endpoint.  A step of the script returns
    a value, throws, exits the process, or waits for ever (the browser never
    calls back).  The local server handles its requests one at a time. *)

Module XeroAuth.

Inductive Step (A : Type) : Type :=
| Ok (value : A)
| Throw (reason : JsVal)
| Exit (code : Z)
| Pending.
Arguments Ok {A} value.
Arguments Throw {A} reason.
Arguments Exit {A} code.
Arguments Pending {A}.

Record State (N : Type) : Type := {
  fs : gmap string string;
  console : list string;
  opened : list string;
  requests : list (list (string * string));
  responses : list (Z * string);
  net : N
}.
Arguments fs {N} _.
Arguments console {N} _.
Arguments opened {N} _.
Arguments requests {N} _.
Arguments responses {N} _.
Arguments net {N} _.

Definition Script (N A : Type) : Type := State N -> Step A * State N.

Definition pure {N A} (a : A) : Script N A := fun s => (Ok a, s).

Definition andThen {N A B} (m : Script N A) (k : A -> Script N B) : Script N B :=
  fun s =>
    match m s with
    | (Ok a, s') => k a s'
    | (Throw e, s') => (Throw e, s')
    | (Exit c, s') => (Exit c, s')
    | (Pending, s') => (Pending, s')
    end.

Notation "'do' x '<-' m ';' k" := (andThen m (fun x => k))
  (at level 10, x name, m at level 100, k at level 200).

(** [console.log] and [console.error]. *)
Definition log {N} (line : string) : Script N unit :=
  fun s =>
    (Ok tt, {| fs := fs s; console := console s ++ [line]; opened := opened s;
               requests := requests s; responses := responses s; net := net s |}).

(** [fs.writeFileSync(path, text)]. *)
Definition writeFile {N} (path text : string) : Script N unit :=
  fun s =>
    (Ok tt, {| fs := <[ path := text ]> (fs s); console := console s; opened := opened s;
               requests := requests s; responses := responses s; net := net s |}).

(** [res.writeHead(status); res.end(body)]. *)
Definition respond {N} (status : Z) (body : string) : Script N unit :=
  fun s =>
    (Ok tt, {| fs := fs s; console := console s; opened := opened s;
               requests := requests s; responses := responses s ++ [(status, body)];
               net := net s |}).

(** [exec(command)]. *)
Definition exec {N} (command : string) : Script N unit :=
  fun s =>
    (Ok tt, {| fs := fs s; console := console s; opened := opened s ++ [command];
               requests := requests s; responses := responses s; net := net s |}).

Definition throw {N A} (e : JsVal) : Script N A := fun s => (Throw e, s).
Definition exit {N A} (code : Z) : Script N A := fun s => (Exit code, s).

(** [o.k]: [None] when [o] is [undefined] or [null] (a [TypeError]). *)
Definition member (o : JsVal) (k : string) : option JsVal :=
  match o with
  | VUndefined | VNull => None
  | _ => Some (getProp o k)
  end.

(** [fields] after [o[k] = v]: the property is replaced where it stands, or
    added at the end. *)
Fixpoint setField (k : string) (v : JsVal) (fields : list (string * JsVal))
    : list (string * JsVal) :=
  match fields with
  | [] => [(k, v)]
  | (k', v') :: rest =>
      if String.eqb k k' then (k, v) :: rest else (k', v') :: setField k v rest
  end.

(** [a || b]. *)
Definition orElse (a b : JsVal) : JsVal := if truthy a then a else b.

(** A request to the local server, as [new URL] reads it: the path and the
    [code] parameter of the query. *)
Record Request : Type := {
  pathname : string;
  code : option string
}.

Definition REDIRECT_URI : string := "http://localhost:3000/callback".
Definition SCOPES : string :=
  "openid profile email accounting.transactions accounting.contacts accounting.settings accounting.reports.read accounting.journals.read offline_access".

Section Script.

Context {N : Type}.

(** Of the host: the two paths next to the script; [JSON.parse] and
    [JSON.stringify(config, null, 2)]; base 64; [encodeURIComponent]; the
    text of [Math.round(v / 60)]; the errors thrown by a failed read, a
    failed parse and a property access on [null]; and the token endpoint,
    which answers a form and an [Authorization] header with the JSON of its
    response. *)
Variables MCP_JSON_PATH REFRESH_TOKEN_PATH : string.
Variable JSON_parse : string -> option JsVal.
Variable JSON_stringify : JsVal -> string.
Variable base64 : string -> string.
Variable encodeURIComponent : string -> string.
Variable minutesText : JsVal -> string.
Variable readError : string -> JsVal.
Variable parseError : string -> JsVal.
Variable typeError : JsVal.
Variable tokenEndpoint : list (string * string) -> string -> Call N JsVal.

Definition readMcpConfig : Script N JsVal :=
  fun s =>
    match fs s !! MCP_JSON_PATH with
    | None => (Throw (readError MCP_JSON_PATH), s)
    | Some raw =>
        match JSON_parse raw with
        | Some config => (Ok config, s)
        | None => (Throw (parseError raw), s)
        end
    end.

Definition writeMcpConfig (config : JsVal) : Script N unit :=
  writeFile MCP_JSON_PATH (JSON_stringify config ++ newline).

(** [o.k], throwing on [undefined] and [null]. *)
Definition dot (o : JsVal) (k : string) : Script N JsVal :=
  match member o k with
  | Some v => pure v
  | None => throw typeError
  end.

Definition getCredentials : Script N (JsVal * JsVal) :=
  do config <- readMcpConfig;
  do mcpServers <- dot config "mcpServers";
  let env := getProp (getProp mcpServers "xero") "env" in
  if negb (truthy (getProp env "XERO_CLIENT_ID"))
     || negb (truthy (getProp env "XERO_CLIENT_SECRET"))
  then
    do _ <- log "Error: XERO_CLIENT_ID and XERO_CLIENT_SECRET not found in .mcp.json";
    exit 1
  else pure (getProp env "XERO_CLIENT_ID", getProp env "XERO_CLIENT_SECRET").

Definition basicAuth (clientId clientSecret : JsVal) : string :=
  base64 (JsString clientId ++ ":" ++ JsString clientSecret).

(** [null] is [None]. *)
Definition loadRefreshToken : Script N (option string) :=
  fun s =>
    match fs s !! REFRESH_TOKEN_PATH with
    | Some text => (Ok (Some (trim text)), s)
    | None => (Ok None, s)
    end.

(** [fs.writeFileSync] takes a string; it throws on any other value. *)
Definition saveRefreshToken (token : JsVal) : Script N unit :=
  match token with
  | VStr text => writeFile REFRESH_TOKEN_PATH text
  | _ => throw typeError
  end.

(** [server.env.XERO_CLIENT_BEARER_TOKEN = accessToken] inside the object
    [mcpServers]; the script is a module, so the assignment throws unless
    [env] is an object. *)
Definition setBearer (server : string) (accessToken : JsVal) (mcpServers : JsVal)
    : Script N JsVal :=
  do entry <- dot mcpServers server;
  do env <- dot entry "env";
  match mcpServers, entry, env with
  | VObj servers, VObj entryFields, VObj envFields =>
      pure (VObj (setField server
                    (VObj (setField "env"
                             (VObj (setField "XERO_CLIENT_BEARER_TOKEN" accessToken
                                      envFields))
                             entryFields))
                    servers))
  | _, _, _ => throw typeError
  end.

Definition updateBearerToken (accessToken : JsVal) : Script N unit :=
  do config <- readMcpConfig;
  do mcpServers <- dot config "mcpServers";
  do mcpServers1 <- setBearer "xero" accessToken mcpServers;
  do mcpServers2 <-
    (if truthy (getProp (getProp mcpServers1 "xero-local") "env")
     then setBearer "xero-local" accessToken mcpServers1
     else pure mcpServers1);
  match config with
  | VObj fields => writeMcpConfig (VObj (setField "mcpServers" mcpServers2 fields))
  | _ => throw typeError
  end.

Definition exchangeToken (params : list (string * string)) (clientId clientSecret : JsVal)
    : Script N JsVal :=
  fun s =>
    let authorization := "Basic " ++ basicAuth clientId clientSecret in
    let answer := tokenEndpoint params authorization (net s) in
    let s' := {| fs := fs s; console := console s; opened := opened s;
                 requests := requests s ++ [params]; responses := responses s;
                 net := snd answer |} in
    match fst answer with
    | Fulfilled tokens => (Ok tokens, s')
    | Rejected e => (Throw e, s')
    end.

(** [null] is [VNull]. *)
Definition refreshFlow (clientId clientSecret : JsVal) (refreshToken : string)
    : Script N JsVal :=
  do _ <- log "Attempting token refresh...";
  do tokens <-
    exchangeToken [("grant_type", "refresh_token"); ("refresh_token", refreshToken)]
      clientId clientSecret;
  do err <- dot tokens "error";
  if truthy err
  then
    do _ <- log ("Refresh failed: "
                 ++ JsString (orElse (getProp tokens "error_description") err));
    pure VNull
  else pure tokens.

Definition authUrl (clientId : JsVal) : string :=
  "https://login.xero.com/identity/connect/authorize"
  ++ "?response_type=code&client_id=" ++ JsString clientId
  ++ "&redirect_uri=" ++ encodeURIComponent REDIRECT_URI
  ++ "&scope=" ++ encodeURIComponent SCOPES ++ "&state=xero-oauth".

(** The request handler of the local server, over the requests that come in;
    the server is closed by the first request it does not ignore. *)
Fixpoint serve (clientId clientSecret : JsVal) (incoming : list Request)
    : Script N JsVal :=
  match incoming with
  | [] => fun s => (Pending, s)
  | req :: rest =>
      if negb (String.eqb (pathname req) "/callback") || negb (truthyStr (code req))
      then
        do _ <- respond 204 "";
        serve clientId clientSecret rest
      else
        fun s =>
          match exchangeToken [("grant_type", "authorization_code");
                               ("code", default "" (code req));
                               ("redirect_uri", REDIRECT_URI)]
                  clientId clientSecret s with
          | (Ok tokens, s1) =>
              match member tokens "error" with
              | Some err =>
                  if truthy err
                  then
                    (do _ <- respond 400
                               ("Token error: "
                                ++ JsString (orElse (getProp tokens "error_description") err));
                     throw (VObj [("message", VStr (JsString err))])) s1
                  else
                    (do _ <- respond 200 "<h1>Authenticated! You can close this tab.</h1>";
                     pure tokens) s1
              | None =>
                  (do _ <- respond 500 ("Error: " ++ JsString (getProp typeError "message"));
                   throw typeError) s1
              end
          | (Throw e, s1) =>
              (do _ <- respond 500 ("Error: " ++ JsString (getProp e "message"));
               throw e) s1
          | (Exit c, s1) => (Exit c, s1)
          | (Pending, s1) => (Pending, s1)
          end
  end.

Definition browserFlow (clientId clientSecret : JsVal) (incoming : list Request)
    : Script N JsVal :=
  do _ <- log "Opening browser for Xero login...";
  do _ <- exec ("open " ++ dq ++ authUrl clientId ++ dq);
  serve clientId clientSecret incoming.

Definition main (argv : list string) (incoming : list Request) : Script N unit :=
  let forceLogin := existsb (String.eqb "--login") argv in
  do credentials <- getCredentials;
  let clientId := fst credentials in
  let clientSecret := snd credentials in
  do refreshed <-
    (if negb forceLogin
     then
       do refreshToken <- loadRefreshToken;
       if truthyStr refreshToken
       then refreshFlow clientId clientSecret (default "" refreshToken)
       else pure VNull
     else pure VNull);
  do tokens <-
    (if negb (truthy refreshed)
     then
       do _ <- log (if forceLogin then "Forcing browser login..."
                    else "No valid refresh token, opening browser...");
       browserFlow clientId clientSecret incoming
     else pure refreshed);
  do accessToken <- dot tokens "access_token";
  do _ <- updateBearerToken accessToken;
  do _ <-
    (if truthy (getProp tokens "refresh_token")
     then saveRefreshToken (getProp tokens "refresh_token")
     else pure tt);
  do _ <- log (newline ++ "Done! .mcp.json updated with new bearer token (valid for "
               ++ minutesText (getProp tokens "expires_in") ++ " min).");
  do _ <- log "Restart Claude Code to pick up the new token.";
  if truthy (getProp tokens "refresh_token")
  then log "Refresh token saved — next time run without --login to auto-refresh."
  else pure tt.

(** [main().catch(...)]: a thrown error is printed and the process exits
    with code 1. *)
Definition program (argv : list string) (incoming : list Request) : Script N unit :=
  fun s =>
    match main argv incoming s with
    | (Throw err, s') =>
        (do _ <- log ("Fatal: " ++ JsString (getProp err "message")); exit 1) s'
    | other => other
    end.

(** The end of [main], once the tokens are in hand: the bearer token is
    written, the refresh token saved, and the closing lines printed. *)
Definition finish (tokens : JsVal) : Script N unit :=
  do accessToken <- dot tokens "access_token";
  do _ <- updateBearerToken accessToken;
  do _ <-
    (if truthy (getProp tokens "refresh_token")
     then saveRefreshToken (getProp tokens "refresh_token")
     else pure tt);
  do _ <- log (newline ++ "Done! .mcp.json updated with new bearer token (valid for "
               ++ minutesText (getProp tokens "expires_in") ++ " min).");
  do _ <- log "Restart Claude Code to pick up the new token.";
  if truthy (getProp tokens "refresh_token")
  then log "Refresh token saved — next time run without --login to auto-refresh."
  else pure tt.

End Script.

(** The value of [mcpServers[server].env[k]] in a configuration. *)
Definition envOf (server k : string) (config : JsVal) : JsVal :=
  getProp (getProp (getProp (getProp config "mcpServers") server) "env") k.

(** The state [s] with another file system. *)
Definition withFiles {N} (files : gmap string string) (s : State N) : State N :=
  {| fs := files; console := console s; opened := opened s; requests := requests s;
     responses := responses s; net := net s |}.

(** The state [s] after the local server has sent more responses. *)
Definition withResponses {N} (more : list (Z * string)) (s : State N) : State N :=
  {| fs := fs s; console := console s; opened := opened s; requests := requests s;
     responses := responses s ++ more; net := net s |}.

(** The state [s] after more lines were printed. *)
Definition withLines {N} (more : list string) (s : State N) : State N :=
  {| fs := fs s; console := console s ++ more; opened := opened s;
     requests := requests s; responses := responses s; net := net s |}.

(** The script [m] sends no token request, opens nothing, answers no HTTP
    request and leaves the token endpoint alone. *)
Definition quiet {N A} (m : Script N A) : Prop :=
  forall s,
    requests (snd (m s)) = requests s /\ opened (snd (m s)) = opened s
    /\ responses (snd (m s)) = responses s /\ net (snd (m s)) = net s.

(** Every token request that [m] sends is a grant of type [grant]. *)
Definition onlyGrants {N A} (grant : string) (m : Script N A) : Prop :=
  forall s,
    exists sent,
      requests (snd (m s)) = (requests s ++ sent)%list
      /\ Forall (fun params => hd_error params = Some ("grant_type", grant)) sent.

(** A request the local server ignores: not the callback, or without a code. *)
Definition ignored (req : Request) : Prop :=
  pathname req <> "/callback" \/ truthyStr (code req) = false.

(** ** A sample host

    Two configurations (one with both credentials and a second server, one
    without the client secret), a parser that knows their two texts, a token
    endpoint that counts its calls and always grants, and requests to the
    local server. *)

Definition sampleMcpPath : string := "/repo/.mcp.json".
Definition sampleRefreshPath : string := "/repo/.xero-refresh-token".

Definition fullConfig : JsVal :=
  VObj [("mcpServers",
         VObj [("xero",
                VObj [("command", VStr "npx");
                      ("env", VObj [("XERO_CLIENT_ID", VStr "id-1");
                                    ("XERO_CLIENT_SECRET", VStr "secret-1");
                                    ("XERO_CLIENT_BEARER_TOKEN", VStr "old")])]);
               ("xero-local",
                VObj [("command", VStr "node");
                      ("env", VObj [("XERO_CLIENT_ID", VStr "id-2")])]);
               ("other", VObj [("command", VStr "sh")])]);
        ("version", VNum 1)].

Definition bareConfig : JsVal :=
  VObj [("mcpServers",
         VObj [("xero", VObj [("env", VObj [("XERO_CLIENT_ID", VStr "id-1")])])])].

Definition sampleParse (raw : string) : option JsVal :=
  if String.eqb raw "full" then Some fullConfig
  else if String.eqb raw "bare" then Some bareConfig
  else None.

Definition sampleStringify (config : JsVal) : string :=
  "bearer=" ++ JsString (envOf "xero" "XERO_CLIENT_BEARER_TOKEN" config).

Definition sampleError (kind detail : string) : JsVal :=
  VObj [("message", VStr (kind ++ ": " ++ detail))].

Definition sampleTokens : JsVal :=
  VObj [("access_token", VStr "access-1");
        ("refresh_token", VStr "refresh-2");
        ("expires_in", VNum 1800)].

Definition grantingEndpoint : list (string * string) -> string -> Call nat JsVal :=
  fun _ _ calls => (Fulfilled sampleTokens, S calls).

(** An endpoint that refuses every refresh grant and grants the rest. *)
Definition refusal : JsVal :=
  VObj [("error", VStr "invalid_grant"); ("error_description", VStr "token expired")].

Definition strictEndpoint : list (string * string) -> string -> Call nat JsVal :=
  fun params _ calls =>
    match params with
    | (_, "refresh_token") :: _ => (Fulfilled refusal, S calls)
    | _ => (Fulfilled sampleTokens, S calls)
    end.

Definition freshState (files : gmap string string) : State nat :=
  {| fs := files; console := []; opened := []; requests := []; responses := [];
     net := 0%nat |}.

Definition refreshState : State nat :=
  freshState {[ sampleMcpPath := "full"; sampleRefreshPath := "refresh-1" ]}.

Definition faviconRequest : Request := {| pathname := "/favicon.ico"; code := None |}.
Definition bareCallback : Request := {| pathname := "/callback"; code := None |}.
Definition codeCallback : Request := {| pathname := "/callback"; code := Some "abc" |}.

Definition sampleServe : list Request -> Script nat JsVal :=
  serve (fun text => text) (sampleError "TypeError" "null") grantingEndpoint
    (VStr "id-1") (VStr "secret-1").

Definition sampleProgram : list string -> list Request -> Script nat unit :=
  program sampleMcpPath sampleRefreshPath sampleParse sampleStringify
    (fun text => text) (fun text => text) (fun _ => "30")
    (sampleError "ENOENT") (sampleError "SyntaxError") (sampleError "TypeError" "null")
    grantingEndpoint.

Definition sampleMain : list string -> list Request -> Script nat unit :=
  main sampleMcpPath sampleRefreshPath sampleParse sampleStringify
    (fun text => text) (fun text => text) (fun _ => "30")
    (sampleError "ENOENT") (sampleError "SyntaxError") (sampleError "TypeError" "null")
    grantingEndpoint.

Definition strictMain : list string -> list Request -> Script nat unit :=
  main sampleMcpPath sampleRefreshPath sampleParse sampleStringify
    (fun text => text) (fun text => text) (fun _ => "30")
    (sampleError "ENOENT") (sampleError "SyntaxError") (sampleError "TypeError" "null")
    strictEndpoint.

Definition sampleUpdate : JsVal -> Script nat unit :=
  updateBearerToken sampleMcpPath sampleParse sampleStringify
    (sampleError "ENOENT") (sampleError "SyntaxError") (sampleError "TypeError" "null").

End XeroAuth.

(** ** Amounts *)

Lemma Qpositive_iff x : Qpositive x = true <-> (0 < x)%Q.
Proof.
  unfold Qpositive. rewrite negb_true_iff.
  split.
  - intros H. apply Qnot_le_lt. intros Hle. apply Qle_bool_iff in Hle. congruence.
  - intros H. destruct (Qle_bool x 0) eqn:E; [|reflexivity].
    apply Qle_bool_iff in E. exfalso. exact (Qlt_not_le _ _ H E).
Qed.

Lemma Qnegative_iff x : Qnegative x = true <-> (x < 0)%Q.
Proof.
  unfold Qnegative. rewrite negb_true_iff.
  split.
  - intros H. apply Qnot_le_lt. intros Hle. apply Qle_bool_iff in Hle. congruence.
  - intros H. destruct (Qle_bool 0 x) eqn:E; [|reflexivity].
    apply Qle_bool_iff in E. exfalso. exact (Qlt_not_le _ _ H E).
Qed.

Lemma Qabs_opp_eq x : Qabs (- x) = Qabs x.
Proof. destruct x as [a b]. unfold Qabs, Qopp. simpl. now rewrite Z.abs_opp. Qed.

Lemma Qabs_of_pos x : (0 < x)%Q -> Qabs x = x.
Proof.
  destruct x as [a b]. unfold Qlt, Qabs. simpl. intros H.
  f_equal. apply Z.abs_eq. lia.
Qed.

Lemma Qabs_pos_of_neg x : (x < 0)%Q -> (0 < Qabs x)%Q.
Proof.
  destruct x as [a b]. unfold Qlt, Qabs. simpl. lia.
Qed.

Lemma Qopp_involutive_eq x : (- - x)%Q = x.
Proof. destruct x as [a b]. unfold Qopp. simpl. now rewrite Z.opp_involutive. Qed.

(** The two sides computed from [netToAccount]. *)
Lemma sides_of_net (nta : Q) :
  (~ (nta == 0)%Q ->
     (debitOf nta <> None /\ creditOf nta = None)
     \/ (debitOf nta = None /\ creditOf nta <> None))
  /\ (forall d, debitOf nta = Some d -> (0 < d)%Q /\ d = Qabs nta /\ creditOf nta = None)
  /\ (forall c, creditOf nta = Some c -> (0 < c)%Q /\ c = Qabs nta /\ debitOf nta = None).
Proof.
  unfold debitOf, creditOf.
  destruct (Qpositive nta) eqn:Hp; destruct (Qnegative nta) eqn:Hn.
  - apply Qpositive_iff in Hp. apply Qnegative_iff in Hn.
    exfalso. exact (Qlt_irrefl _ (Qlt_trans _ _ _ Hp Hn)).
  - apply Qpositive_iff in Hp.
    repeat split; try discriminate.
    + intros _. left. split; [discriminate | reflexivity].
    + congruence.
    + inversion H; subst. symmetry. now apply Qabs_of_pos.
  - apply Qnegative_iff in Hn.
    repeat split; try discriminate.
    + intros _. right. split; [reflexivity | discriminate].
    + inversion H; subst. now apply Qabs_pos_of_neg.
    + congruence.
  - repeat split; try discriminate.
    intros Hz. exfalso. apply Hz.
    apply Qle_antisym.
    + destruct (Qle_bool nta 0) eqn:E; [now apply Qle_bool_iff|].
      unfold Qpositive in Hp. rewrite E in Hp. discriminate.
    + destruct (Qle_bool 0 nta) eqn:E; [now apply Qle_bool_iff|].
      unfold Qnegative in Hn. rewrite E in Hn. discriminate.
Qed.

Lemma sidesFollow_intro (amount nta : Q) (r : AccountTransactionRow) :
  debit r = debitOf nta -> credit r = creditOf nta ->
  (nta = amount \/ nta = (- amount)%Q) ->
  sidesFollow amount r.
Proof.
  intros Hd Hc Hn.
  assert (Habs : Qabs nta = Qabs amount).
  { destruct Hn as [-> | ->]; [reflexivity | apply Qabs_opp_eq]. }
  assert (Hz : ~ (amount == 0)%Q -> ~ (nta == 0)%Q).
  { intros Ha Hn0. apply Ha. destruct Hn as [-> | ->]; [exact Hn0|].
    rewrite <- (Qopp_involutive_eq amount). rewrite Hn0. reflexivity. }
  destruct (sides_of_net nta) as (H1 & H2 & H3).
  unfold sidesFollow, exactlyOne. rewrite Hd, Hc, <- Habs.
  split; [auto | split; assumption].
Qed.

(** ** Rows of one document *)

(** A row built by one of the extractors states its three amounts outright;
    what is left is how its sides follow [netToAccount]. *)
Ltac row_amounts :=
  unfold lineRowInvariant, bankSideOf;
  repeat (match goal with |- exists _, _ => eexists end);
  repeat (match goal with |- _ = _ /\ _ => split; [reflexivity|] end);
  eapply sidesFollow_intro; [reflexivity | reflexivity | cbn].

Section RowFacts.

Variables accountCodes accountIds : option (list string).

Lemma invoiceLineRow_invariant inv li : lineRowInvariant (invoiceLineRow inv li).
Proof.
  row_amounts. destruct (String.eqb _ _); auto.
Qed.

Lemma creditNoteLineRow_invariant cn li : lineRowInvariant (creditNoteLineRow cn li).
Proof.
  row_amounts. destruct (String.eqb _ "ACCRECCREDIT"); auto.
Qed.

Lemma bankLineRow_invariant bt li : lineRowInvariant (bankLineRow bt li).
Proof.
  row_amounts. destruct (isSpend bt); auto.
Qed.

Lemma bankSideRow_invariant bt : bankSideOf bt (bankSideRow bt).
Proof.
  row_amounts. destruct (isSpend bt); auto.
Qed.

Lemma journalLineRow_invariant mj line :
  lineRowInvariant (journalLineRow accountCodes accountIds mj line).
Proof.
  row_amounts. auto.
Qed.

Lemma invoiceRows_invariant inv :
  Forall lineRowInvariant (invoiceRows accountCodes accountIds inv).
Proof. apply Forall_map, Forall_forall. intros. apply invoiceLineRow_invariant. Qed.

Lemma creditNoteRows_invariant cn :
  Forall lineRowInvariant (creditNoteRows accountCodes accountIds cn).
Proof. apply Forall_map, Forall_forall. intros. apply creditNoteLineRow_invariant. Qed.

Lemma manualJournalRows_invariant mj :
  Forall lineRowInvariant (manualJournalRows accountCodes accountIds mj).
Proof. apply Forall_map, Forall_forall. intros. apply journalLineRow_invariant. Qed.

Lemma bankTransactionRows_invariant bt :
  Forall (fun r => lineRowInvariant r \/ exists bt', r = bankSideRow bt')
    (bankTransactionRows accountCodes accountIds bt).
Proof.
  unfold bankTransactionRows. apply Forall_app. split.
  - apply Forall_map, Forall_forall. intros. left. apply bankLineRow_invariant.
  - destruct (bankMatches _ _ _); constructor; [|constructor].
    right. now exists bt.
Qed.

End RowFacts.

(** ** The account matcher *)

Lemma hasLength_false filter : hasLength filter = false <-> filterSet filter = [].
Proof. destruct filter as [[|x l]|]; simpl; split; congruence. Qed.

Lemma arrIncludes_iff filter x : arrIncludes filter x = true <-> In x (filterSet filter).
Proof.
  destruct filter as [l|]; simpl; [|split; [discriminate | tauto]].
  rewrite existsb_exists. split.
  - intros (y & Hy & Heq). apply String.eqb_eq in Heq. now subst.
  - intros H. exists x. split; [assumption | apply String.eqb_refl].
Qed.

Lemma truthyStr_iff (s : option string) :
  truthyStr s = true <-> exists c, s = Some c /\ c <> "".
Proof.
  destruct s as [c|]; simpl.
  - rewrite negb_true_iff, String.eqb_neq. split.
    + intros H. now exists c.
    + intros (c' & [= <-] & H). exact H.
  - split; [discriminate | intros (c & H & _); discriminate].
Qed.

(** One identifier against its filter: the first two tests of the matcher. *)
Lemma identifier_test (x : option string) filter :
  hasLength filter && truthyStr x && arrIncludes filter (default "" x) = true
  <-> exists c, x = Some c /\ c <> "" /\ In c (filterSet filter).
Proof.
  rewrite !andb_true_iff, truthyStr_iff, arrIncludes_iff. split.
  - intros ((_ & c & -> & Hc) & Hin). exists c. auto.
  - intros (c & -> & Hc & Hin). repeat split; eauto.
    destruct filter as [[|y l]|]; simpl in *; tauto.
Qed.

(** C7 (as amended).  The account matcher returns true if and only if the
    line's code is present, not the empty string, and a member of the code
    filter; or the line's id is present, not the empty string, and a member of
    the id filter; or both filters are absent or empty (pass-through: with no
    account filter every line matches). *)
Theorem lineMatchesAccount_iff (code id : option string)
    (filterCodes filterIds : option (list string)) :
  lineMatchesAccount code id filterCodes filterIds = true <->
    (exists c, code = Some c /\ c <> "" /\ In c (filterSet filterCodes))
    \/ (exists i, id = Some i /\ i <> "" /\ In i (filterSet filterIds))
    \/ (filterSet filterCodes = [] /\ filterSet filterIds = []).
Proof.
  unfold lineMatchesAccount.
  rewrite <- !identifier_test, <- !hasLength_false.
  destruct (hasLength filterCodes && truthyStr code
            && arrIncludes filterCodes (default "" code)) eqn:E1.
  { split; auto. }
  destruct (hasLength filterIds && truthyStr id
            && arrIncludes filterIds (default "" id)) eqn:E2.
  { split; auto. }
  rewrite andb_true_iff, !negb_true_iff.
  split; [auto | intros [H | [H | H]]; [discriminate | discriminate | exact H]].
Qed.

(** C7, the claim as written fails: the empty string is a member of the code
    filter [[""]], yet a line whose code is the empty string does not match. *)
Lemma lineMatchesAccount_empty_code :
  In "" (filterSet (Some [""]))
  /\ lineMatchesAccount (Some "") None (Some [""]) None = false.
Proof. split; [left; reflexivity | reflexivity]. Qed.

(** ** Enrichment *)

Lemma enrichRow_amounts m r :
  debit (enrichRow m r) = debit r /\ credit (enrichRow m r) = credit r
  /\ net (enrichRow m r) = net r /\ gross (enrichRow m r) = gross r
  /\ vat (enrichRow m r) = vat r /\ date (enrichRow m r) = date r
  /\ source (enrichRow m r) = source r.
Proof. repeat split. Qed.

Lemma enrichRow_related_falsy m r :
  truthyStr (relatedAccount r) = false ->
  relatedAccount (enrichRow m r) = relatedAccount r.
Proof. intros H. unfold enrichRow. simpl. now rewrite H. Qed.

Lemma enrichRow_related_none m r :
  relatedAccount (enrichRow m r) = None <-> relatedAccount r = None.
Proof.
  unfold enrichRow. simpl.
  destruct (relatedAccount r) as [rel|] eqn:E; simpl; [|tauto].
  destruct (negb (rel =? "")%string && negb (includes rel " - ")); [|tauto].
  destruct (m !! rel) as [name|]; [|tauto].
  destruct (negb (name =? "")%string); split; discriminate.
Qed.

Lemma enrichRow_invariant m r :
  (lineRowInvariant r -> lineRowInvariant (enrichRow m r))
  /\ (forall bt, bankSideOf bt r -> bankSideOf bt (enrichRow m r)).
Proof. split; [intros H | intros bt H]; exact H. Qed.

(** ** Invoice and credit-note lines *)

Lemma sides_of_positive L : (0 < L)%Q -> debitOf L = Some L /\ creditOf L = None.
Proof.
  intros H. unfold debitOf, creditOf.
  assert (Hp : Qpositive L = true) by now apply Qpositive_iff.
  assert (Hn : Qnegative L = false).
  { destruct (Qnegative L) eqn:E; [|reflexivity].
    apply Qnegative_iff in E. exfalso. exact (Qlt_irrefl _ (Qlt_trans _ _ _ H E)). }
  now rewrite Hp, Hn.
Qed.

Lemma sides_of_negated L :
  (0 < L)%Q -> debitOf (- L) = None /\ creditOf (- L) = Some L.
Proof.
  intros H. unfold debitOf, creditOf.
  assert (Hlt : (- L < 0)%Q).
  { destruct L as [a b]. unfold Qlt, Qopp in *. simpl in *. lia. }
  assert (Hn : Qnegative (- L) = true) by now apply Qnegative_iff.
  assert (Hp : Qpositive (- L) = false).
  { destruct (Qpositive (- L)) eqn:E; [|reflexivity].
    apply Qpositive_iff in E. exfalso. exact (Qlt_irrefl _ (Qlt_trans _ _ _ E Hlt)). }
  rewrite Hp, Hn, Qabs_opp_eq, Qabs_of_pos by assumption. auto.
Qed.

Lemma In_matching {A B} (f : A -> B) (p : A -> bool) (x : A) (l : list A) :
  In x l -> p x = true -> In (f x) (List.map f (List.filter p l)).
Proof. intros Hin Hp. apply in_map, filter_In. auto. Qed.

(** The row of a matching line item with a positive line amount [L], by the
    type of its document. *)
Lemma line_rows_values (accountCodes accountIds : option (list string))
    (li : LineItem.t) (L : Q) :
  LineItem.lineAmount li = Some L -> (0 < L)%Q ->
  liMatches accountCodes accountIds li = true ->
  (forall inv lis, Invoice.lineItems inv = Some lis -> In li lis ->
     let r := invoiceLineRow inv li in
     In r (invoiceRows accountCodes accountIds inv)
     /\ (forall m, relatedAccount r = None /\ relatedAccount (enrichRow m r) = None)
     /\ (Invoice.type inv = Some "ACCPAY" ->
           debit r = Some L /\ credit r = None /\ source r = "Purchase Invoice")
     /\ (Invoice.type inv = Some "ACCREC" ->
           credit r = Some L /\ debit r = None /\ source r = "Sales Invoice"))
  /\ (forall cn lis, CreditNote.lineItems cn = Some lis -> In li lis ->
     let r := creditNoteLineRow cn li in
     In r (creditNoteRows accountCodes accountIds cn)
     /\ (forall m, relatedAccount r = None /\ relatedAccount (enrichRow m r) = None)
     /\ (CreditNote.type cn = Some "ACCRECCREDIT" ->
           debit r = Some L /\ credit r = None /\ source r = "Sales Credit Note")
     /\ (CreditNote.type cn = Some "ACCPAYCREDIT" ->
           credit r = Some L /\ debit r = None /\ source r = "Purchase Credit Note")).
Proof.
  intros HL Hpos Hm.
  destruct (sides_of_positive L Hpos) as [Hd Hc].
  destruct (sides_of_negated L Hpos) as [Hd' Hc'].
  split.
  - intros inv lis Hlis Hin r. split; [|split; [|split]].
    + unfold invoiceRows. rewrite Hlis. now apply In_matching.
    + intros m. split; [reflexivity | now apply enrichRow_related_none].
    + intros Ht. subst r. unfold invoiceLineRow. rewrite Ht, HL. cbn. auto.
    + intros Ht. subst r. unfold invoiceLineRow. rewrite Ht, HL. cbn. auto.
  - intros cn lis Hlis Hin r. split; [|split; [|split]].
    + unfold creditNoteRows. rewrite Hlis. now apply In_matching.
    + intros m. split; [reflexivity | now apply enrichRow_related_none].
    + intros Ht. subst r. unfold creditNoteLineRow. rewrite Ht, HL. cbn. auto.
    + intros Ht. subst r. unfold creditNoteLineRow. rewrite Ht, HL. cbn. auto.
Qed.

(** ** Manual journals: the related account *)

Lemma filter_negb_nil {A} (p : A -> bool) (l : list A) :
  List.filter (fun x => negb (p x)) l = [] -> Forall (fun x => p x = true) l.
Proof.
  induction l as [|x l IH]; simpl; [constructor|].
  destruct (p x) eqn:E; simpl; [|discriminate].
  intros H. constructor; auto.
Qed.

(** C10.  When the first non-matching line of a manual journal has no account
    code, every row of the journal has the empty string as its related
    account, and enrichment leaves it so; the related account of a row of a
    journal is null only when every line of the journal matches the filter. *)
Theorem journal_related_account (accountCodes accountIds : option (list string))
    (mj : ManualJournal.t) (r : AccountTransactionRow) :
  In r (manualJournalRows accountCodes accountIds mj) ->
  (forall first rest,
      otherLines accountCodes accountIds mj = first :: rest ->
      ManualJournalLine.accountCode first = None ->
      relatedAccount r = Some ""
      /\ forall m, relatedAccount (enrichRow m r) = Some "")
  /\ (forall m,
      relatedAccount r = None \/ relatedAccount (enrichRow m r) = None ->
      Forall (fun l => mjlMatches accountCodes accountIds l = true) (allLines mj)).
Proof.
  intros Hin. unfold manualJournalRows in Hin.
  apply in_map_iff in Hin. destruct Hin as (line & <- & _).
  split.
  - intros first rest Hother Hcode.
    assert (Hrel : relatedAccount (journalLineRow accountCodes accountIds mj line) = Some "").
    { cbn. unfold journalRelatedAccount. now rewrite Hother, Hcode. }
    split; [exact Hrel|].
    intros m. rewrite enrichRow_related_falsy; [exact Hrel | now rewrite Hrel].
  - intros m H.
    assert (Hnone : relatedAccount (journalLineRow accountCodes accountIds mj line) = None).
    { destruct H as [H | H]; [exact H | now apply enrichRow_related_none in H]. }
    cbn in Hnone. unfold journalRelatedAccount in Hnone.
    destruct (otherLines accountCodes accountIds mj) eqn:E; [|discriminate].
    now apply filter_negb_nil.
Qed.

Lemma journal_related_account_witness :
  let r := journalLineRow None (Some ["id-200"]) journal journalLine200 in
  otherLines None (Some ["id-200"]) journal = [journalLineNoCode]
  /\ In r (manualJournalRows None (Some ["id-200"]) journal)
  /\ relatedAccount r = Some ""
  /\ relatedAccount (enrichRow ∅ r) = Some "".
Proof.
  assert (Hin : In (journalLineRow None (Some ["id-200"]) journal journalLine200)
                  (manualJournalRows None (Some ["id-200"]) journal))
    by (left; reflexivity).
  destruct (journal_related_account None (Some ["id-200"]) journal _ Hin) as [H _].
  destruct (H journalLineNoCode [] eq_refl eq_refl) as [H1 H2].
  split; [reflexivity|]. split; [exact Hin|]. split; [exact H1 | exact (H2 ∅)].
Defined.

(** ** The fetch wrapper *)

Section RetryFacts.

Context {W : Type}.
Variable JSON_parse : string -> option JsVal.

Lemma getRetryAfterMs_formula error :
  getRetryAfterMs JSON_parse error =
    if rateLimited JSON_parse error
    then Some (headerSeconds (retryAfterHeader JSON_parse error) * 1000 + 2000)
    else None.
Proof.
  unfold getRetryAfterMs, rateLimited, retryAfterHeader.
  destruct (is429 _ || is429 _); [|reflexivity].
  f_equal. unfold headerSeconds, RETRY_BUFFER_MS.
  destruct (getProp _ "retry-after") as [| |b|n|s|fields]; try reflexivity.
  - now destruct (truthy (VBool b)).
  - now destruct (truthy (VNum n)).
  - cbn [truthy JsString].
    destruct (negb (s =? "")%string) eqn:E; [reflexivity|].
    apply negb_false_iff, String.eqb_eq in E. now subst.
Qed.

(** The loop, for any number of retries allowed. *)
Lemma retryLoop_calls {A} (fn : Call W A) (n : nat) (s : St W) :
  exists errs waits w,
    Failures fn (remote s) errs w
    /\ Forall2 (fun e ms => getRetryAfterMs JSON_parse e = Some ms) errs waits
    /\ (length errs <= n)%nat
    /\ retryLoop JSON_parse n fn s
       = (fst (fn w), {| remote := snd (fn w); slept := slept s ++ waits |})
    /\ (forall e, fst (fn w) = Rejected e ->
          getRetryAfterMs JSON_parse e = None \/ length errs = n).
Proof.
  revert s. induction n as [|n IH]; intros s.
  - exists [], [], (remote s). simpl.
    repeat split; [constructor | constructor | lia | | auto].
    rewrite app_nil_r.
    destruct (fn (remote s)) as [[v|e] w]; simpl; [reflexivity|].
    now destruct (getRetryAfterMs JSON_parse e).
  - simpl. destruct (fn (remote s)) as [[v|e] w] eqn:Hfn.
    + exists [], [], (remote s). rewrite Hfn. simpl. rewrite app_nil_r.
      repeat split; [constructor | constructor | lia | discriminate].
    + destruct (getRetryAfterMs JSON_parse e) as [ms|] eqn:Hms.
      * destruct (IH (sleep ms {| remote := w; slept := slept s |}))
          as (errs & waits & w' & Hf & Hw & Hlen & Heq & Hlast).
        exists (e :: errs), (ms :: waits), w'. simpl in *.
        repeat split.
        -- econstructor; eassumption.
        -- constructor; assumption.
        -- lia.
        -- rewrite Heq. now rewrite <- app_assoc.
        -- intros e' He'. destruct (Hlast e' He'); auto.
      * exists [], [], (remote s). rewrite Hfn. simpl. rewrite app_nil_r.
        repeat split; [constructor | constructor | lia |].
        intros e' [= <-]. auto.
Qed.

Lemma withRetry_second_call {A} (fn : Call W A) (s : St W) e w1 v w2 ms :
  fn (remote s) = (Rejected e, w1) ->
  getRetryAfterMs JSON_parse e = Some ms ->
  fn w1 = (Fulfilled v, w2) ->
  withRetry JSON_parse fn s = (Fulfilled v, {| remote := w2; slept := slept s ++ [ms] |}).
Proof.
  intros H1 Hms H2. unfold withRetry. simpl. rewrite H1, Hms. simpl. now rewrite H2.
Qed.

(** C6.  A failure that carries HTTP 429 makes the wrapper sleep
    (retry-after seconds, 60 when the header is absent or unparsable)
    x 1000 + 2000 ms and call again; it retries at most 5 times; its result
    is the outcome of its last call, untouched, and a rejection is returned
    only when it is not a 429 or the 5 retries are used up.  When the first
    call fails with 429 and [retry-after: 5] and the second succeeds, the
    wrapper sleeps 7000 ms and returns the second call's result. *)
Theorem withRetry_rate_limit :
  (forall error,
      getRetryAfterMs JSON_parse error =
        if rateLimited JSON_parse error
        then Some (headerSeconds (retryAfterHeader JSON_parse error) * 1000 + 2000)
        else None)
  /\ (forall A (fn : Call W A) (s : St W),
      exists errs waits w,
        Failures fn (remote s) errs w
        /\ Forall2 (fun e ms => getRetryAfterMs JSON_parse e = Some ms) errs waits
        /\ (length errs <= 5)%nat
        /\ withRetry JSON_parse fn s
           = (fst (fn w), {| remote := snd (fn w); slept := slept s ++ waits |})
        /\ (forall e, fst (fn w) = Rejected e ->
              getRetryAfterMs JSON_parse e = None \/ length errs = 5%nat))
  /\ (forall A (fn : Call W A) (s : St W) e w1 v w2,
      fn (remote s) = (Rejected e, w1) ->
      rateLimited JSON_parse e = true ->
      retryAfterHeader JSON_parse e = VStr "5" ->
      fn w1 = (Fulfilled v, w2) ->
      withRetry JSON_parse fn s
      = (Fulfilled v, {| remote := w2; slept := slept s ++ [7000] |})).
Proof.
  split; [exact getRetryAfterMs_formula|].
  split; [intros A fn s; exact (retryLoop_calls fn MAX_RETRIES s)|].
  intros A fn s e w1 v w2 H1 Hrl Hhdr H2.
  apply (withRetry_second_call fn s e w1 v w2 7000 H1); [|exact H2].
  rewrite getRetryAfterMs_formula, Hrl, Hhdr. reflexivity.
Qed.

End RetryFacts.

Lemma withRetry_rate_limit_witness :
  withRetry (fun _ => None) limitedOnce {| remote := O; slept := [] |}
  = (Fulfilled "page", {| remote := 2%nat; slept := [7000] |}).
Proof.
  destruct (@withRetry_rate_limit nat (fun _ => None)) as (_ & _ & H).
  exact (H string limitedOnce {| remote := O; slept := [] |} rateLimit5 1%nat "page" 2%nat
           eq_refl eq_refl eq_refl eq_refl).
Defined.

(** ** The page loops *)

Section PageLoops.

Context {W : Type}.
Variable JSON_parse : string -> option JsVal.
Variable numberText : string -> string.
Variable xeroClient : XeroClient W.
Variables fromDate toDate : string.
Variables accountCodes accountIds : option (list string).
Variable sourceType : option string.

Abbreviation invoicePage' :=
  (invoicePage JSON_parse numberText xeroClient fromDate toDate sourceType).
Abbreviation creditNotePage' :=
  (creditNotePage JSON_parse numberText xeroClient fromDate toDate sourceType).
Abbreviation bankTransactionPage' :=
  (bankTransactionPage JSON_parse numberText xeroClient fromDate toDate sourceType).
Abbreviation manualJournalPage' :=
  (manualJournalPage JSON_parse numberText xeroClient fromDate toDate).

(** Unfolds one turn of a page loop and follows the page fetch [fetch]. *)
Ltac loop_step fetch IH :=
  cbn [pagesOf mapOutcome]; unfold bind;
  destruct fetch as [[resp|e] s1];
  [ cbn [mapOutcome];
    destruct (_ <? _)%nat;
    [ unfold ret; cbn [mapOutcome fst]
    | rewrite IH;
      match goal with
      | |- context [pagesOf ?f ?n ?k ?p ?s] =>
          destruct (pagesOf f n k p s) as [[[rest lastPage]|e] s2]
      end; cbn [mapOutcome fst] ]
  | reflexivity ].

Lemma invoicePages_docs n page rows s :
  invoicePages JSON_parse numberText xeroClient fromDate toDate accountCodes accountIds
    sourceType n page rows s
  = mapOutcome
      (fun r => (rows ++ flat_map (invoiceRows accountCodes accountIds) (fst r))%list)
      (pagesOf invoicePage' PAGE_SIZE n page s).
Proof.
  revert page rows s. induction n as [|n IH]; intros page rows s.
  - cbn. now rewrite app_nil_r.
  - cbn [invoicePages].
    loop_step (invoicePage' page s) IH.
    + reflexivity.
    + now rewrite flat_map_app, app_assoc.
    + reflexivity.
Qed.

Lemma creditNotePages_docs n page rows s :
  creditNotePages JSON_parse numberText xeroClient fromDate toDate accountCodes accountIds
    sourceType n page rows s
  = mapOutcome
      (fun r => (rows ++ flat_map (creditNoteRows accountCodes accountIds) (fst r))%list)
      (pagesOf creditNotePage' PAGE_SIZE n page s).
Proof.
  revert page rows s. induction n as [|n IH]; intros page rows s.
  - cbn. now rewrite app_nil_r.
  - cbn [creditNotePages].
    loop_step (creditNotePage' page s) IH.
    + reflexivity.
    + now rewrite flat_map_app, app_assoc.
    + reflexivity.
Qed.

Lemma bankTransactionPages_docs n page rows s :
  bankTransactionPages JSON_parse numberText xeroClient fromDate toDate accountCodes
    accountIds sourceType n page rows s
  = mapOutcome
      (fun r =>
         (rows ++ flat_map (bankTransactionRows accountCodes accountIds) (fst r))%list)
      (pagesOf bankTransactionPage' PAGE_SIZE n page s).
Proof.
  revert page rows s. induction n as [|n IH]; intros page rows s.
  - cbn. now rewrite app_nil_r.
  - cbn [bankTransactionPages].
    loop_step (bankTransactionPage' page s) IH.
    + reflexivity.
    + now rewrite flat_map_app, app_assoc.
    + reflexivity.
Qed.

Lemma manualJournalPages_docs n page rows scanned s :
  manualJournalPages JSON_parse numberText xeroClient fromDate toDate accountCodes
    accountIds n page rows scanned s
  = mapOutcome
      (fun r =>
         ((rows ++ flat_map (manualJournalRows accountCodes accountIds) (fst r))%list,
          snd r, scanned + Z.of_nat (length (fst r))))
      (pagesOf manualJournalPage' MJ_PAGE_SIZE n page s).
Proof.
  revert page rows scanned s. induction n as [|n IH]; intros page rows scanned s.
  - cbn. now rewrite app_nil_r, Z.add_0_r.
  - cbn [manualJournalPages].
    loop_step (manualJournalPage' page s) IH.
    + reflexivity.
    + cbn [snd]. now rewrite flat_map_app, app_assoc, length_app, Nat2Z.inj_add, Z.add_assoc.
    + reflexivity.
Qed.

Abbreviation fetchInvoiceRows' :=
  (fetchInvoiceRows JSON_parse numberText xeroClient fromDate toDate accountCodes
     accountIds sourceType).
Abbreviation fetchCreditNoteRows' :=
  (fetchCreditNoteRows JSON_parse numberText xeroClient fromDate toDate accountCodes
     accountIds sourceType).
Abbreviation fetchBankTransactionRows' :=
  (fetchBankTransactionRows JSON_parse numberText xeroClient fromDate toDate accountCodes
     accountIds sourceType).
Abbreviation fetchManualJournalRows' :=
  (fetchManualJournalRows JSON_parse numberText xeroClient fromDate toDate accountCodes
     accountIds sourceType).

(** *** What an extractor returns: the rows of the documents it fetched *)

Lemma fetchInvoiceRows_docs s rows s' :
  fetchInvoiceRows' s = (Fulfilled rows, s') ->
  exists docs, rows = flat_map (invoiceRows accountCodes accountIds) docs.
Proof.
  unfold fetchInvoiceRows. destruct (_ && _ && _).
  - intros [= <- _]. now exists [].
  - rewrite invoicePages_docs.
    destruct (pagesOf _ _ _ _ _) as [[[docs p]|e] s1]; cbn; [|discriminate].
    intros [= <- _]. now exists docs.
Qed.

Lemma fetchCreditNoteRows_docs s rows s' :
  fetchCreditNoteRows' s = (Fulfilled rows, s') ->
  exists docs, rows = flat_map (creditNoteRows accountCodes accountIds) docs.
Proof.
  unfold fetchCreditNoteRows. destruct (_ && _ && _).
  - intros [= <- _]. now exists [].
  - rewrite creditNotePages_docs.
    destruct (pagesOf _ _ _ _ _) as [[[docs p]|e] s1]; cbn; [|discriminate].
    intros [= <- _]. now exists docs.
Qed.

Lemma fetchBankTransactionRows_docs s rows s' :
  fetchBankTransactionRows' s = (Fulfilled rows, s') ->
  exists docs, rows = flat_map (bankTransactionRows accountCodes accountIds) docs.
Proof.
  unfold fetchBankTransactionRows. destruct (_ && _ && _).
  - intros [= <- _]. now exists [].
  - rewrite bankTransactionPages_docs.
    destruct (pagesOf _ _ _ _ _) as [[[docs p]|e] s1]; cbn; [|discriminate].
    intros [= <- _]. now exists docs.
Qed.

(** The manual-journal extractor, by the documents and the last value of
    [page] of its loop. *)
Lemma fetchManualJournalRows_loop s :
  truthyStr sourceType && negb (sourceIs sourceType "MANJOURNAL") = false ->
  fetchManualJournalRows' s
  = mapOutcome
      (fun r =>
         {| FetchResult.rows :=
              flat_map (manualJournalRows accountCodes accountIds) (fst r);
            FetchResult.truncated := (MAX_PAGES <? snd r)%nat;
            FetchResult.scanned := Z.of_nat (length (fst r)) |})
      (pagesOf manualJournalPage' MJ_PAGE_SIZE MAX_PAGES 1 s).
Proof.
  intros Hguard. unfold fetchManualJournalRows. rewrite Hguard.
  unfold bind. rewrite manualJournalPages_docs.
  destruct (pagesOf _ _ _ _ _) as [[[docs p]|e] s1]; reflexivity.
Qed.

Lemma fetchManualJournalRows_docs s fr s' :
  fetchManualJournalRows' s = (Fulfilled fr, s') ->
  exists docs,
    FetchResult.rows fr = flat_map (manualJournalRows accountCodes accountIds) docs.
Proof.
  destruct (truthyStr sourceType && negb (sourceIs sourceType "MANJOURNAL")) eqn:Hguard.
  - unfold fetchManualJournalRows. rewrite Hguard. intros [= <- _]. now exists [].
  - rewrite fetchManualJournalRows_loop by assumption.
    destruct (pagesOf _ _ _ _ _) as [[[docs p]|e] s1]; cbn; [|discriminate].
    intros [= <- _]. now exists docs.
Qed.

End PageLoops.

(** ** The generic loop *)

Section PagesOf.

Context {W D : Type}.
Variable fetch : nat -> M W (option (list D)).
Variable size : nat.

(** A first page shorter than the page size ends the loop. *)
Lemma pagesOf_short pagesLeft page s resp s' :
  fetch page s = (Fulfilled resp, s') ->
  (length (default [] resp) < size)%nat ->
  pagesOf fetch size (S pagesLeft) page s = (Fulfilled (default [] resp, page), s').
Proof.
  intros Hfetch Hlen. cbn [pagesOf]. rewrite Hfetch.
  apply Nat.ltb_lt in Hlen. now rewrite Hlen.
Qed.


End PagesOf.

(** ** The handler, by the outcomes of its tasks *)

Section HandlerFacts.

Context {W : Type}.
Variable JSON_parse : string -> option JsVal.
Variable formatError : JsVal -> string.
Variable localeCompare : string -> string -> Z.
Variable numberText : string -> string.
Variable xeroClient : XeroClient W.
Variables fromDate toDate : string.
Variables accountCodes accountIds : option (list string).
Variable sourceType : option string.

Abbreviation handler :=
  (listXeroAccountTransactions JSON_parse formatError localeCompare numberText xeroClient
     fromDate toDate accountCodes accountIds sourceType).
Abbreviation invoicesTask :=
  (fetchInvoiceRows JSON_parse numberText xeroClient fromDate toDate accountCodes
     accountIds sourceType).
Abbreviation creditNotesTask :=
  (fetchCreditNoteRows JSON_parse numberText xeroClient fromDate toDate accountCodes
     accountIds sourceType).
Abbreviation accountsTask := (buildAccountNameMap JSON_parse xeroClient).
Abbreviation bankTransactionsTask :=
  (fetchBankTransactionRows JSON_parse numberText xeroClient fromDate toDate accountCodes
     accountIds sourceType).
Abbreviation manualJournalsTask :=
  (fetchManualJournalRows JSON_parse numberText xeroClient fromDate toDate accountCodes
     accountIds sourceType).

(** A failed authentication gives the error envelope. *)
Lemma handler_rejected s0 e w :
  authenticate xeroClient (remote s0) = (Rejected e, w) ->
  fst (handler s0) = {| result := None; isError := true; error := Some (formatError e) |}.
Proof. intros H. unfold listXeroAccountTransactions. now rewrite H. Qed.

(** After authentication the five tasks run in order, and the envelope is
    made from their outcomes. *)
Lemma handler_run s0 u w :
  authenticate xeroClient (remote s0) = (Fulfilled u, w) ->
  exists inv s2 cn s3 accts s4 bt s5 mj s6,
    invoicesTask {| remote := w; slept := slept s0 |} = (inv, s2)
    /\ creditNotesTask s2 = (cn, s3)
    /\ accountsTask s3 = (accts, s4)
    /\ bankTransactionsTask s4 = (bt, s5)
    /\ manualJournalsTask s5 = (mj, s6)
    /\ handler s0
       = ({| result := Some (settledResult formatError localeCompare inv cn accts bt mj);
             isError := false;
             error := None |}, s6).
Proof.
  intros Hauth. unfold listXeroAccountTransactions. rewrite Hauth.
  destruct (invoicesTask _) as [inv s2] eqn:H1.
  destruct (creditNotesTask s2) as [cn s3] eqn:H2.
  destruct (accountsTask s3) as [accts s4] eqn:H3.
  destruct (bankTransactionsTask s4) as [bt s5] eqn:H4.
  destruct (manualJournalsTask s5) as [mj s6] eqn:H5.
  exists inv, s2, cn, s3, accts, s4, bt, s5, mj, s6.
  cbn [fst snd]. rewrite H2. cbn [fst snd]. rewrite H3. cbn [fst snd].
  rewrite H4. cbn [fst snd]. rewrite H5. cbn [fst snd].
  repeat (split; [reflexivity|]).
  unfold settledResult, settledTasks, settledNames.
  destruct accts; reflexivity.
Qed.

(** The row arrays of the settled tasks, flattened. *)
Lemma settledTasks_rows inv cn accts bt mj :
  List.concat (snd (settledTasks formatError inv cn accts bt mj))
  = (rowsOf inv ++ rowsOf cn ++ rowsOf bt ++ journalRowsOf mj)%list.
Proof.
  unfold settledTasks.
  destruct inv, cn, bt, mj; cbn; rewrite ?app_nil_r; reflexivity.
Qed.

End HandlerFacts.

(** ** The order of character codes *)

Lemma string_compare_refl a : String.compare a a = Eq.
Proof. exact (proj2 (String_as_OT.cmp_eq a a) eq_refl). Qed.

Lemma string_leb_trans a b c :
  String.leb a b = true -> String.leb b c = true -> String.leb a c = true.
Proof.
  unfold String.leb.
  destruct (String.compare a b) eqn:Hab; try discriminate;
    destruct (String.compare b c) eqn:Hbc; try discriminate; intros _ _.
  - apply String_as_OT.cmp_eq in Hab, Hbc. subst.
    now rewrite string_compare_refl.
  - apply String_as_OT.cmp_eq in Hab. subst. now rewrite Hbc.
  - apply String_as_OT.cmp_eq in Hbc. subst. now rewrite Hab.
  - apply String_as_OT.cmp_lt in Hab, Hbc.
    pose proof (String_as_OT.lt_trans _ _ _ Hab Hbc) as H.
    apply String_as_OT.cmp_lt in H. unfold String_as_OT.cmp in H. now rewrite H.
Qed.

Lemma dateDescending_trans a b c :
  dateDescending a b -> dateDescending b c -> dateDescending a c.
Proof. unfold dateDescending. intros H1 H2. exact (string_leb_trans _ _ _ H2 H1). Qed.

(** ** The sort *)

Section SortFacts.

Variable localeCompare : string -> string -> Z.

Lemma insertRow_perm x l : Permutation (insertRow localeCompare x l) (x :: l).
Proof.
  induction l as [|y l IH]; simpl; [reflexivity|].
  destruct (_ <=? 0); [reflexivity|].
  rewrite IH. apply perm_swap.
Qed.

Lemma sortRows_perm l : Permutation (sortRows localeCompare l) l.
Proof.
  induction l as [|x l IH]; simpl; [reflexivity|].
  rewrite insertRow_perm. now constructor.
Qed.

(** Where the collation agrees with the order of character codes, the
    comparator decides [dateDescending]. *)
Lemma compareRows_decides x y :
  (localeCompare (date y) (date x) ?= 0) = String.compare (date y) (date x) ->
  if compareRows localeCompare x y <=? 0 then dateDescending x y else dateDescending y x.
Proof.
  unfold compareRows, dateDescending, String.leb, Z.leb. intros ->.
  rewrite (String.compare_antisym (date y) (date x)).
  destruct (String.compare (date x) (date y)); reflexivity.
Qed.

Lemma insertRow_sorted x l :
  collationAgrees localeCompare (x :: l) ->
  Sorted dateDescending l -> Sorted dateDescending (insertRow localeCompare x l).
Proof.
  intros Hagree Hsorted. induction Hsorted as [|y l Hl IH Hhd]; simpl.
  - repeat constructor.
  - pose proof (compareRows_decides x y
                  (Hagree y x ltac:(simpl; auto) ltac:(simpl; auto))) as Hxy.
    destruct (compareRows localeCompare x y <=? 0).
    + repeat constructor; assumption.
    + constructor.
      * apply IH. intros a b Ha Hb. apply Hagree; simpl in *; tauto.
      * destruct l as [|z l]; simpl; [now constructor|].
        destruct (compareRows localeCompare x z <=? 0); constructor;
          [assumption | now inversion Hhd].
Qed.

Lemma sortRows_sorted l :
  collationAgrees localeCompare l -> Sorted dateDescending (sortRows localeCompare l).
Proof.
  induction l as [|x l IH]; intros Hagree; simpl; [constructor|].
  apply insertRow_sorted.
  - intros a b Ha Hb. apply Hagree.
    + destruct Ha as [<- | Ha]; [now left | right].
      now apply (Permutation_in _ (sortRows_perm l)).
    + destruct Hb as [<- | Hb]; [now left | right].
      now apply (Permutation_in _ (sortRows_perm l)).
  - apply IH. intros a b Ha Hb. apply Hagree; now right.
Qed.

Lemma sortRows_strongly_sorted l :
  collationAgrees localeCompare l ->
  StronglySorted dateDescending (sortRows localeCompare l).
Proof.
  intros H. apply Sorted_StronglySorted; [|now apply sortRows_sorted].
  intros a b c. apply dateDescending_trans.
Qed.

End SortFacts.

Lemma codeOrder_agrees l : collationAgrees codeOrder l.
Proof.
  intros a b _ _. unfold codeOrder.
  destruct (String.compare (date a) (date b)); reflexivity.
Qed.

(** ** Claims on the extractors and the handler *)

Section Claims.

Context {W : Type}.
Variable JSON_parse : string -> option JsVal.
Variable formatError : JsVal -> string.
Variable localeCompare : string -> string -> Z.
Variable numberText : string -> string.
Variable xeroClient : XeroClient W.
Variables fromDate toDate : string.
Variables accountCodes accountIds : option (list string).

Abbreviation handlerFor sourceType :=
  (listXeroAccountTransactions JSON_parse formatError localeCompare numberText xeroClient
     fromDate toDate accountCodes accountIds sourceType).
Abbreviation invoicesFor sourceType :=
  (fetchInvoiceRows JSON_parse numberText xeroClient fromDate toDate accountCodes
     accountIds sourceType).
Abbreviation creditNotesFor sourceType :=
  (fetchCreditNoteRows JSON_parse numberText xeroClient fromDate toDate accountCodes
     accountIds sourceType).
Abbreviation bankTransactionsFor sourceType :=
  (fetchBankTransactionRows JSON_parse numberText xeroClient fromDate toDate accountCodes
     accountIds sourceType).
Abbreviation manualJournalsFor sourceType :=
  (fetchManualJournalRows JSON_parse numberText xeroClient fromDate toDate accountCodes
     accountIds sourceType).
Abbreviation accountNames := (buildAccountNameMap JSON_parse xeroClient).


(** *** Rows of every extractor *)

Lemma Forall_flat_map {A B} (P : B -> Prop) (f : A -> list B) (l : list A) :
  (forall x, Forall P (f x)) -> Forall P (flat_map f l).
Proof.
  intros H. induction l as [|x l IH]; simpl; [constructor|].
  apply Forall_app. auto.
Qed.

Lemma invoices_invariant sourceType s rows s' :
  invoicesFor sourceType s = (Fulfilled rows, s') -> Forall lineRowInvariant rows.
Proof.
  intros H. apply fetchInvoiceRows_docs in H. destruct H as [docs ->].
  apply Forall_flat_map, invoiceRows_invariant.
Qed.

Lemma creditNotes_invariant sourceType s rows s' :
  creditNotesFor sourceType s = (Fulfilled rows, s') -> Forall lineRowInvariant rows.
Proof.
  intros H. apply fetchCreditNoteRows_docs in H. destruct H as [docs ->].
  apply Forall_flat_map, creditNoteRows_invariant.
Qed.

Lemma manualJournals_invariant sourceType s fr s' :
  manualJournalsFor sourceType s = (Fulfilled fr, s') ->
  Forall lineRowInvariant (FetchResult.rows fr).
Proof.
  intros H. apply fetchManualJournalRows_docs in H. destruct H as [docs ->].
  apply Forall_flat_map, manualJournalRows_invariant.
Qed.

Lemma bankTransactions_invariant sourceType s rows s' :
  bankTransactionsFor sourceType s = (Fulfilled rows, s') ->
  Forall (fun r => lineRowInvariant r \/ exists bt, r = bankSideRow bt) rows.
Proof.
  intros H. apply fetchBankTransactionRows_docs in H. destruct H as [docs ->].
  apply Forall_flat_map, bankTransactionRows_invariant.
Qed.

Lemma Forall_weaken_line (l : list AccountTransactionRow) :
  Forall lineRowInvariant l ->
  Forall (fun r => lineRowInvariant r \/ exists bt, r = bankSideRow bt) l.
Proof. intros H. eapply List.Forall_impl; [|exact H]. auto. Qed.

(** The rows of a successful result are the enriched rows of the settled
    tasks, in some order. *)
Lemma handler_rows sourceType s0 r :
  result (fst (handlerFor sourceType s0)) = Some r ->
  exists u w inv s2 cn s3 accts s4 bt s5 mj s6,
    authenticate xeroClient (remote s0) = (Fulfilled u, w)
    /\ invoicesFor sourceType {| remote := w; slept := slept s0 |} = (inv, s2)
    /\ creditNotesFor sourceType s2 = (cn, s3)
    /\ accountNames s3 = (accts, s4)
    /\ bankTransactionsFor sourceType s4 = (bt, s5)
    /\ manualJournalsFor sourceType s5 = (mj, s6)
    /\ r = settledResult formatError localeCompare inv cn accts bt mj.
Proof.
  destruct (authenticate xeroClient (remote s0)) as [[u|e] w] eqn:Hauth.
  - destruct (handler_run JSON_parse formatError localeCompare numberText xeroClient
                fromDate toDate accountCodes accountIds sourceType s0 u w Hauth)
      as (inv & s2 & cn & s3 & accts & s4 & bt & s5 & mj & s6
          & H1 & H2 & H3 & H4 & H5 & Hrun).
    rewrite Hrun. cbn. intros [= <-].
    exists u, w, inv, s2, cn, s3, accts, s4, bt, s5, mj, s6. auto 10.
  - rewrite (handler_rejected JSON_parse formatError localeCompare numberText xeroClient
               fromDate toDate accountCodes accountIds sourceType s0 e w Hauth).
    discriminate.
Qed.

Lemma settledResult_rows inv cn accts bt mj :
  Permutation
    (rows (settledResult formatError localeCompare inv cn accts bt mj))
    (List.map (enrichRow (settledNames formatError accts))
       (rowsOf inv ++ rowsOf cn ++ rowsOf bt ++ journalRowsOf mj)).
Proof.
  unfold settledResult. cbn [rows].
  rewrite sortRows_perm, settledTasks_rows. reflexivity.
Qed.

(** C1 (as amended).  Every row made from a line (the rows of the invoice,
    credit-note and manual-journal extractors and the per-line rows of the
    bank-transaction extractor) has [net], [vat] and [gross = net + vat];
    when [net] is not zero exactly one of debit and credit is set, and a
    side that is set is positive with magnitude [|net|], which is
    [|netToAccount|].  Every other row of the bank-transaction extractor is
    the row of the bank account of a transaction: its [net], [vat] and
    [gross] are the subtotal, the total tax and the total of that
    transaction (0 where the document states none), its sides follow the
    total (exactly one is set when the total is not zero, positive with
    magnitude [|total|]), and its [gross] is [net + vat] exactly when the
    total of the document is its subtotal plus its total tax.  Every row of
    a successful aggregation is, after enrichment, of one of the two kinds,
    and enrichment changes none of the amounts. *)
Theorem row_invariants sourceType :
  (forall s rows s',
      invoicesFor sourceType s = (Fulfilled rows, s') -> Forall lineRowInvariant rows)
  /\ (forall s rows s',
      creditNotesFor sourceType s = (Fulfilled rows, s') -> Forall lineRowInvariant rows)
  /\ (forall s fr s',
      manualJournalsFor sourceType s = (Fulfilled fr, s') ->
      Forall lineRowInvariant (FetchResult.rows fr))
  /\ (forall s rows s',
      bankTransactionsFor sourceType s = (Fulfilled rows, s') ->
      Forall (fun r => lineRowInvariant r \/ exists bt, r = bankSideRow bt) rows)
  /\ (forall bt li, lineRowInvariant (bankLineRow bt li))
  /\ (forall bt m,
      bankSideOf bt (bankSideRow bt) /\ bankSideOf bt (enrichRow m (bankSideRow bt)))
  /\ (forall bt r n t g,
      bankSideOf bt r -> net r = Some n -> vat r = Some t -> gross r = Some g ->
      ((g == n + t)%Q <-> totalAddsUp bt))
  /\ (forall s0 r,
      result (fst (handlerFor sourceType s0)) = Some r ->
      Forall (fun row =>
                lineRowInvariant row \/ exists bt m, row = enrichRow m (bankSideRow bt))
        (rows r)).
Proof.
  split; [exact (invoices_invariant sourceType)|].
  split; [exact (creditNotes_invariant sourceType)|].
  split; [exact (manualJournals_invariant sourceType)|].
  split; [exact (bankTransactions_invariant sourceType)|].
  split; [exact bankLineRow_invariant|].
  split.
  { intros bt m. split; [apply bankSideRow_invariant|].
    apply enrichRow_invariant, bankSideRow_invariant. }
  split.
  { intros bt r n t g (Hn & Ht & Hg & _) Hn' Ht' Hg'.
    rewrite Hn in Hn'. rewrite Ht in Ht'. rewrite Hg in Hg'.
    injection Hn' as <-. injection Ht' as <-. injection Hg' as <-.
    unfold totalAddsUp. tauto. }
  intros s0 r Hr.
  destruct (handler_rows sourceType s0 r Hr)
    as (u & w & inv & s2 & cn & s3 & accts & s4 & bt & s5 & mj & s6
        & _ & H1 & H2 & _ & H4 & H5 & ->).
  eapply Permutation_Forall; [symmetry; apply settledResult_rows|].
  apply Forall_map.
  assert (Hall : Forall (fun r => lineRowInvariant r \/ exists bt, r = bankSideRow bt)
                   (rowsOf inv ++ rowsOf cn ++ rowsOf bt ++ journalRowsOf mj)).
  { repeat (apply Forall_app; split).
    - destruct inv; [|constructor].
      apply Forall_weaken_line. eapply invoices_invariant. exact H1.
    - destruct cn; [|constructor].
      apply Forall_weaken_line. eapply creditNotes_invariant. exact H2.
    - destruct bt; [|constructor]. eapply bankTransactions_invariant. exact H4.
    - destruct mj; [|constructor].
      apply Forall_weaken_line. eapply manualJournals_invariant. exact H5. }
  eapply List.Forall_impl; [|exact Hall].
  intros row [H | [doc ->]]; [left; exact H | right].
  now exists doc, (settledNames formatError accts).
Qed.

(** C3.  A matching line item with a positive line amount [L] yields: on an
    ACCPAY invoice a row with debit [L] and no credit, labelled
    "Purchase Invoice"; on an ACCREC invoice a row with credit [L] and no
    debit, labelled "Sales Invoice"; on an ACCRECCREDIT credit note debit [L]
    and no credit, labelled "Sales Credit Note"; on an ACCPAYCREDIT credit
    note credit [L] and no debit, labelled "Purchase Credit Note".  The
    related account of each is null, before and after enrichment.  The row
    is among the rows that the extractor returns, [fetchInvoiceRows] for an
    invoice and [fetchCreditNoteRows] for a credit note, whenever the
    document is on one of the pages that the extractor fetches: on any page
    of the loop, and so on a first page that is not full. *)
Theorem line_rows_by_document_type sourceType (li : LineItem.t) (L : Q) :
  LineItem.lineAmount li = Some L -> (0 < L)%Q ->
  liMatches accountCodes accountIds li = true ->
  (forall inv lis, Invoice.lineItems inv = Some lis -> In li lis ->
     let r := invoiceLineRow inv li in
     (truthyStr sourceType && negb (sourceIs sourceType "ACCREC")
        && negb (sourceIs sourceType "ACCPAY") = false ->
      (forall s docs lastPage s',
          pagesOf (invoicePage JSON_parse numberText xeroClient fromDate toDate sourceType)
            PAGE_SIZE MAX_PAGES 1 s = (Fulfilled (docs, lastPage), s') ->
          In inv docs ->
          exists rows, invoicesFor sourceType s = (Fulfilled rows, s') /\ In r rows)
      /\ (forall s docs s',
          invoicePage JSON_parse numberText xeroClient fromDate toDate sourceType 1 s
            = (Fulfilled (Some docs), s') ->
          (length docs < PAGE_SIZE)%nat ->
          In inv docs ->
          exists rows, invoicesFor sourceType s = (Fulfilled rows, s') /\ In r rows))
     /\ In r (invoiceRows accountCodes accountIds inv)
     /\ (forall m, relatedAccount r = None /\ relatedAccount (enrichRow m r) = None)
     /\ (Invoice.type inv = Some "ACCPAY" ->
           debit r = Some L /\ credit r = None /\ source r = "Purchase Invoice")
     /\ (Invoice.type inv = Some "ACCREC" ->
           credit r = Some L /\ debit r = None /\ source r = "Sales Invoice"))
  /\ (forall cn lis, CreditNote.lineItems cn = Some lis -> In li lis ->
     let r := creditNoteLineRow cn li in
     (truthyStr sourceType && negb (sourceIs sourceType "ACCRECCREDIT")
        && negb (sourceIs sourceType "ACCPAYCREDIT") = false ->
      (forall s docs lastPage s',
          pagesOf (creditNotePage JSON_parse numberText xeroClient fromDate toDate
                     sourceType)
            PAGE_SIZE MAX_PAGES 1 s = (Fulfilled (docs, lastPage), s') ->
          In cn docs ->
          exists rows, creditNotesFor sourceType s = (Fulfilled rows, s') /\ In r rows)
      /\ (forall s docs s',
          creditNotePage JSON_parse numberText xeroClient fromDate toDate sourceType 1 s
            = (Fulfilled (Some docs), s') ->
          (length docs < PAGE_SIZE)%nat ->
          In cn docs ->
          exists rows, creditNotesFor sourceType s = (Fulfilled rows, s') /\ In r rows))
     /\ In r (creditNoteRows accountCodes accountIds cn)
     /\ (forall m, relatedAccount r = None /\ relatedAccount (enrichRow m r) = None)
     /\ (CreditNote.type cn = Some "ACCRECCREDIT" ->
           debit r = Some L /\ credit r = None /\ source r = "Sales Credit Note")
     /\ (CreditNote.type cn = Some "ACCPAYCREDIT" ->
           credit r = Some L /\ debit r = None /\ source r = "Purchase Credit Note")).
Proof.
  intros HL Hpos Hm.
  destruct (line_rows_values accountCodes accountIds li L HL Hpos Hm) as [Hinv Hcn].
  split.
  - intros inv lis Hlis Hin r.
    destruct (Hinv inv lis Hlis Hin) as (Hrow & Hrest).
    split; [|split; [exact Hrow | exact Hrest]].
    intros Hguard.
    assert (Hloop : forall s docs lastPage s',
               pagesOf (invoicePage JSON_parse numberText xeroClient fromDate toDate
                          sourceType)
                 PAGE_SIZE MAX_PAGES 1 s = (Fulfilled (docs, lastPage), s') ->
               In inv docs ->
               exists rows, invoicesFor sourceType s = (Fulfilled rows, s') /\ In r rows).
    { intros s docs lastPage s' Hpages Hdoc.
      exists (flat_map (invoiceRows accountCodes accountIds) docs). split.
      - unfold fetchInvoiceRows. rewrite Hguard, invoicePages_docs, Hpages. reflexivity.
      - apply in_flat_map. exists inv. split; [exact Hdoc | exact Hrow]. }
    split; [exact Hloop|].
    intros s docs s' Hpage Hlen Hdoc.
    apply (Hloop s docs 1%nat s'); [|exact Hdoc].
    change MAX_PAGES with (S 49).
    now rewrite (pagesOf_short _ _ _ _ _ _ _ Hpage) by exact Hlen.
  - intros cn lis Hlis Hin r.
    destruct (Hcn cn lis Hlis Hin) as (Hrow & Hrest).
    split; [|split; [exact Hrow | exact Hrest]].
    intros Hguard.
    assert (Hloop : forall s docs lastPage s',
               pagesOf (creditNotePage JSON_parse numberText xeroClient fromDate toDate
                          sourceType)
                 PAGE_SIZE MAX_PAGES 1 s = (Fulfilled (docs, lastPage), s') ->
               In cn docs ->
               exists rows, creditNotesFor sourceType s = (Fulfilled rows, s') /\ In r rows).
    { intros s docs lastPage s' Hpages Hdoc.
      exists (flat_map (creditNoteRows accountCodes accountIds) docs). split.
      - unfold fetchCreditNoteRows. rewrite Hguard, creditNotePages_docs, Hpages.
        reflexivity.
      - apply in_flat_map. exists cn. split; [exact Hdoc | exact Hrow]. }
    split; [exact Hloop|].
    intros s docs s' Hpage Hlen Hdoc.
    apply (Hloop s docs 1%nat s'); [|exact Hdoc].
    change MAX_PAGES with (S 49).
    now rewrite (pagesOf_short _ _ _ _ _ _ _ Hpage) by exact Hlen.
Qed.

(** C2 (as amended).  A SPEND of total 100 from bank account 090, with one
    line of 100 on account 400, where both the bank account and the line
    match the account filter, yields exactly two rows: the line's row for
    account 400 with debit 100 and no credit, then the bank account's row
    for account 090 with credit 100, no debit and related account 400.  In
    general the rows of a transaction are the rows of its matching lines
    followed by the bank account's row when the bank account matches,
    whatever the lines do. *)
Theorem bank_transaction_two_rows sourceType bt acct li :
  BankTransaction.type bt = Some "SPEND" ->
  BankTransaction.total bt = Some (100 # 1)%Q ->
  BankTransaction.bankAccount bt = Some acct ->
  BankAccount.code acct = Some "090" ->
  BankTransaction.lineItems bt = Some [li] ->
  LineItem.accountCode li = Some "400" ->
  LineItem.lineAmount li = Some (100 # 1)%Q ->
  bankMatches accountCodes accountIds bt = true ->
  liMatches accountCodes accountIds li = true ->
  let lineRow := bankLineRow bt li in
  let bankRow := bankSideRow bt in
  bankTransactionRows accountCodes accountIds bt = [lineRow; bankRow]
  /\ (accountCode lineRow = Some "400"
      /\ debit lineRow = Some (100 # 1)%Q /\ credit lineRow = None)
  /\ (accountCode bankRow = Some "090"
      /\ credit bankRow = Some (100 # 1)%Q /\ debit bankRow = None
      /\ relatedAccount bankRow = Some "400")
  /\ (forall s s',
      truthyStr sourceType && negb (sourceIs sourceType "CASHREC")
        && negb (sourceIs sourceType "CASHPAID") = false ->
      bankTransactionPage JSON_parse numberText xeroClient fromDate toDate sourceType 1 s
        = (Fulfilled (Some [bt]), s') ->
      bankTransactionsFor sourceType s = (Fulfilled [lineRow; bankRow], s'))
  /\ (forall bt',
      bankTransactionRows accountCodes accountIds bt'
      = (List.map (bankLineRow bt')
           (List.filter (liMatches accountCodes accountIds)
              (default [] (BankTransaction.lineItems bt')))
         ++ (if bankMatches accountCodes accountIds bt' then [bankSideRow bt'] else []))%list).
Proof.
  intros Htype Htotal Hacct Hcode Hlines Hlcode Hamt Hbank Hline lineRow bankRow.
  assert (Hrows : bankTransactionRows accountCodes accountIds bt = [lineRow; bankRow]).
  { unfold bankTransactionRows. rewrite Hlines, Hbank. cbn. now rewrite Hline. }
  split; [exact Hrows|].
  split.
  { subst lineRow. unfold bankLineRow, isSpend. rewrite Htype, Hamt, Hlcode.
    cbn. auto. }
  split.
  { subst bankRow. unfold bankSideRow, isSpend, bankAcctCode, firstLineAccount.
    rewrite Htype, Htotal, Hacct, Hcode, Hlines, Hlcode. cbn. auto. }
  split; [|reflexivity].
  intros s s' Hguard Hpage.
  unfold fetchBankTransactionRows. rewrite Hguard, bankTransactionPages_docs.
  change MAX_PAGES with (S 49).
  rewrite (pagesOf_short _ _ _ _ _ _ _ Hpage) by (cbn; unfold PAGE_SIZE; lia).
  cbn. now rewrite Hrows.
Qed.


(** C5.  When the bank-transactions task is rejected while the invoices, the
    credit notes and the manual journals are fulfilled, the aggregation
    returns a success envelope ([isError = false]) whose rows are the
    enriched rows of the invoices, the credit notes and the manual journals
    (the bank transactions add none), and whose warnings hold the string
    "Bank Transactions endpoint failed: " followed by the formatted reason,
    once, between the warning of a failed name lookup and the truncation
    warning when there are such. *)
Theorem bank_failure_is_a_warning sourceType s0 u w ri s2 rc s3 accts s4 e s5 fr s6 :
  authenticate xeroClient (remote s0) = (Fulfilled u, w) ->
  invoicesFor sourceType {| remote := w; slept := slept s0 |} = (Fulfilled ri, s2) ->
  creditNotesFor sourceType s2 = (Fulfilled rc, s3) ->
  accountNames s3 = (accts, s4) ->
  bankTransactionsFor sourceType s4 = (Rejected e, s5) ->
  manualJournalsFor sourceType s5 = (Fulfilled fr, s6) ->
  exists r,
    fst (handlerFor sourceType s0)
      = {| result := Some r; isError := false; error := None |}
    /\ Permutation (rows r)
         (List.map (enrichRow (settledNames formatError accts))
            (ri ++ rc ++ FetchResult.rows fr))
    /\ warnings r
       = ((match accts with
           | Fulfilled _ => []
           | Rejected reason =>
               [("Account name lookup failed: " ++ formatError reason)%string]
           end)
          ++ [("Bank Transactions endpoint failed: " ++ formatError e)%string]
          ++ (if FetchResult.truncated fr
              then [truncationWarning (FetchResult.scanned fr)] else []))%list.
Proof.
  intros Hauth Hinv Hcn Hacc Hbt Hmj.
  destruct (handler_run JSON_parse formatError localeCompare numberText xeroClient
              fromDate toDate accountCodes accountIds sourceType s0 u w Hauth)
    as (inv' & s2' & cn' & s3' & accts' & s4' & bt' & s5' & mj' & s6'
        & H1 & H2 & H3 & H4 & H5 & Hrun).
  rewrite Hinv in H1. injection H1 as <- <-.
  rewrite Hcn in H2. injection H2 as <- <-.
  rewrite Hacc in H3. injection H3 as <- <-.
  rewrite Hbt in H4. injection H4 as <- <-.
  rewrite Hmj in H5. injection H5 as <- <-.
  rewrite Hrun. eexists. split; [reflexivity|]. split.
  - rewrite settledResult_rows. cbn [rowsOf journalRowsOf app]. reflexivity.
  - unfold settledResult, settledTasks. cbn [warnings].
    destruct accts, (FetchResult.truncated fr) eqn:Htr; cbn; rewrite ?Htr; reflexivity.
Qed.

(** C8.  The rows of every successful aggregation result are in descending
    order of date, by the order of character codes (wherever the host
    collation orders the dates of the rows as that order does, as it does on
    YYYY-MM-DD dates); [hasMore] is false and [nextOffset] is null. *)
Theorem rows_sorted_by_date sourceType s0 r :
  result (fst (handlerFor sourceType s0)) = Some r ->
  collationAgrees localeCompare (rows r) ->
  StronglySorted dateDescending (rows r) /\ hasMore r = false /\ nextOffset r = None.
Proof.
  intros Hr Hagree.
  destruct (handler_rows sourceType s0 r Hr)
    as (u & w & inv & s2 & cn & s3 & accts & s4 & bt & s5 & mj & s6
        & _ & _ & _ & _ & _ & _ & ->).
  split; [|split; reflexivity].
  unfold settledResult in *. cbn [rows] in *.
  apply sortRows_strongly_sorted.
  intros a b Ha Hb. apply Hagree; apply (Permutation_in _ (Permutation_sym (sortRows_perm _ _)));
    assumption.
Qed.

(** C9 (as amended).  For a source type that is supplied, is not the empty
    string and is none of ACCREC, ACCPAY, ACCRECCREDIT, ACCPAYCREDIT,
    CASHREC, CASHPAID, MANJOURNAL, every extractor returns empty at once and
    leaves the remote service untouched (no page is fetched); so, once
    authentication has succeeded, the aggregation returns a success
    envelope ([isError = false], no error) with no rows. *)
Theorem unknown_source_type st :
  st <> "" -> ~ In st knownSourceTypes ->
  (forall s, invoicesFor (Some st) s = (Fulfilled [], s))
  /\ (forall s, creditNotesFor (Some st) s = (Fulfilled [], s))
  /\ (forall s, bankTransactionsFor (Some st) s = (Fulfilled [], s))
  /\ (forall s,
      manualJournalsFor (Some st) s
      = (Fulfilled {| FetchResult.rows := []; FetchResult.truncated := false;
                      FetchResult.scanned := 0 |}, s))
  /\ (forall s0 u w,
      authenticate xeroClient (remote s0) = (Fulfilled u, w) ->
      exists r,
        fst (handlerFor (Some st) s0)
          = {| result := Some r; isError := false; error := None |}
        /\ rows r = []).
Proof.
  intros Hne Hunknown.
  assert (Htruthy : truthyStr (Some st) = true).
  { cbn. now apply negb_true_iff, String.eqb_neq. }
  assert (Hnot : forall t, In t knownSourceTypes -> sourceIs (Some st) t = false).
  { intros t Ht. cbn. apply String.eqb_neq. intros ->. now apply Hunknown. }
  assert (Hinv : forall s, invoicesFor (Some st) s = (Fulfilled [], s)).
  { intros s. unfold fetchInvoiceRows.
    rewrite Htruthy, !Hnot by (cbn; tauto). reflexivity. }
  assert (Hcn : forall s, creditNotesFor (Some st) s = (Fulfilled [], s)).
  { intros s. unfold fetchCreditNoteRows.
    rewrite Htruthy, !Hnot by (cbn; tauto). reflexivity. }
  assert (Hbt : forall s, bankTransactionsFor (Some st) s = (Fulfilled [], s)).
  { intros s. unfold fetchBankTransactionRows.
    rewrite Htruthy, !Hnot by (cbn; tauto). reflexivity. }
  assert (Hmj : forall s,
             manualJournalsFor (Some st) s
             = (Fulfilled {| FetchResult.rows := []; FetchResult.truncated := false;
                             FetchResult.scanned := 0 |}, s)).
  { intros s. unfold fetchManualJournalRows.
    rewrite Htruthy, !Hnot by (cbn; tauto). reflexivity. }
  repeat (split; [assumption|]).
  intros s0 u w Hauth.
  destruct (handler_run JSON_parse formatError localeCompare numberText xeroClient
              fromDate toDate accountCodes accountIds (Some st) s0 u w Hauth)
    as (inv & s2 & cn & s3 & accts & s4 & bt & s5 & mj & s6
        & H1 & H2 & _ & H4 & H5 & Hrun).
  rewrite Hinv in H1. injection H1 as <- <-.
  rewrite Hcn in H2. injection H2 as <- <-.
  rewrite Hbt in H4. injection H4 as <- <-.
  rewrite Hmj in H5. injection H5 as <- <-.
  rewrite Hrun. eexists. split; [reflexivity|].
  unfold settledResult. cbn [rows]. rewrite settledTasks_rows. reflexivity.
Qed.

End Claims.

(** ** The claims on sample services *)

(** Runs the left-hand side of an equation and takes the value for the
    right-hand side. *)
Ltac run :=
  match goal with
  | |- ?l = _ => let v := eval vm_compute in l in exact (@eq_refl _ v <: l = v)
  end.

Lemma line_rows_by_document_type_witness :
  let r := invoiceLineRow purchaseInvoice line400 in
  (exists rows,
      fetchInvoiceRows noJSON plainNumber (serviceOf [purchaseInvoice] [] [] [])
        "2024-01-01" "2024-12-31" (Some ["400"]) None (Some "ACCPAY") start
      = (Fulfilled rows, {| remote := 1%nat; slept := [] |})
      /\ In r rows)
  /\ debit r = Some (100 # 1)%Q /\ credit r = None /\ source r = "Purchase Invoice".
Proof.
  destruct (line_rows_by_document_type noJSON plainNumber (serviceOf [purchaseInvoice] [] [] [])
              "2024-01-01" "2024-12-31" (Some ["400"]) None (Some "ACCPAY")
              line400 (100 # 1)%Q eq_refl eq_refl eq_refl) as [Hinv _].
  destruct (Hinv purchaseInvoice [line400] eq_refl (or_introl eq_refl))
    as (Hfetch & _ & _ & Hpay & _).
  destruct (Hfetch eq_refl) as [_ Hpage].
  split; [|exact (Hpay eq_refl)].
  apply (Hpage start [purchaseInvoice]); [reflexivity | vm_compute; lia | now left].
Defined.

Lemma row_invariants_witness :
  exists r,
    result (fst (listXeroAccountTransactions noJSON plainError codeOrder plainNumber
                   oneOfEach "2024-01-01" "2024-12-31" None None None start)) = Some r
    /\ length (rows r) = 6%nat
    /\ Forall (fun row =>
                lineRowInvariant row \/ exists bt m, row = enrichRow m (bankSideRow bt))
         (rows r)
    /\ bankSideOf spendNoTotal (bankSideRow spendNoTotal).
Proof.
  destruct (row_invariants noJSON plainError codeOrder plainNumber oneOfEach
              "2024-01-01" "2024-12-31" None None None)
    as (_ & _ & _ & _ & _ & Hside & _ & H).
  eexists. split; [run|]. split; [reflexivity|].
  split; [apply (H start); run | exact (proj1 (Hside spendNoTotal ∅))].
Defined.

(** C1, the claim as written fails on the row of the bank account: for a SPEND
    whose document states subtotal 100 and tax 20 but no total, the extractor
    emits a row with [net = 100] and neither debit nor credit, and with
    [gross = 0], which is not [net + vat]. *)
Lemma bank_side_row_without_total :
  let r := bankSideRow spendNoTotal in
  fst (fetchBankTransactionRows noJSON plainNumber (serviceOf [] [] [spendNoTotal] [])
         "2024-01-01" "2024-12-31" (Some ["090"]) None None start) = Fulfilled [r]
  /\ net r = Some (100 # 1)%Q /\ vat r = Some (20 # 1)%Q /\ gross r = Some (0 # 1)%Q
  /\ debit r = None /\ credit r = None
  /\ ~ lineRowInvariant r.
Proof.
  cbv zeta. repeat (split; [reflexivity|]).
  intros (n & t & Hn & Ht & Hg & _).
  cbn in Hn, Ht, Hg. injection Hn as <-. injection Ht as <-. discriminate Hg.
Qed.

Lemma bank_transaction_two_rows_witness :
  fetchBankTransactionRows noJSON plainNumber (serviceOf [] [] [spend100] [])
    "2024-01-01" "2024-12-31" (Some ["090"; "400"]) None None start
  = (Fulfilled [bankLineRow spend100 line400net; bankSideRow spend100],
     {| remote := 1%nat; slept := [] |})
  /\ debit (bankLineRow spend100 line400net) = Some (100 # 1)%Q
  /\ credit (bankSideRow spend100) = Some (100 # 1)%Q
  /\ relatedAccount (bankSideRow spend100) = Some "400".
Proof.
  destruct (bank_transaction_two_rows noJSON plainNumber (serviceOf [] [] [spend100] [])
              "2024-01-01" "2024-12-31" (Some ["090"; "400"]) None None
              spend100 bank090 line400net
              eq_refl eq_refl eq_refl eq_refl eq_refl eq_refl eq_refl eq_refl eq_refl)
    as (_ & (_ & Hd & _) & (_ & Hc & _ & Hrel) & Hfetch & _).
  split; [|auto].
  apply Hfetch; reflexivity.
Defined.

(** C2, the claim as written fails: with the account filter [["090"]] the bank
    account matches, the line on account 400 does not, and the extractor
    emits one row only, the row of the bank account. *)
Lemma bank_filter_alone_gives_one_row :
  bankMatches (Some ["090"]) None spend100 = true
  /\ liMatches (Some ["090"]) None line400net = false
  /\ fst (fetchBankTransactionRows noJSON plainNumber (serviceOf [] [] [spend100] [])
            "2024-01-01" "2024-12-31" (Some ["090"]) None None start)
     = Fulfilled [bankSideRow spend100].
Proof. repeat split. Qed.




Lemma bank_failure_is_a_warning_witness :
  exists r,
    fst (listXeroAccountTransactions noJSON plainError codeOrder plainNumber
           (bankDown oneOfEach) "2024-01-01" "2024-12-31" None None None start)
      = {| result := Some r; isError := false; error := None |}
    /\ length (rows r) = 4%nat
    /\ warnings r = ["Bank Transactions endpoint failed: socket hang up"].
Proof.
  edestruct (bank_failure_is_a_warning noJSON plainError codeOrder plainNumber
               (bankDown oneOfEach) "2024-01-01" "2024-12-31" None None None start)
    as (r & Hr & Hrows & Hwarn); [run | run | run | run | run | run |].
  exists r. split; [exact Hr|]. split.
  - rewrite (Permutation_length Hrows). reflexivity.
  - rewrite Hwarn. reflexivity.
Defined.

Lemma rows_sorted_by_date_witness :
  exists r,
    result (fst (listXeroAccountTransactions noJSON plainError codeOrder plainNumber
                   threeDates "2024-01-01" "2024-12-31" (Some ["400"]) None None start))
      = Some r
    /\ List.map date (rows r) = ["2024-03-15"; "2024-02-10"; "2024-01-01"]
    /\ StronglySorted dateDescending (rows r)
    /\ hasMore r = false /\ nextOffset r = None.
Proof.
  eexists. split; [run|]. split; [reflexivity|].
  apply (rows_sorted_by_date noJSON plainError codeOrder plainNumber threeDates
           "2024-01-01" "2024-12-31" (Some ["400"]) None None start);
    [run | apply codeOrder_agrees].
Defined.

Lemma PAYROLL_unknown : "PAYROLL" <> "" /\ ~ In "PAYROLL" knownSourceTypes.
Proof. split; [discriminate | cbn; intuition discriminate]. Defined.

Lemma unknown_source_type_witness :
  fetchInvoiceRows noJSON plainNumber oneOfEach "2024-01-01" "2024-12-31" None None
    (Some "PAYROLL") start = (Fulfilled [], start)
  /\ exists r,
      fst (listXeroAccountTransactions noJSON plainError codeOrder plainNumber oneOfEach
             "2024-01-01" "2024-12-31" None None (Some "PAYROLL") start)
        = {| result := Some r; isError := false; error := None |}
      /\ rows r = [].
Proof.
  destruct (unknown_source_type noJSON plainError codeOrder plainNumber oneOfEach
              "2024-01-01" "2024-12-31" None None "PAYROLL"
              (proj1 PAYROLL_unknown) (proj2 PAYROLL_unknown))
    as (Hinv & _ & _ & _ & Hrun).
  split; [apply Hinv|].
  exact (Hrun start tt 1%nat eq_refl).
Defined.

(** C9, the claim as written fails: the empty string is none of the seven
    source types, yet with it the invoice extractor fetches a page and returns
    rows, and the aggregation returns rows. *)
Lemma empty_source_type_fetches :
  forallb (fun t => negb (String.eqb "" t)) knownSourceTypes = true
  /\ fetchInvoiceRows noJSON plainNumber oneOfEach "2024-01-01" "2024-12-31" None None
       (Some "") start
     = (Fulfilled [invoiceLineRow purchaseInvoice line400], {| remote := 1%nat; slept := [] |})
  /\ option_map (fun r => length (rows r))
       (result (fst (listXeroAccountTransactions noJSON plainError codeOrder plainNumber
                       oneOfEach "2024-01-01" "2024-12-31" None None (Some "") start)))
     = Some 6%nat.
Proof. repeat split. Qed.

(** * Further properties of the handler *)

(** ** The fetch wrapper: exhaustion and payload shapes *)

Section RetryMore.

Context {W : Type}.
Variable JSON_parse : string -> option JsVal.

Lemma rateLimited_wait error :
  rateLimited JSON_parse error = true ->
  exists ms, getRetryAfterMs JSON_parse error = Some ms.
Proof. intros H. rewrite getRetryAfterMs_formula, H. eauto. Qed.

(** X1.  When every call is rejected with a rate-limit failure, the wrapper
    calls six times, sleeps five times (once after each of the first five
    failures, for the wait that failure asks for) and is rejected with the
    failure of the sixth call. *)
Theorem withRetry_exhaustion {A} (fn : Call W A) (s : St W) :
  (forall w, exists e w', fn w = (Rejected e, w') /\ rateLimited JSON_parse e = true) ->
  exists errs waits w e w',
    Failures fn (remote s) errs w
    /\ length errs = 5%nat
    /\ Forall2 (fun e ms => getRetryAfterMs JSON_parse e = Some ms) errs waits
    /\ fn w = (Rejected e, w')
    /\ withRetry JSON_parse fn s
       = (Rejected e, {| remote := w'; slept := slept s ++ waits |}).
Proof.
  intros Hlimited.
  destruct (retryLoop_calls JSON_parse fn MAX_RETRIES s)
    as (errs & waits & w & Hf & Hw & Hlen & Heq & Hlast).
  destruct (Hlimited w) as (e & w' & Hcall & Hrl).
  exists errs, waits, w, e, w'.
  rewrite Hcall in Heq, Hlast. cbn in Heq, Hlast.
  destruct (Hlast e eq_refl) as [Hnone | Hfive].
  - destruct (rateLimited_wait e Hrl) as [ms Hms]. congruence.
  - repeat split; assumption.
Qed.

(** X2.  A failure is retried only when it is, or is a string that
    [JSON.parse] reads as, an object whose [response] is an object with
    [statusCode] or [status] equal to 429.  In particular a string that
    [JSON.parse] rejects, and a failure without a [response], are never
    retried. *)
Theorem getRetryAfterMs_payload error ms :
  getRetryAfterMs JSON_parse error = Some ms ->
  exists fields response,
    (error = VObj fields
     \/ exists text, error = VStr text /\ JSON_parse text = Some (VObj fields))
    /\ assoc "response" fields = VObj response
    /\ (assoc "statusCode" response = VNum 429 \/ assoc "status" response = VNum 429).
Proof.
  unfold getRetryAfterMs.
  destruct (is429 _ || is429 _) eqn:E; [intros _ | discriminate].
  assert (Hparsed : exists fields response,
             parseXeroError JSON_parse error = VObj fields
             /\ assoc "response" fields = VObj response
             /\ (assoc "statusCode" response = VNum 429
                 \/ assoc "status" response = VNum 429)).
  { destruct (parseXeroError JSON_parse error) as [| | | | |fields]; try discriminate.
    cbn [getProp] in E.
    destruct (assoc "response" fields) as [| | | | |response] eqn:Hr; try discriminate.
    exists fields, response. split; [reflexivity|]. split; [exact Hr|].
    cbn [getProp] in E. apply orb_true_iff in E.
    destruct E as [E | E]; [left | right];
      match type of E with
      | is429 ?v = true => destruct v; try discriminate; cbn in E;
                           apply Z.eqb_eq in E; now subst
      end. }
  destruct Hparsed as (fields & response & Hp & Hr & Hs).
  exists fields, response. split; [|auto].
  destruct error as [| | | |text|fields']; cbn in Hp; try discriminate.
  - right. exists text. split; [reflexivity|].
    destruct (JSON_parse text) as [v|]; [now subst | discriminate].
  - left. congruence.
Qed.

End RetryMore.

Lemma withRetry_exhaustion_witness :
  withRetry noJSON alwaysLimited start
  = (Rejected rateLimit5,
     {| remote := 6%nat; slept := [7000; 7000; 7000; 7000; 7000] |})
  /\ exists errs waits w e w',
      Failures alwaysLimited 0%nat errs w
      /\ length errs = 5%nat
      /\ withRetry noJSON alwaysLimited start
         = (Rejected e, {| remote := w'; slept := waits |}).
Proof.
  split; [reflexivity|].
  destruct (@withRetry_exhaustion nat noJSON string alwaysLimited start)
    as (errs & waits & w & e & w' & Hf & Hlen & _ & _ & H).
  - intros w. exists rateLimit5, (S w). split; reflexivity.
  - exists errs, waits, w, e, w'. auto.
Defined.

Lemma getRetryAfterMs_payload_witness :
  getRetryAfterMs parsePayload (VStr "payload") = Some 7000
  /\ exists fields response,
      parsePayload "payload" = Some (VObj fields)
      /\ assoc "response" fields = VObj response
      /\ assoc "statusCode" response = VNum 429.
Proof.
  split; [reflexivity|].
  destruct (getRetryAfterMs_payload parsePayload (VStr "payload") 7000 eq_refl)
    as (fields & response & _ & _ & _).
  eexists _, _. repeat split.
Defined.

(** ** The wait is never shorter than the safety buffer *)

Lemma digitOf_nonneg c d : digitOf c = Some d -> 0 <= d.
Proof.
  unfold digitOf. destruct (_ && _); [|discriminate].
  intros [= <-]. lia.
Qed.

Lemma readDigits_nonneg s :
  forall acc n,
    (forall a, acc = Some a -> 0 <= a) -> readDigits acc s = Some n -> 0 <= n.
Proof.
  induction s as [|c s IH]; intros acc n Hacc; simpl.
  - intros H. now apply Hacc.
  - destruct (digitOf c) as [d|] eqn:Hd; [|intros H; now apply Hacc].
    apply IH. intros a [= <-].
    pose proof (digitOf_nonneg c d Hd).
    destruct acc as [a0|]; [|assumption].
    specialize (Hacc a0 eq_refl). lia.
Qed.

Lemma parseInt_unsigned s n : unsigned s -> parseInt s = Some n -> 0 <= n.
Proof.
  unfold unsigned, parseInt. intros Hs.
  destruct (trimStart s) as [|c rest] eqn:Htrim.
  - discriminate.
  - destruct c as [[] [] [] [] [] [] [] []];
      try (now apply readDigits_nonneg; discriminate);
      try (intros H; apply (readDigits_nonneg _ _ _ ltac:(discriminate)) in H; exact H).
    exfalso. exact (Hs rest eq_refl).
Qed.

Section WaitBound.

Variable JSON_parse : string -> option JsVal.

(** X3.  The wait computed for a rate-limit failure is at least the safety
    buffer of 2000 ms whenever the [retry-after] header is absent or is a text
    without a leading minus sign. *)
Theorem wait_at_least_buffer error ms :
  getRetryAfterMs JSON_parse error = Some ms ->
  unsignedHeader (retryAfterHeader JSON_parse error) ->
  RETRY_BUFFER_MS <= ms.
Proof.
  rewrite getRetryAfterMs_formula.
  destruct (rateLimited JSON_parse error); [|discriminate].
  intros [= <-]. unfold RETRY_BUFFER_MS.
  destruct (retryAfterHeader JSON_parse error) as [| |b|n|text|fields].
  - intros _. vm_compute. discriminate.
  - intros _. vm_compute. discriminate.
  - intros _. destruct b; vm_compute; discriminate.
  - intros [].
  - cbn. intros Hs. destruct (parseInt text) as [n|] eqn:Hp; cbn; [|lia].
    pose proof (parseInt_unsigned text n Hs Hp). lia.
  - intros _. vm_compute. discriminate.
Qed.

End WaitBound.

Lemma wait_at_least_buffer_witness :
  getRetryAfterMs noJSON rateLimit5 = Some 7000 /\ RETRY_BUFFER_MS <= 7000.
Proof.
  split; [reflexivity|].
  apply (wait_at_least_buffer noJSON rateLimit5 7000 eq_refl).
  intros rest. discriminate.
Defined.

(** ** The aggregation, by the outcomes of its tasks *)

Section HandlerMore.

Context {W : Type}.
Variable JSON_parse : string -> option JsVal.
Variable formatError : JsVal -> string.
Variable localeCompare : string -> string -> Z.
Variable numberText : string -> string.
Variable xeroClient : XeroClient W.
Variables fromDate toDate : string.
Variables accountCodes accountIds : option (list string).

Abbreviation handlerOn sourceType :=
  (listXeroAccountTransactions JSON_parse formatError localeCompare numberText xeroClient
     fromDate toDate accountCodes accountIds sourceType).
Abbreviation invoicesOn sourceType :=
  (fetchInvoiceRows JSON_parse numberText xeroClient fromDate toDate accountCodes
     accountIds sourceType).
Abbreviation creditNotesOn sourceType :=
  (fetchCreditNoteRows JSON_parse numberText xeroClient fromDate toDate accountCodes
     accountIds sourceType).
Abbreviation bankTransactionsOn sourceType :=
  (fetchBankTransactionRows JSON_parse numberText xeroClient fromDate toDate accountCodes
     accountIds sourceType).
Abbreviation manualJournalsOn sourceType :=
  (fetchManualJournalRows JSON_parse numberText xeroClient fromDate toDate accountCodes
     accountIds sourceType).
Abbreviation settleOn sourceType :=
  (tasksSettle JSON_parse numberText xeroClient fromDate toDate accountCodes accountIds
     sourceType).

Lemma handler_settled sourceType s0 r :
  result (fst (handlerOn sourceType s0)) = Some r ->
  exists inv cn accts bt mj,
    settleOn sourceType s0 inv cn accts bt mj
    /\ r = settledResult formatError localeCompare inv cn accts bt mj.
Proof.
  intros Hr.
  destruct (handler_rows JSON_parse formatError localeCompare numberText xeroClient
              fromDate toDate accountCodes accountIds sourceType s0 r Hr)
    as (u & w & inv & s2 & cn & s3 & accts & s4 & bt & s5 & mj & s6
        & H0 & H1 & H2 & H3 & H4 & H5 & ->).
  exists inv, cn, accts, bt, mj. split; [|reflexivity].
  exists u, w, s2, s3, s4, s5, s6. auto 10.
Qed.

(** X4.  Every successful aggregation returns exactly the enriched rows of the
    fulfilled tasks, in some order: invoices, credit notes, bank transactions
    and manual journals; a rejected task adds none, and no row is lost or
    made up by the merge and the sort. *)
Theorem result_rows_are_task_rows sourceType s0 r :
  result (fst (handlerOn sourceType s0)) = Some r ->
  exists inv cn accts bt mj,
    settleOn sourceType s0 inv cn accts bt mj
    /\ Permutation (rows r)
         (List.map (enrichRow (settledNames formatError accts))
            (rowsOf inv ++ rowsOf cn ++ rowsOf bt ++ journalRowsOf mj))
    /\ length (rows r)
       = (length (rowsOf inv) + length (rowsOf cn) + length (rowsOf bt)
          + length (journalRowsOf mj))%nat.
Proof.
  intros Hr. destruct (handler_settled sourceType s0 r Hr)
    as (inv & cn & accts & bt & mj & Hs & ->).
  exists inv, cn, accts, bt, mj. split; [exact Hs|].
  pose proof (settledResult_rows formatError localeCompare inv cn accts bt mj) as Hp.
  split; [exact Hp|].
  rewrite (Permutation_length Hp), length_map, !length_app. lia.
Qed.

(** X5.  The warnings of a successful aggregation number one per rejected
    task (invoices, credit notes, name lookup, bank transactions, manual
    journals) plus one when the manual journals were truncated; so there is
    none exactly when all five tasks were fulfilled and nothing was
    truncated. *)
Theorem warnings_count sourceType s0 r :
  result (fst (handlerOn sourceType s0)) = Some r ->
  exists inv cn accts bt mj,
    settleOn sourceType s0 inv cn accts bt mj
    /\ length (warnings r)
       = (failed inv + failed cn + failed accts + failed bt + failedOrTruncated mj)%nat
    /\ (warnings r = [] <->
        failed inv = 0%nat /\ failed cn = 0%nat /\ failed accts = 0%nat
        /\ failed bt = 0%nat /\ failedOrTruncated mj = 0%nat).
Proof.
  intros Hr. destruct (handler_settled sourceType s0 r Hr)
    as (inv & cn & accts & bt & mj & Hs & ->).
  exists inv, cn, accts, bt, mj. split; [exact Hs|].
  assert (Hlen : length (warnings (settledResult formatError localeCompare inv cn accts bt mj))
                 = (failed inv + failed cn + failed accts + failed bt
                    + failedOrTruncated mj)%nat).
  { unfold settledResult, settledTasks. cbn [warnings].
    destruct inv, cn, accts, bt, mj as [fr|]; cbn;
      try destruct (FetchResult.truncated fr); cbn; rewrite ?length_app; cbn; lia. }
  split; [exact Hlen|].
  split.
  - intros Hnil. rewrite Hnil in Hlen. cbn in Hlen. lia.
  - intros (H1 & H2 & H3 & H4 & H5).
    rewrite H1, H2, H3, H4, H5 in Hlen. cbn in Hlen.
    now apply length_zero_iff_nil.
Qed.

(** The two shapes of a run of the handler, by the outcome of authentication. *)
Lemma handler_envelope sourceType s0 :
  (exists e w,
      authenticate xeroClient (remote s0) = (Rejected e, w)
      /\ handlerOn sourceType s0
         = ({| result := None; isError := true; error := Some (formatError e) |},
            {| remote := w; slept := slept s0 |}))
  \/ (exists u w r,
      authenticate xeroClient (remote s0) = (Fulfilled u, w)
      /\ fst (handlerOn sourceType s0)
         = {| result := Some r; isError := false; error := None |}).
Proof.
  destruct (authenticate xeroClient (remote s0)) as [[u|e] w] eqn:Hauth.
  - right.
    destruct (handler_run JSON_parse formatError localeCompare numberText xeroClient
                fromDate toDate accountCodes accountIds sourceType s0 u w Hauth)
      as (inv & s2 & cn & s3 & accts & s4 & bt & s5 & mj & s6 & _ & _ & _ & _ & _ & Hrun).
    exists u, w. eexists. split; [reflexivity|]. now rewrite Hrun.
  - left. exists e, w. split; [reflexivity|].
    unfold listXeroAccountTransactions. now rewrite Hauth.
Qed.

(** X6.  The envelope is never mixed.  When authentication is rejected the
    handler returns the error envelope with the formatted reason and calls
    nothing else (the remote service is left as authentication left it);
    when authentication is fulfilled it returns a success envelope, whatever
    the five tasks do. *)
Theorem envelope_is_error_or_result sourceType s0 :
  (exists e w,
      authenticate xeroClient (remote s0) = (Rejected e, w)
      /\ listXeroAccountTransactions JSON_parse formatError localeCompare numberText
           xeroClient fromDate toDate accountCodes accountIds sourceType s0
         = ({| result := None; isError := true; error := Some (formatError e) |},
            {| remote := w; slept := slept s0 |}))
  \/ (exists u w r,
      authenticate xeroClient (remote s0) = (Fulfilled u, w)
      /\ fst (listXeroAccountTransactions JSON_parse formatError localeCompare numberText
                xeroClient fromDate toDate accountCodes accountIds sourceType s0)
         = {| result := Some r; isError := false; error := None |}).
Proof.
  destruct (handler_envelope sourceType s0)
    as [(e & w & Hauth & Hrun) | (u & w & r & Hauth & Hrun)].
  - left. now exists e, w.
  - right. now exists u, w, r.
Qed.

(** A property of rows that enrichment keeps and every extractor's rows have
    holds of every row of a successful aggregation. *)
Lemma handler_rows_forall (P : AccountTransactionRow -> Prop) sourceType s0 r :
  (forall m row, P row -> P (enrichRow m row)) ->
  (forall s rows s', invoicesOn sourceType s = (Fulfilled rows, s') -> Forall P rows) ->
  (forall s rows s', creditNotesOn sourceType s = (Fulfilled rows, s') -> Forall P rows) ->
  (forall s rows s', bankTransactionsOn sourceType s = (Fulfilled rows, s') -> Forall P rows) ->
  (forall s fr s', manualJournalsOn sourceType s = (Fulfilled fr, s') ->
     Forall P (FetchResult.rows fr)) ->
  result (fst (handlerOn sourceType s0)) = Some r ->
  Forall P (rows r).
Proof.
  intros Henrich Hinv Hcn Hbt Hmj Hr.
  destruct (handler_settled sourceType s0 r Hr)
    as (inv & cn & accts & bt & mj & Hs & ->).
  destruct Hs as (u & w & s2 & s3 & s4 & s5 & s6 & _ & H1 & H2 & _ & H4 & H5).
  eapply Permutation_Forall; [symmetry; apply settledResult_rows|].
  apply Forall_map.
  assert (Hall : Forall P (rowsOf inv ++ rowsOf cn ++ rowsOf bt ++ journalRowsOf mj)).
  { repeat (apply Forall_app; split).
    - destruct inv; [|constructor]. eapply Hinv. exact H1.
    - destruct cn; [|constructor]. eapply Hcn. exact H2.
    - destruct bt; [|constructor]. eapply Hbt. exact H4.
    - destruct mj; [|constructor]. eapply Hmj. exact H5. }
  eapply List.Forall_impl; [|exact Hall]. intros row. apply Henrich.
Qed.

(** *** The account filter *)

Lemma matches_by_code (code id : option string) :
  filterSet accountIds = [] ->
  lineMatchesAccount code id accountCodes accountIds = true ->
  filterSet accountCodes = [] \/ exists c, code = Some c /\ In c (filterSet accountCodes).
Proof.
  intros Hids. unfold lineMatchesAccount.
  destruct (hasLength accountCodes && truthyStr code
            && arrIncludes accountCodes (default "" code)) eqn:E1.
  { intros _. right. apply identifier_test in E1.
    destruct E1 as (c & -> & _ & Hin). eauto. }
  apply hasLength_false in Hids. rewrite Hids. cbn.
  rewrite andb_true_r. intros H. left.
  apply hasLength_false. now apply negb_true_iff.
Qed.

Lemma row_code_within (code id : option string) (r : AccountTransactionRow) :
  filterSet accountCodes <> [] -> filterSet accountIds = [] ->
  lineMatchesAccount code id accountCodes accountIds = true ->
  accountCode r = code -> codeWithin accountCodes r.
Proof.
  intros Hcodes Hids Hm Hr.
  destruct (matches_by_code code id Hids Hm) as [H | (c & -> & Hin)]; [contradiction|].
  exists c. auto.
Qed.

(** X7.  With a filter of account codes and no filter of account ids, every
    row of a successful aggregation carries an account code that is one of
    the codes asked for. *)
Theorem rows_within_code_filter sourceType s0 r :
  filterSet accountCodes <> [] -> filterSet accountIds = [] ->
  result (fst (handlerOn sourceType s0)) = Some r ->
  Forall (codeWithin accountCodes) (rows r).
Proof.
  intros Hcodes Hids.
  apply handler_rows_forall.
  - intros m row H. exact H.
  - intros s rows s' H. apply fetchInvoiceRows_docs in H. destruct H as [docs ->].
    apply Forall_flat_map. intros inv. unfold invoiceRows.
    apply Forall_map, List.Forall_forall. intros li Hli.
    apply filter_In in Hli. destruct Hli as [_ Hm].
    eapply row_code_within; eauto.
  - intros s rows s' H. apply fetchCreditNoteRows_docs in H. destruct H as [docs ->].
    apply Forall_flat_map. intros cn. unfold creditNoteRows.
    apply Forall_map, List.Forall_forall. intros li Hli.
    apply filter_In in Hli. destruct Hli as [_ Hm].
    eapply row_code_within; eauto.
  - intros s rows s' H. apply fetchBankTransactionRows_docs in H. destruct H as [docs ->].
    apply Forall_flat_map. intros bt. unfold bankTransactionRows.
    apply Forall_app. split.
    + apply Forall_map, List.Forall_forall. intros li Hli.
      apply filter_In in Hli. destruct Hli as [_ Hm].
      eapply row_code_within; eauto.
    + destruct (bankMatches accountCodes accountIds bt) eqn:Hm; constructor;
        [|constructor].
      eapply row_code_within; eauto.
  - intros s fr s' H. apply fetchManualJournalRows_docs in H. destruct H as [docs ->].
    apply Forall_flat_map. intros mj. unfold manualJournalRows, matchingLines.
    apply Forall_map, List.Forall_forall. intros l Hl.
    apply filter_In in Hl. destruct Hl as [_ Hm].
    eapply row_code_within; eauto.
Qed.





(** *** The source type *)

Lemma invoices_labels sourceType s rows s' :
  invoicesOn sourceType s = (Fulfilled rows, s') ->
  rows = []
  \/ (truthyStr sourceType && negb (sourceIs sourceType "ACCREC")
        && negb (sourceIs sourceType "ACCPAY") = false
      /\ Forall (fun r => In (source r) ["Purchase Invoice"; "Sales Invoice"]) rows).
Proof.
  intros H.
  destruct (truthyStr sourceType && negb (sourceIs sourceType "ACCREC")
            && negb (sourceIs sourceType "ACCPAY")) eqn:G.
  - left. unfold fetchInvoiceRows in H. rewrite G in H. now injection H as <- _.
  - right. split; [reflexivity|].
    apply fetchInvoiceRows_docs in H. destruct H as [docs ->].
    apply Forall_flat_map. intros inv. apply Forall_map, List.Forall_forall.
    intros li _. cbn. destruct (String.eqb _ _); cbn; auto.
Qed.

Lemma creditNotes_labels sourceType s rows s' :
  creditNotesOn sourceType s = (Fulfilled rows, s') ->
  rows = []
  \/ (truthyStr sourceType && negb (sourceIs sourceType "ACCRECCREDIT")
        && negb (sourceIs sourceType "ACCPAYCREDIT") = false
      /\ Forall (fun r => In (source r) ["Purchase Credit Note"; "Sales Credit Note"])
           rows).
Proof.
  intros H.
  destruct (truthyStr sourceType && negb (sourceIs sourceType "ACCRECCREDIT")
            && negb (sourceIs sourceType "ACCPAYCREDIT")) eqn:G.
  - left. unfold fetchCreditNoteRows in H. rewrite G in H. now injection H as <- _.
  - right. split; [reflexivity|].
    apply fetchCreditNoteRows_docs in H. destruct H as [docs ->].
    apply Forall_flat_map. intros cn. apply Forall_map, List.Forall_forall.
    intros li _. cbn. destruct (String.eqb _ "ACCPAYCREDIT"); cbn; auto.
Qed.

Lemma bankTransactions_labels sourceType s rows s' :
  bankTransactionsOn sourceType s = (Fulfilled rows, s') ->
  rows = []
  \/ (truthyStr sourceType && negb (sourceIs sourceType "CASHREC")
        && negb (sourceIs sourceType "CASHPAID") = false
      /\ Forall (fun r => In (source r) ["Spend Money"; "Receive Money"]) rows).
Proof.
  intros H.
  destruct (truthyStr sourceType && negb (sourceIs sourceType "CASHREC")
            && negb (sourceIs sourceType "CASHPAID")) eqn:G.
  - left. unfold fetchBankTransactionRows in H. rewrite G in H. now injection H as <- _.
  - right. split; [reflexivity|].
    apply fetchBankTransactionRows_docs in H. destruct H as [docs ->].
    apply Forall_flat_map. intros bt. unfold bankTransactionRows.
    apply Forall_app. split.
    + apply Forall_map, List.Forall_forall. intros li _. cbn.
      unfold bankSourceLabel. destruct (isSpend bt); cbn; auto.
    + destruct (bankMatches _ _ bt); constructor; [|constructor]. cbn.
      unfold bankSourceLabel. destruct (isSpend bt); cbn; auto.
Qed.

Lemma manualJournals_labels sourceType s fr s' :
  manualJournalsOn sourceType s = (Fulfilled fr, s') ->
  FetchResult.rows fr = []
  \/ (truthyStr sourceType && negb (sourceIs sourceType "MANJOURNAL") = false
      /\ Forall (fun r => In (source r) ["Manual Journal"]) (FetchResult.rows fr)).
Proof.
  intros H.
  destruct (truthyStr sourceType && negb (sourceIs sourceType "MANJOURNAL")) eqn:G.
  - left. unfold fetchManualJournalRows in H. rewrite G in H. now injection H as <- _.
  - right. split; [reflexivity|].
    apply fetchManualJournalRows_docs in H. destruct H as [docs ->].
    apply Forall_flat_map. intros mj. apply Forall_map, List.Forall_forall.
    intros l _. cbn. auto.
Qed.

(** Settles one extractor's rows for a source type that is fixed: either it
    returned none, or its guard let it run and its labels are the ones
    wanted. *)
Ltac by_labels H :=
  destruct H as [-> | [G Hl]];
  [ constructor
  | first [ vm_compute in G; discriminate G
          | eapply List.Forall_impl; [|exact Hl]; intros row Hrow; exact Hrow ] ].

(** X9.  A source type among the seven restricts the aggregation to the one
    extractor that owns it: every row of the result carries one of the
    labels of that extractor (the two invoice labels for ACCREC and ACCPAY,
    the two credit-note labels for ACCRECCREDIT and ACCPAYCREDIT, the two
    bank labels for CASHREC and CASHPAID, "Manual Journal" for MANJOURNAL). *)
Theorem rows_of_source_type st s0 r :
  In st knownSourceTypes ->
  result (fst (handlerOn (Some st) s0)) = Some r ->
  Forall (fun row => In (source row) (labelsOf st)) (rows r).
Proof.
  intros Hin.
  assert (Hst : st = "ACCREC" \/ st = "ACCPAY" \/ st = "ACCRECCREDIT"
                \/ st = "ACCPAYCREDIT" \/ st = "CASHREC" \/ st = "CASHPAID"
                \/ st = "MANJOURNAL").
  { cbn in Hin. intuition auto. }
  clear Hin.
  apply handler_rows_forall; [intros m row H; exact H | | | |].
  - intros s rows s' H. apply invoices_labels in H.
    destruct Hst as [-> | [-> | [-> | [-> | [-> | [-> | ->]]]]]]; by_labels H.
  - intros s rows s' H. apply creditNotes_labels in H.
    destruct Hst as [-> | [-> | [-> | [-> | [-> | [-> | ->]]]]]]; by_labels H.
  - intros s rows s' H. apply bankTransactions_labels in H.
    destruct Hst as [-> | [-> | [-> | [-> | [-> | [-> | ->]]]]]]; by_labels H.
  - intros s fr s' H. apply manualJournals_labels in H.
    destruct Hst as [-> | [-> | [-> | [-> | [-> | [-> | ->]]]]]]; by_labels H.
Qed.

End HandlerMore.

(** ** The page loop: where it stops and how it fails *)

Section PagesOfMore.

Context {W D : Type}.
Variable fetch : nat -> M W (option (list D)).
Variable size : nat.

(** The loop ends on a page between the first and the cap; it ends past the
    last allowed page only after [pagesLeft] pages that were all full. *)
Lemma pagesOf_last pagesLeft :
  forall first s docs lastPage s',
    pagesOf fetch size pagesLeft first s = (Fulfilled (docs, lastPage), s') ->
    (first <= lastPage <= first + pagesLeft)%nat
    /\ (lastPage = (first + pagesLeft)%nat -> (pagesLeft * size <= length docs)%nat).
Proof.
  induction pagesLeft as [|k IH]; intros first s docs lastPage s'; cbn [pagesOf].
  - intros [= <- <- _]. cbn. lia.
  - destruct (fetch first s) as [[resp|e] s1]; [|discriminate].
    destruct (length (default [] resp) <? size)%nat eqn:Hshort.
    + intros [= <- <- _]. lia.
    + destruct (pagesOf fetch size k (S first) s1) as [[[rest p]|e] s2] eqn:Hrest;
        [|discriminate].
      intros [= <- <- _].
      destruct (IH _ _ _ _ _ Hrest) as [Hp Hlen].
      apply Nat.ltb_ge in Hshort.
      split; [lia|]. intros Heq. rewrite length_app.
      specialize (Hlen ltac:(lia)). lia.
Qed.

End PagesOfMore.

Section ExtractorsMore.

Context {W : Type}.
Variable JSON_parse : string -> option JsVal.
Variable numberText : string -> string.
Variable xeroClient : XeroClient W.
Variables fromDate toDate : string.
Variables accountCodes accountIds : option (list string).
Variable sourceType : option string.

(** X10.  The manual-journal extractor reports [truncated] only after 50 full
    pages: a truncated result has scanned at least 50000 journals. *)
Theorem truncated_after_full_pages s fr s' :
  fetchManualJournalRows JSON_parse numberText xeroClient fromDate toDate accountCodes
    accountIds sourceType s = (Fulfilled fr, s') ->
  FetchResult.truncated fr = true ->
  50000 <= FetchResult.scanned fr.
Proof.
  destruct (truthyStr sourceType && negb (sourceIs sourceType "MANJOURNAL")) eqn:Hguard.
  - unfold fetchManualJournalRows. rewrite Hguard. intros [= <- _]. discriminate.
  - rewrite fetchManualJournalRows_loop by exact Hguard.
    destruct (pagesOf _ _ _ _ _) as [[[docs p]|e] s1] eqn:Hloop; cbn [mapOutcome];
      [|discriminate].
    intros [= <- _]. cbn [FetchResult.truncated FetchResult.scanned fst snd].
    intros Htr. apply Nat.ltb_lt in Htr.
    destruct (pagesOf_last _ _ _ _ _ _ _ _ Hloop) as [Hp Hlen].
    unfold MAX_PAGES in *.
    specialize (Hlen ltac:(lia)). unfold MJ_PAGE_SIZE in Hlen.
    apply Nat2Z.inj_le in Hlen. rewrite Nat2Z.inj_mul in Hlen.
    change (Z.of_nat 50 * Z.of_nat 1000) with 50000 in Hlen. exact Hlen.
Qed.

End ExtractorsMore.

(** ** The sort is stable *)

Section SortMore.

Variable localeCompare : string -> string -> Z.
Hypothesis compare_self : forall a, localeCompare a a = 0.

Lemma insertRow_datedOn d x l :
  datedOn d (insertRow localeCompare x l) = datedOn d (x :: l).
Proof.
  induction l as [|y l IH]; [reflexivity|].
  cbn [insertRow]. destruct (compareRows localeCompare x y <=? 0) eqn:Hle; [reflexivity|].
  assert (Hne : date x <> date y).
  { intros Heq. unfold compareRows in Hle. rewrite Heq, compare_self in Hle. discriminate. }
  unfold datedOn in *. cbn [List.filter] in *. rewrite IH.
  destruct (String.eqb (date x) d) eqn:Hx; destruct (String.eqb (date y) d) eqn:Hy;
    try reflexivity.
  apply String.eqb_eq in Hx, Hy. congruence.
Qed.

(** X12.  Given only that the host collation finds a text equal to itself,
    the sort is stable: the rows that share a date come out in the order
    they went in. *)
Theorem sortRows_stable d l :
  datedOn d (sortRows localeCompare l) = datedOn d l.
Proof.
  induction l as [|x l IH]; [reflexivity|].
  cbn [sortRows fold_right]. rewrite insertRow_datedOn.
  unfold datedOn in *. cbn [List.filter]. fold (sortRows localeCompare l).
  now rewrite IH.
Qed.

End SortMore.

Lemma codeOrder_self a : codeOrder a a = 0.
Proof. unfold codeOrder. now rewrite string_compare_refl. Qed.

Lemma sortRows_stable_witness :
  List.map source
    (datedOn "2024-03-15"
       (sortRows codeOrder
          [invoiceLineRow salesInvoice line400; bankLineRow spend100 line400net;
           invoiceLineRow purchaseInvoice line400; bankSideRow spend100]))
  = ["Spend Money"; "Purchase Invoice"; "Spend Money"].
Proof. rewrite (sortRows_stable codeOrder codeOrder_self). reflexivity. Defined.

(** ** The name map *)

Lemma app_snoc_cases {A} (l pre post : list A) (a b : A) :
  (l ++ [a] = pre ++ b :: post)%list ->
  (post = [] /\ pre = l /\ b = a)
  \/ (exists post', post = (post' ++ [a])%list /\ l = (pre ++ b :: post')%list).
Proof.
  intros H. destruct (List.rev post) as [|z rpost] eqn:Hrev.
  - apply (f_equal (@List.rev A)) in Hrev. rewrite List.rev_involutive in Hrev.
    cbn in Hrev. subst post. left.
    apply app_inj_tail in H. destruct H as [-> ->]. auto.
  - apply (f_equal (@List.rev A)) in Hrev. rewrite List.rev_involutive in Hrev.
    cbn in Hrev. subst post. right. exists (List.rev rpost).
    rewrite app_comm_cons, app_assoc in H. apply app_inj_tail in H.
    destruct H as [-> ->]. auto.
Qed.

Lemma namesOf_lookup (accounts : list Account.t) (c n : string) :
  namesOf accounts !! c = Some n <->
    c <> ""
    /\ exists before a after,
        accounts = (before ++ a :: after)%list
        /\ Account.code a = Some c
        /\ default "" (Account.name a) = n
        /\ Forall (fun b => Account.code b <> Some c) after.
Proof.
  unfold namesOf. induction accounts as [|a l IH] using rev_ind.
  - cbn. rewrite lookup_empty. split; [discriminate|].
    intros (_ & before & a & after & H & _). now destruct before.
  - rewrite fold_left_app. cbn [fold_left]. unfold setAccount at 1.
    destruct (truthyStr (Account.code a)) eqn:Htruthy.
    + apply truthyStr_iff in Htruthy. destruct Htruthy as (c' & Hcode & Hne).
      rewrite Hcode. cbn [default from_option id].
      destruct (decide (c' = c)) as [-> | Hcc].
      * rewrite lookup_insert_eq. split.
        -- intros [= <-]. split; [exact Hne|].
           exists l, a, []. repeat split; auto.
        -- intros (_ & before & b & after & Hl & Hb & Hn & Hafter).
           destruct (app_snoc_cases _ _ _ _ _ Hl) as [(-> & -> & ->) | (post' & -> & ->)].
           ++ now rewrite Hn.
           ++ apply Forall_app in Hafter. destruct Hafter as [_ Ha].
              inversion Ha; subst. contradiction.
      * rewrite lookup_insert_ne by exact Hcc. rewrite IH. split.
        -- intros (Hc & before & b & after & -> & Hb & Hn & Hafter).
           split; [exact Hc|].
           exists before, b, (after ++ [a])%list. repeat split; auto.
           ++ now rewrite <- app_assoc.
           ++ apply Forall_app. split; [exact Hafter|].
              constructor; [|constructor]. rewrite Hcode. congruence.
        -- intros (Hc & before & b & after & Hl & Hb & Hn & Hafter).
           split; [exact Hc|].
           destruct (app_snoc_cases _ _ _ _ _ Hl) as [(-> & -> & ->) | (post' & -> & ->)].
           ++ congruence.
           ++ apply Forall_app in Hafter. destruct Hafter as [Hafter _].
              exists before, b, post'. auto.
    + rewrite IH.
      assert (Hskip : c <> "" -> Account.code a <> Some c).
      { intros Hc Hcode. rewrite Hcode in Htruthy. cbn in Htruthy.
        apply negb_false_iff, String.eqb_eq in Htruthy. contradiction. }
      split.
      * intros (Hc & before & b & after & -> & Hb & Hn & Hafter).
        split; [exact Hc|].
        exists before, b, (after ++ [a])%list. repeat split; auto.
        -- now rewrite <- app_assoc.
        -- apply Forall_app. split; [exact Hafter|].
           constructor; [|constructor]. now apply Hskip.
      * intros (Hc & before & b & after & Hl & Hb & Hn & Hafter).
        split; [exact Hc|].
        destruct (app_snoc_cases _ _ _ _ _ Hl) as [(-> & -> & ->) | (post' & -> & ->)].
        -- exfalso. now apply (Hskip Hc).
        -- apply Forall_app in Hafter. destruct Hafter as [Hafter _].
           exists before, b, post'. auto.
Qed.

(** X13.  The name map that [buildAccountNameMap] returns holds, for a code,
    the name (or the empty string when the account has none) of the last
    listed account with that code; accounts without a code, or with the empty
    code, are left out, so the empty string is never a key. *)
Theorem accountNameMap_lookup {W : Type} (JSON_parse : string -> option JsVal)
    (xeroClient : XeroClient W) (s s' : St W) (m : gmap string string) :
  buildAccountNameMap JSON_parse xeroClient s = (Fulfilled m, s') ->
  exists resp,
    withRetry JSON_parse (getAccounts xeroClient) s = (Fulfilled resp, s')
    /\ forall c n,
        m !! c = Some n <->
          c <> ""
          /\ exists before a after,
              default [] resp = (before ++ a :: after)%list
              /\ Account.code a = Some c
              /\ default "" (Account.name a) = n
              /\ Forall (fun b => Account.code b <> Some c) after.
Proof.
  unfold buildAccountNameMap, bind, ret.
  destruct (withRetry JSON_parse (getAccounts xeroClient) s) as [[resp|e] s1];
    [|discriminate].
  intros [= <- <-]. exists resp. split; [reflexivity|].
  intros c n. apply namesOf_lookup.
Qed.

Lemma accountNameMap_lookup_witness :
  exists m s',
    buildAccountNameMap noJSON oneOfEach start = (Fulfilled m, s')
    /\ m !! "090" = Some "Bank" /\ m !! "" = None.
Proof.
  destruct (buildAccountNameMap noJSON oneOfEach start) as [[m|e] s'] eqn:Hrun;
    [|vm_compute in Hrun; discriminate].
  exists m, s'. split; [reflexivity|].
  destruct (accountNameMap_lookup noJSON oneOfEach start s' m Hrun) as (resp & Hcall & Hm).
  vm_compute in Hcall. injection Hcall as <- _.
  split.
  - apply Hm. split; [discriminate|].
    eexists [_], _, []. repeat split. constructor.
  - destruct (m !! "") as [n|] eqn:E; [|reflexivity].
    apply Hm in E. destruct E as [E _]. now contradiction E.
Defined.

(** ** Enrichment twice *)

Lemma prefix_append (s t : string) : String.prefix s (s ++ t)%string = true.
Proof.
  induction s as [|c s IH]; simpl; [now destruct t|].
  destruct (ascii_dec c c); [exact IH | contradiction].
Qed.

Lemma index_cons (sub : string) (c : ascii) (s : string) :
  index 0 sub (String c s)
  = if String.prefix sub (String c s) then Some 0%nat
    else match index 0 sub s with Some n => Some (S n) | None => None end.
Proof. reflexivity. Qed.

Lemma includes_append (a sub b : string) : includes (a ++ sub ++ b)%string sub = true.
Proof.
  unfold includes.
  assert (H : exists i, index 0 sub (a ++ sub ++ b)%string = Some i);
    [|now destruct H as [i ->]].
  induction a as [|c a IH].
  - change ("" ++ sub ++ b)%string with (sub ++ b)%string.
    destruct (sub ++ b)%string as [|c rest] eqn:E.
    + destruct sub; [|discriminate]. simpl. eauto.
    + rewrite index_cons, <- E, prefix_append. eauto.
  - change (String c a ++ sub ++ b)%string with (String c (a ++ sub ++ b)%string).
    rewrite index_cons.
    destruct (String.prefix sub (String c (a ++ sub ++ b)%string)); [eauto|].
    destruct IH as [i ->]. eauto.
Qed.

(** X14.  Enrichment is idempotent: a second pass over an enriched row, with
    the same name map, changes nothing (a related account that has been
    given a name holds the separator and is left alone). *)
Theorem enrichRow_idempotent (m : gmap string string) (r : AccountTransactionRow) :
  enrichRow m (enrichRow m r) = enrichRow m r.
Proof.
  unfold enrichRow. cbn [accountCode accountName relatedAccount date source
    contactName description invoiceNumber reference debit credit net gross vat].
  f_equal.
  - destruct (truthyStr (accountCode r)) eqn:Hc; cbn [andb]; [|reflexivity].
    destruct (truthyStr (accountName r)) eqn:Hn; cbn [negb].
    + rewrite Hn. reflexivity.
    + destruct (truthyStr (m !! default "" (accountCode r))); reflexivity.
  - destruct (relatedAccount r) as [rel|] eqn:Hrel; [|reflexivity].
    cbn [default from_option id].
    destruct (truthyStr (Some rel) && negb (includes rel " - ")) eqn:Hcond.
    + destruct (m !! rel) as [name|] eqn:Hname.
      * destruct (negb (name =? "")%string) eqn:Hne.
        -- cbn [default from_option id]. rewrite includes_append.
           cbn [negb]. now rewrite andb_false_r.
        -- cbn [default from_option id]. now rewrite Hcond, Hname, Hne.
      * cbn [default from_option id]. now rewrite Hcond, Hname.
    + cbn [default from_option id]. now rewrite Hcond.
Qed.

(** ** Dates *)

Lemma substring_length_le n s : (String.length (substring 0 n s) <= n)%nat.
Proof.
  revert s. induction n as [|n IH]; intros s.
  - destruct s; cbn; lia.
  - destruct s as [|c s]; cbn; [lia|]. specialize (IH s). lia.
Qed.

Lemma substring_again n s : substring 0 n (substring 0 n s) = substring 0 n s.
Proof.
  revert s. induction n as [|n IH]; intros s.
  - destruct s; reflexivity.
  - destruct s as [|c s]; cbn; [reflexivity|]. now rewrite IH.
Qed.

Lemma substring_prefix (a b : string) : substring 0 (String.length a) (a ++ b)%string = a.
Proof.
  induction a as [|c a IH]; simpl.
  - now destruct b.
  - now rewrite IH.
Qed.

(** X15.  A formatted date has at most ten characters; formatting is
    idempotent; and a text that starts with ten characters of date (an ISO
    time stamp, say) is cut down to those ten. *)
Theorem formatDate_ten :
  (forall d, (String.length (formatDate d) <= 10)%nat)
  /\ (forall d, formatDate (DateString (formatDate d)) = formatDate d)
  /\ (forall day rest,
      String.length day = 10%nat ->
      formatDate (DateString (day ++ rest)) = day
      /\ formatDate (DateObject (day ++ rest)) = day).
Proof.
  split; [|split].
  - intros [iso|s|]; cbn [formatDate]; try apply substring_length_le. cbn. lia.
  - intros [iso|s|]; cbn [formatDate]; try apply substring_again. reflexivity.
  - intros day rest Hlen. cbn [formatDate]. rewrite <- Hlen.
    split; apply substring_prefix.
Qed.

(** ** The date predicate *)

Lemma splitOn_free s : dashFree s = true -> splitOn "-" s = [s].
Proof.
  induction s as [|c s IH]; cbn; [reflexivity|].
  intros H. apply andb_true_iff in H. destruct H as [Hc Hs].
  apply negb_true_iff in Hc. rewrite Hc, IH by assumption. reflexivity.
Qed.

Lemma splitOn_dash (a b : string) :
  dashFree a = true -> splitOn "-" (a ++ String "-" b)%string = a :: splitOn "-" b.
Proof.
  induction a as [|c a IH]; simpl.
  - intros _. reflexivity.
  - intros H. apply andb_true_iff in H. destruct H as [Hc Ha].
    apply negb_true_iff in Hc. rewrite Hc, IH by assumption. reflexivity.
Qed.

Section DateWhere.

Variable numberText : string -> string.

(** X16.  For dates written year-month-day the predicate is
    [Date>=DateTime(y,m,d)&&Date<=DateTime(y',m',d')], each part printed as
    the number the host reads it as. *)
Theorem buildDateWhere_ymd y m d y' m' d' :
  dashFree y = true -> dashFree m = true -> dashFree d = true ->
  dashFree y' = true -> dashFree m' = true -> dashFree d' = true ->
  buildDateWhere numberText (y ++ "-" ++ m ++ "-" ++ d) (y' ++ "-" ++ m' ++ "-" ++ d')
  = "Date>=DateTime(" ++ numberText y ++ "," ++ numberText m ++ "," ++ numberText d
    ++ ")&&Date<=DateTime(" ++ numberText y' ++ "," ++ numberText m' ++ ","
    ++ numberText d' ++ ")".
Proof.
  intros Hy Hm Hd Hy' Hm' Hd'. unfold buildDateWhere.
  change (y ++ "-" ++ m ++ "-" ++ d) with (y ++ String "-" (m ++ String "-" d)).
  change (y' ++ "-" ++ m' ++ "-" ++ d') with (y' ++ String "-" (m' ++ String "-" d')).
  rewrite !splitOn_dash, !splitOn_free by assumption. reflexivity.
Qed.

(** X17.  A date with no dash in it has one part only: the month and the day
    of the predicate print as [undefined]. *)
Theorem buildDateWhere_one_part fromDate toDate :
  dashFree fromDate = true -> dashFree toDate = true ->
  buildDateWhere numberText fromDate toDate
  = "Date>=DateTime(" ++ numberText fromDate ++ ",undefined,undefined"
    ++ ")&&Date<=DateTime(" ++ numberText toDate ++ ",undefined,undefined" ++ ")".
Proof.
  intros Hf Ht. unfold buildDateWhere. rewrite !splitOn_free by assumption.
  cbn [datePart List.map nth]. 
  repeat (cbn [append]; f_equal).
Qed.

End DateWhere.

(** ** The further properties on sample services *)

Lemma result_rows_are_task_rows_witness :
  exists r inv cn bt mj,
    result (fst (listXeroAccountTransactions noJSON plainError codeOrder plainNumber
                   (bankDown oneOfEach) "2024-01-01" "2024-12-31" None None None start))
      = Some r
    /\ bt = Rejected (VStr "socket hang up")
    /\ length (rows r)
       = (length (rowsOf inv) + length (rowsOf cn) + length (rowsOf bt)
          + length (journalRowsOf mj))%nat.
Proof.
  edestruct (result_rows_are_task_rows noJSON plainError codeOrder plainNumber
               (bankDown oneOfEach) "2024-01-01" "2024-12-31" None None None start)
    as (inv & cn & accts & bt & mj & Hs & _ & Hlen); [run|].
  destruct Hs as (u & w & s2 & s3 & s4 & s5 & s6 & _ & _ & _ & _ & Hbt & _).
  eexists _, inv, cn, bt, mj. split; [reflexivity|]. split; [|exact Hlen].
  vm_compute in Hbt. now injection Hbt as <- _.
Defined.

Lemma warnings_count_witness :
  exists r,
    result (fst (listXeroAccountTransactions noJSON plainError codeOrder plainNumber
                   (bankDown oneOfEach) "2024-01-01" "2024-12-31" None None None start))
      = Some r
    /\ length (warnings r) = 1%nat.
Proof.
  edestruct (warnings_count noJSON plainError codeOrder plainNumber
               (bankDown oneOfEach) "2024-01-01" "2024-12-31" None None None start)
    as (inv & cn & accts & bt & mj & _ & _ & _); [run|].
  eexists. split; reflexivity.
Defined.

Lemma rows_within_code_filter_witness :
  exists r,
    result (fst (listXeroAccountTransactions noJSON plainError codeOrder plainNumber
                   oneOfEach "2024-01-01" "2024-12-31" (Some ["400"]) None None start))
      = Some r
    /\ length (rows r) = 3%nat
    /\ Forall (codeWithin (Some ["400"])) (rows r).
Proof.
  eexists. split; [run|]. split; [reflexivity|].
  apply (rows_within_code_filter noJSON plainError codeOrder plainNumber oneOfEach
           "2024-01-01" "2024-12-31" (Some ["400"]) None None start);
    [discriminate | reflexivity | run].
Defined.


Lemma MANJOURNAL_known : In "MANJOURNAL" knownSourceTypes.
Proof. cbn. tauto. Defined.

Lemma rows_of_source_type_witness :
  exists r,
    result (fst (listXeroAccountTransactions noJSON plainError codeOrder plainNumber
                   oneOfEach "2024-01-01" "2024-12-31" None None (Some "MANJOURNAL")
                   start)) = Some r
    /\ length (rows r) = 2%nat
    /\ Forall (fun row => In (source row) ["Manual Journal"]) (rows r).
Proof.
  eexists. split; [run|]. split; [reflexivity|].
  apply (rows_of_source_type noJSON plainError codeOrder plainNumber oneOfEach
           "2024-01-01" "2024-12-31" None None "MANJOURNAL" start _ MANJOURNAL_known).
  run.
Defined.

Lemma truncated_after_full_pages_witness :
  exists fr s',
    fetchManualJournalRows noJSON plainNumber fullJournalPages "2024-01-01" "2024-12-31"
      None None None start = (Fulfilled fr, s')
    /\ FetchResult.truncated fr = true
    /\ 50000 <= FetchResult.scanned fr.
Proof.
  destruct (fetchManualJournalRows noJSON plainNumber fullJournalPages "2024-01-01"
              "2024-12-31" None None None start) as [[fr|e] s'] eqn:Hrun;
    [|vm_compute in Hrun; discriminate].
  assert (Htr : FetchResult.truncated fr = true).
  { vm_compute in Hrun. now injection Hrun as <- _. }
  exists fr, s'. split; [reflexivity|]. split; [exact Htr|].
  exact (truncated_after_full_pages noJSON plainNumber fullJournalPages "2024-01-01"
           "2024-12-31" None None None start fr s' Hrun Htr).
Defined.

Lemma buildDateWhere_ymd_witness :
  buildDateWhere plainNumber "2024-01-05" "2024-12-31"
  = "Date>=DateTime(2024,01,05)&&Date<=DateTime(2024,12,31)".
Proof.
  exact (buildDateWhere_ymd plainNumber "2024" "01" "05" "2024" "12" "31"
           eq_refl eq_refl eq_refl eq_refl eq_refl eq_refl).
Defined.

Lemma buildDateWhere_one_part_witness :
  buildDateWhere plainNumber "20240105" "today"
  = "Date>=DateTime(20240105,undefined,undefined)&&Date<=DateTime(today,undefined,undefined)".
Proof. exact (buildDateWhere_one_part plainNumber "20240105" "today" eq_refl eq_refl). Defined.

(** * The tool around the handler *)

Section ToolFacts.

Context {W : Type}.
Variable JSON_parse : string -> option JsVal.
Variable formatError : JsVal -> string.
Variable localeCompare : string -> string -> Z.
Variable numberText : string -> string.
Variable xeroClient : XeroClient W.
Variable tmpdir : string.
Variable pathJoin : string -> string -> string.
Variable stringifyRows : list AccountTransactionRow -> string.
Variable writeError : string -> Host -> option JsVal.
Variable afterFailedWrite : string -> Host -> Host.
Variables fromDate toDate : string.
Variables accountCodes accountIds : option (list string).
Variable sourceType : option string.

Abbreviation tool :=
  (listAccountTransactionsTool JSON_parse formatError localeCompare numberText xeroClient
     tmpdir pathJoin stringifyRows writeError afterFailedWrite fromDate toDate
     accountCodes accountIds sourceType).
Abbreviation handlerOf :=
  (listXeroAccountTransactions JSON_parse formatError localeCompare numberText xeroClient
     fromDate toDate accountCodes accountIds sourceType).

(** X18.  The tool callback is rejected only by the write of the results
    file.  When authentication is rejected it answers with the text
    "Error listing account transactions: " and the formatted reason, and
    leaves the host as it was: no write is attempted.  Otherwise it writes
    the rows of the result to one file, named after the clock of the host.
    When [fs.writeFileSync] throws, the callback is rejected with the error
    of the write and gives no answer.  When the write goes through, the file
    holds the rows, every other file is as it was, and the answer is the
    header text, whose lines name that file and the number of rows. *)
Theorem tool_answer_or_write_error (s : St W) (h : Host) :
  (exists e w,
      authenticate xeroClient (remote s) = (Rejected e, w)
      /\ tool s h
         = (Fulfilled [ {| ToolContent.type := "text";
                           ToolContent.text :=
                             "Error listing account transactions: " ++ formatError e |} ],
            {| remote := w; slept := slept s |}, h))
  \/ (exists u w r,
      authenticate xeroClient (remote s) = (Fulfilled u, w)
      /\ result (fst (handlerOf s)) = Some r
      /\ match writeError (tmpFileAt tmpdir pathJoin (clock h)) h with
         | Some e =>
             tool s h
             = (Rejected e, snd (handlerOf s),
                afterFailedWrite (tmpFileAt tmpdir pathJoin (clock h)) h)
         | None =>
             exists lines h',
               tool s h
               = (Fulfilled [ {| ToolContent.type := "text";
                                 ToolContent.text := String.concat newline lines |} ],
                  snd (handlerOf s), h')
               /\ files h' !! tmpFileAt tmpdir pathJoin (clock h)
                  = Some (stringifyRows (rows r))
               /\ (forall p, p <> tmpFileAt tmpdir pathJoin (clock h) ->
                              files h' !! p = files h !! p)
               /\ clock h' = clock h
               /\ In ("Results file: " ++ tmpFileAt tmpdir pathJoin (clock h)) lines
               /\ In ("Rows returned: " ++ showZ (Z.of_nat (length (rows r)))) lines
         end).
Proof.
  destruct (handler_envelope JSON_parse formatError localeCompare numberText
              xeroClient fromDate toDate accountCodes accountIds sourceType s)
    as [(e & w & Hauth & Hrun) | (u & w & r & Hauth & Hrun)].
  - left. exists e, w. split; [exact Hauth|].
    unfold listAccountTransactionsTool. rewrite Hrun. reflexivity.
  - right. exists u, w, r. split; [exact Hauth|].
    split; [now rewrite Hrun|].
    unfold listAccountTransactionsTool, writeFileSync. rewrite Hrun.
    cbn [error result].
    destruct (writeError (tmpFileAt tmpdir pathJoin (clock h)) h) as [e|];
      [reflexivity|].
    exists (headerLines fromDate toDate accountCodes accountIds (rows r) (warnings r)
              (tmpFileAt tmpdir pathJoin (clock h))).
    eexists. split; [reflexivity|].
    cbn [files clock].
    split; [apply lookup_insert_eq|].
    split; [intros p Hp; now apply lookup_insert_ne|].
    split; [reflexivity|].
    unfold headerLines.
    destruct (0 <? length (warnings r))%nat;
      split; try apply in_or_app; cbn; tauto.
Qed.

(** X19.  The header says "all accounts" exactly when the account matcher
    lets every line through (no code and no id was asked for); else it lists
    the codes, or, when there are none, the ids. *)
Theorem accountLabel_all_accounts :
  accountLabel accountCodes accountIds = "all accounts"
  <-> forall code id, lineMatchesAccount code id accountCodes accountIds = true.
Proof.
  unfold accountLabel. split.
  - destruct (hasLength accountCodes) eqn:Hc; [discriminate|].
    destruct (hasLength accountIds) eqn:Hi; [discriminate|].
    intros _ code id. unfold lineMatchesAccount. now rewrite Hc, Hi.
  - intros H. specialize (H None None). unfold lineMatchesAccount in H.
    rewrite !andb_false_r in H. cbn in H.
    apply andb_true_iff in H. destruct H as [Hc Hi].
    apply negb_true_iff in Hc, Hi. now rewrite Hc, Hi.
Qed.

End ToolFacts.

(** * The OAuth helper *)

Module XeroAuthFacts.

Import XeroAuth.

(** ** Objects *)

Lemma assoc_setField_eq k v fields : assoc k (setField k v fields) = v.
Proof.
  induction fields as [|[k' v'] rest IH]; cbn.
  - now rewrite String.eqb_refl.
  - destruct (String.eqb k k') eqn:E; cbn.
    + now rewrite String.eqb_refl.
    + now rewrite E.
Qed.

Lemma assoc_setField_ne k k' v fields :
  k' <> k -> assoc k' (setField k v fields) = assoc k' fields.
Proof.
  intros Hne. induction fields as [|[k0 v0] rest IH]; cbn.
  - apply String.eqb_neq in Hne. now rewrite Hne.
  - destruct (String.eqb k k0) eqn:E; cbn.
    + apply String.eqb_eq in E. subst k0.
      apply String.eqb_neq in Hne. now rewrite Hne.
    + now rewrite IH.
Qed.

Section ServerFacts.

Context {N : Type}.
Variables MCP_JSON_PATH REFRESH_TOKEN_PATH : string.
Variable JSON_parse : string -> option JsVal.
Variable JSON_stringify : JsVal -> string.
Variable base64 : string -> string.
Variable encodeURIComponent : string -> string.
Variable minutesText : JsVal -> string.
Variable readError : string -> JsVal.
Variable parseError : string -> JsVal.
Variable typeError : JsVal.
Variable tokenEndpoint : list (string * string) -> string -> Call N JsVal.

Lemma withResponses_nil (s : State N) : withResponses [] s = s.
Proof. destruct s. unfold withResponses. cbn. now rewrite app_nil_r. Qed.

Lemma withResponses_app (a b : list (Z * string)) (s : State N) :
  withResponses b (withResponses a s) = withResponses (a ++ b) s.
Proof. unfold withResponses. cbn. now rewrite app_assoc. Qed.

(** X20.  The local server answers every request that is not the callback
    with a code (a favicon, a preflight, a callback without a code) with
    status 204 and an empty body, sends no token request for it, and goes on
    waiting: the requests after them are served as if they had come first. *)
Theorem serve_ignores clientId clientSecret (skipped rest : list Request) (s : State N) :
  Forall ignored skipped ->
  serve base64 typeError tokenEndpoint clientId clientSecret (skipped ++ rest) s
  = serve base64 typeError tokenEndpoint clientId clientSecret rest
      (withResponses (repeat (204, "") (length skipped)) s).
Proof.
  intros Hskipped. revert s.
  induction Hskipped as [|req skipped Hreq _ IH]; intros s.
  - cbn. now rewrite withResponses_nil.
  - cbn [app serve].
    assert (Hcond : negb (String.eqb (pathname req) "/callback")
                    || negb (truthyStr (code req)) = true).
    { destruct Hreq as [Hp | Hc].
      - apply String.eqb_neq in Hp. now rewrite Hp.
      - rewrite Hc. apply orb_true_r. }
    rewrite Hcond. unfold andThen at 1, respond at 1. cbn [fst snd].
    rewrite IH. unfold withResponses at 2. cbn.
    f_equal. unfold withResponses. cbn. now rewrite <- app_assoc.
Qed.

(** ** What the steps of the script leave alone *)

Lemma quiet_pure {A} (a : A) : quiet (@pure N A a).
Proof. intros s. cbn. auto. Qed.

Lemma quiet_throw {A} (e : JsVal) : quiet (@throw N A e).
Proof. intros s. cbn. auto. Qed.

Lemma quiet_exit {A} (c : Z) : quiet (@exit N A c).
Proof. intros s. cbn. auto. Qed.

Lemma quiet_log line : quiet (@log N line).
Proof. intros s. cbn. auto. Qed.

Lemma quiet_writeFile path text : quiet (@writeFile N path text).
Proof. intros s. cbn. auto. Qed.

Lemma quiet_andThen {A B} (m : Script N A) (k : A -> Script N B) :
  quiet m -> (forall a, quiet (k a)) -> quiet (andThen m k).
Proof.
  intros Hm Hk s. unfold andThen. specialize (Hm s).
  destruct (m s) as [[a|e|c|] s1]; cbn in *; try exact Hm.
  specialize (Hk a s1). destruct (k a s1) as [r s2]. cbn in *.
  destruct Hm as (H1 & H2 & H3 & H4), Hk as (K1 & K2 & K3 & K4).
  repeat split; congruence.
Qed.

Lemma quiet_readMcpConfig : quiet (N:=N) (readMcpConfig MCP_JSON_PATH JSON_parse readError parseError).
Proof.
  intros s. unfold readMcpConfig.
  destruct (fs s !! MCP_JSON_PATH) as [raw|]; [|cbn; auto].
  destruct (JSON_parse raw); cbn; auto.
Qed.

Lemma quiet_dot o k : quiet (@dot N typeError o k).
Proof. unfold dot. destruct (member o k); [apply quiet_pure | apply quiet_throw]. Qed.

Lemma quiet_setBearer server tok mcp : quiet (@setBearer N typeError server tok mcp).
Proof.
  unfold setBearer. apply quiet_andThen; [apply quiet_dot|]. intros entry.
  apply quiet_andThen; [apply quiet_dot|]. intros env.
  destruct mcp; try apply quiet_throw.
  destruct entry; try apply quiet_throw.
  destruct env; try apply quiet_throw. apply quiet_pure.
Qed.

Lemma quiet_updateBearerToken tok :
  quiet (N:=N) (updateBearerToken MCP_JSON_PATH JSON_parse JSON_stringify readError parseError
           typeError tok).
Proof.
  unfold updateBearerToken.
  apply quiet_andThen; [apply quiet_readMcpConfig|]. intros config.
  apply quiet_andThen; [apply quiet_dot|]. intros mcp.
  apply quiet_andThen; [apply quiet_setBearer|]. intros mcp1.
  apply quiet_andThen.
  - destruct (truthy _); [apply quiet_setBearer | apply quiet_pure].
  - intros mcp2. destruct config; try apply quiet_throw. apply quiet_writeFile.
Qed.

Lemma quiet_saveRefreshToken tok :
  quiet (@saveRefreshToken N REFRESH_TOKEN_PATH typeError tok).
Proof. unfold saveRefreshToken. destruct tok; try apply quiet_throw. apply quiet_writeFile. Qed.

Lemma quiet_getCredentials :
  quiet (N:=N) (getCredentials MCP_JSON_PATH JSON_parse readError parseError typeError).
Proof.
  unfold getCredentials.
  apply quiet_andThen; [apply quiet_readMcpConfig|]. intros config.
  apply quiet_andThen; [apply quiet_dot|]. intros mcp.
  destruct (_ || _); [|apply quiet_pure].
  apply quiet_andThen; [apply quiet_log | intros; apply quiet_exit].
Qed.

Lemma quiet_loadRefreshToken : quiet (@loadRefreshToken N REFRESH_TOKEN_PATH).
Proof. intros s. unfold loadRefreshToken. destruct (fs s !! REFRESH_TOKEN_PATH); cbn; auto. Qed.

Abbreviation finishOf :=
  (finish MCP_JSON_PATH REFRESH_TOKEN_PATH JSON_parse JSON_stringify minutesText readError
     parseError typeError).

Lemma quiet_finish tokens : quiet (N:=N) (finishOf tokens).
Proof.
  unfold finish.
  apply quiet_andThen; [apply quiet_dot|]. intros tok.
  apply quiet_andThen; [apply quiet_updateBearerToken|]. intros _.
  apply quiet_andThen.
  { destruct (truthy _); [apply quiet_saveRefreshToken | apply quiet_pure]. }
  intros _. apply quiet_andThen; [apply quiet_log|]. intros _.
  apply quiet_andThen; [apply quiet_log|]. intros _.
  destruct (truthy _); [apply quiet_log | apply quiet_pure].
Qed.

Abbreviation mainOf :=
  (main MCP_JSON_PATH REFRESH_TOKEN_PATH JSON_parse JSON_stringify base64
     encodeURIComponent minutesText readError parseError typeError tokenEndpoint).
Abbreviation programOf :=
  (program MCP_JSON_PATH REFRESH_TOKEN_PATH JSON_parse JSON_stringify base64
     encodeURIComponent minutesText readError parseError typeError tokenEndpoint).
Abbreviation credentialsOf :=
  (getCredentials (N:=N) MCP_JSON_PATH JSON_parse readError parseError typeError).

(** ** Missing credentials *)

(** X21.  When [.mcp.json] parses to a configuration in which the client id or
    the client secret of the [xero] server is missing or falsy, the script
    prints one error line and exits with code 1: no token request is sent,
    no file is written, whatever the arguments and the saved refresh token. *)
Theorem missing_credentials_exit argv incoming (s : State N) raw config :
  fs s !! MCP_JSON_PATH = Some raw ->
  JSON_parse raw = Some config ->
  config <> VUndefined -> config <> VNull ->
  truthy (envOf "xero" "XERO_CLIENT_ID" config)
    && truthy (envOf "xero" "XERO_CLIENT_SECRET" config) = false ->
  programOf argv incoming s
  = (Exit 1,
     withLines ["Error: XERO_CLIENT_ID and XERO_CLIENT_SECRET not found in .mcp.json"] s).
Proof.
  intros Hraw Hparse Hu Hn Hcreds.
  assert (Hmember : member config "mcpServers" = Some (getProp config "mcpServers")).
  { destruct config; try reflexivity; contradiction. }
  assert (Hcond : negb (truthy (envOf "xero" "XERO_CLIENT_ID" config))
                  || negb (truthy (envOf "xero" "XERO_CLIENT_SECRET" config)) = true).
  { rewrite <- negb_andb. now rewrite Hcreds. }
  unfold program, main, andThen at 1, getCredentials, andThen at 1, readMcpConfig.
  rewrite Hraw, Hparse. unfold andThen at 1, dot. rewrite Hmember.
  unfold envOf in Hcond. cbn [pure]. rewrite Hcond.
  reflexivity.
Qed.

(** ** Forced login *)

Lemma onlyGrants_keeps {A} grant (m : Script N A) :
  (forall s, requests (snd (m s)) = requests s) -> onlyGrants grant m.
Proof. intros H s. exists []. rewrite H, app_nil_r. auto. Qed.

Lemma onlyGrants_quiet {A} grant (m : Script N A) : quiet m -> onlyGrants grant m.
Proof. intros H. apply onlyGrants_keeps. intros s. apply H. Qed.

Lemma onlyGrants_andThen {A B} grant (m : Script N A) (k : A -> Script N B) :
  onlyGrants grant m -> (forall a, onlyGrants grant (k a)) ->
  onlyGrants grant (andThen m k).
Proof.
  intros Hm Hk s. unfold andThen. destruct (Hm s) as (sent & Hs & Hg).
  destruct (m s) as [[a|e|c|] s1]; cbn in *; [|exists sent; auto ..].
  destruct (Hk a s1) as (sent' & Hs' & Hg').
  exists (sent ++ sent')%list. rewrite Hs', Hs, app_assoc. split; [reflexivity|].
  apply Forall_app. auto.
Qed.

Lemma onlyGrants_serve clientId clientSecret incoming :
  onlyGrants "authorization_code"
    (serve base64 typeError tokenEndpoint clientId clientSecret incoming).
Proof.
  induction incoming as [|req rest IH]; cbn [serve].
  - apply onlyGrants_keeps. reflexivity.
  - destruct (_ || _).
    + apply onlyGrants_andThen; [|intros _; exact IH].
      apply onlyGrants_keeps. reflexivity.
    + intros s.
      exists [[("grant_type", "authorization_code"); ("code", default "" (code req));
               ("redirect_uri", REDIRECT_URI)]].
      split; [|repeat constructor].
      unfold exchangeToken.
      destruct (tokenEndpoint _ _ (net s)) as [[tokens|e] n']; cbn [fst snd].
      * destruct (member tokens "error") as [err|]; [destruct (truthy err)|]; reflexivity.
      * reflexivity.
Qed.

Lemma main_steps argv incoming :
  mainOf argv incoming
  = andThen credentialsOf (fun credentials =>
      andThen
        (if negb (existsb (String.eqb "--login") argv)
         then
           andThen (loadRefreshToken REFRESH_TOKEN_PATH) (fun refreshToken =>
             if truthyStr refreshToken
             then refreshFlow base64 typeError tokenEndpoint (fst credentials)
                    (snd credentials) (default "" refreshToken)
             else pure VNull)
         else pure VNull)
        (fun refreshed =>
           andThen
             (if negb (truthy refreshed)
              then
                andThen
                  (log (if existsb (String.eqb "--login") argv
                        then "Forcing browser login..."
                        else "No valid refresh token, opening browser..."))
                  (fun _ =>
                     browserFlow base64 encodeURIComponent typeError tokenEndpoint
                       (fst credentials) (snd credentials) incoming)
              else pure refreshed)
             finishOf)).
Proof. reflexivity. Qed.

(** X22.  With [--login] among the arguments the script never sends a
    refresh grant: every token request of the run is an
    [authorization_code] grant, whatever the saved refresh token holds. *)
Theorem forced_login_grants argv incoming :
  existsb (String.eqb "--login") argv = true ->
  onlyGrants "authorization_code" (programOf argv incoming).
Proof.
  intros Hforce.
  assert (Hmain : onlyGrants "authorization_code" (mainOf argv incoming)).
  { rewrite main_steps, Hforce. cbn [negb].
    apply onlyGrants_andThen; [apply onlyGrants_quiet, quiet_getCredentials|].
    intros credentials.
    apply onlyGrants_andThen; [apply onlyGrants_quiet, quiet_pure|].
    intros refreshed.
    apply onlyGrants_andThen; [|intros tokens; apply onlyGrants_quiet, quiet_finish].
    destruct (negb (truthy refreshed)); [|apply onlyGrants_quiet, quiet_pure].
    apply onlyGrants_andThen; [apply onlyGrants_quiet, quiet_log|]. intros _.
    unfold browserFlow.
    apply onlyGrants_andThen; [apply onlyGrants_quiet, quiet_log|]. intros _.
    apply onlyGrants_andThen; [apply onlyGrants_keeps; reflexivity|]. intros _.
    apply onlyGrants_serve. }
  intros s. destruct (Hmain s) as (sent & Hs & Hg).
  exists sent. split; [|exact Hg].
  unfold program. destruct (mainOf argv incoming s) as [[u|e|c|] s1]; exact Hs.
Qed.

(** ** The bearer token in the configuration *)

Lemma setBearer_ok server tok mcp (s s' : State N) mcp' :
  setBearer typeError server tok mcp s = (Ok mcp', s') ->
  s' = s
  /\ exists servers entryFields envFields,
      mcp = VObj servers
      /\ assoc server servers = VObj entryFields
      /\ assoc "env" entryFields = VObj envFields
      /\ mcp' = VObj (setField server
                        (VObj (setField "env"
                                 (VObj (setField "XERO_CLIENT_BEARER_TOKEN" tok envFields))
                                 entryFields))
                        servers).
Proof.
  unfold setBearer, andThen, dot.
  destruct (member mcp server) as [entry|] eqn:Hentry; [|discriminate].
  cbn [pure].
  destruct (member entry "env") as [env|] eqn:Henv; [|discriminate].
  cbn [pure].
  destruct mcp as [| | | | |servers]; try discriminate.
  destruct entry as [| | | | |entryFields]; try discriminate.
  destruct env as [| | | | |envFields]; try discriminate.
  intros [= <- <-]. split; [reflexivity|].
  exists servers, entryFields, envFields.
  cbn in Hentry, Henv. injection Hentry as Hentry. injection Henv as Henv. auto.
Qed.

Lemma setBearer_reads server tok servers entryFields envFields mcp' :
  assoc server servers = VObj entryFields ->
  assoc "env" entryFields = VObj envFields ->
  mcp' = VObj (setField server
                 (VObj (setField "env"
                          (VObj (setField "XERO_CLIENT_BEARER_TOKEN" tok envFields))
                          entryFields))
                 servers) ->
  getProp (getProp (getProp mcp' server) "env") "XERO_CLIENT_BEARER_TOKEN" = tok
  /\ (forall other k,
        k <> "XERO_CLIENT_BEARER_TOKEN" ->
        getProp (getProp (getProp mcp' other) "env") k
        = getProp (getProp (assoc other servers) "env") k)
  /\ (forall other, other <> server -> getProp mcp' other = assoc other servers)
  /\ (forall k, k <> "env" ->
        getProp (getProp mcp' server) k = getProp (assoc server servers) k).
Proof.
  intros Hentry Henv ->. cbn [getProp].
  rewrite assoc_setField_eq. cbn [getProp]. rewrite assoc_setField_eq. cbn [getProp].
  split; [apply assoc_setField_eq|]. split; [|split].
  - intros other k Hk. destruct (String.eqb_spec other server) as [-> | Hne].
    + rewrite assoc_setField_eq, Hentry. cbn [getProp].
      rewrite assoc_setField_eq, Henv. cbn [getProp].
      now apply assoc_setField_ne.
    + now rewrite assoc_setField_ne.
  - intros other Hne. now apply assoc_setField_ne.
  - intros k Hk. rewrite Hentry. cbn [getProp]. now apply assoc_setField_ne.
Qed.

(** X23.  When [updateBearerToken] returns, it has rewritten [.mcp.json], and
    nothing else, with a configuration in which the bearer token of the
    [xero] server is the access token, and that of [xero-local] too when that
    server has an environment; every other variable of every server (the
    client id and secret among them), every other server and every other
    top-level property are as they were read. *)
Theorem updateBearerToken_writes tok (s s' : State N) :
  updateBearerToken MCP_JSON_PATH JSON_parse JSON_stringify readError parseError typeError
    tok s = (Ok tt, s') ->
  exists raw config config',
    fs s !! MCP_JSON_PATH = Some raw
    /\ JSON_parse raw = Some config
    /\ s' = withFiles (<[ MCP_JSON_PATH := JSON_stringify config' ++ newline ]> (fs s)) s
    /\ envOf "xero" "XERO_CLIENT_BEARER_TOKEN" config' = tok
    /\ (truthy (getProp (getProp (getProp config "mcpServers") "xero-local") "env") = true ->
        envOf "xero-local" "XERO_CLIENT_BEARER_TOKEN" config' = tok)
    /\ (forall server k,
          k <> "XERO_CLIENT_BEARER_TOKEN" -> envOf server k config' = envOf server k config)
    /\ (forall k, k <> "mcpServers" -> getProp config' k = getProp config k)
    /\ (forall server,
          server <> "xero" -> server <> "xero-local" ->
          getProp (getProp config' "mcpServers") server
          = getProp (getProp config "mcpServers") server).
Proof.
  unfold updateBearerToken, andThen at 1, readMcpConfig.
  destruct (fs s !! MCP_JSON_PATH) as [raw|] eqn:Hraw; [|discriminate].
  destruct (JSON_parse raw) as [config|] eqn:Hparse; [|discriminate].
  unfold andThen at 1, dot at 1.
  destruct (member config "mcpServers") as [mcp|] eqn:Hmcp; [|discriminate].
  cbn [pure]. unfold andThen at 1.
  destruct (setBearer typeError "xero" tok mcp s) as [[mcp1|e|c|] s1] eqn:Hxero;
    try discriminate.
  apply setBearer_ok in Hxero.
  destruct Hxero as (-> & servers & entryFields & envFields & -> & Hentry & Henv & Hmcp1).
  destruct (setBearer_reads "xero" tok servers entryFields envFields mcp1 Hentry Henv Hmcp1)
    as (Hx1 & Hx2 & Hx3 & _).
  destruct config as [| | | | |fields]; try discriminate.
  cbn in Hmcp. injection Hmcp as Hmcp.
  assert (Hlocal : getProp mcp1 "xero-local" = assoc "xero-local" servers)
    by (apply Hx3; discriminate).
  unfold andThen at 1. rewrite Hlocal.
  destruct (truthy (getProp (assoc "xero-local" servers) "env")) eqn:Htruthy.
  - destruct (setBearer typeError "xero-local" tok mcp1 s) as [[mcp2|e|c|] s2] eqn:Hloc;
      try discriminate.
    apply setBearer_ok in Hloc.
    destruct Hloc as (-> & servers1 & entry1 & env1 & Hs1 & Hentry1 & Henv1 & Hmcp2).
    destruct (setBearer_reads "xero-local" tok servers1 entry1 env1 mcp2 Hentry1 Henv1 Hmcp2)
      as (Hl1 & Hl2 & Hl3 & _).
    unfold writeMcpConfig, writeFile. intros [= <-].
    exists raw, (VObj fields), (VObj (setField "mcpServers" mcp2 fields)).
    split; [congruence|]. split; [congruence|]. split; [reflexivity|].
    unfold envOf. cbn [getProp]. rewrite assoc_setField_eq, Hmcp.
    assert (Hget1 : forall other, assoc other servers1 = getProp mcp1 other)
      by (intros other; now rewrite Hs1).
    split; [|split; [|split; [|split]]].
    + rewrite Hl3 by discriminate. rewrite Hget1. exact Hx1.
    + intros _. exact Hl1.
    + intros server k Hk. rewrite Hl2, Hget1 by exact Hk. cbn [getProp]. now apply Hx2.
    + intros k Hk. now apply assoc_setField_ne.
    + intros server H1 H2. rewrite Hl3, Hget1 by exact H2. cbn [getProp]. now apply Hx3.
  - cbn [pure]. unfold writeMcpConfig, writeFile. intros [= <-].
    exists raw, (VObj fields), (VObj (setField "mcpServers" mcp1 fields)).
    split; [congruence|]. split; [congruence|]. split; [reflexivity|].
    unfold envOf. cbn [getProp]. rewrite assoc_setField_eq, Hmcp. cbn [getProp].
    split; [exact Hx1|]. split; [|split; [|split]].
    + rewrite Htruthy. discriminate.
    + intros server k Hk. now apply Hx2.
    + intros k Hk. now apply assoc_setField_ne.
    + intros server H1 H2. now apply Hx3.
Qed.

(** ** A refresh that succeeds *)

Lemma andThen_ok {A B} (m : Script N A) (k : A -> Script N B) s a s1 :
  m s = (Ok a, s1) -> andThen m k s = k a s1.
Proof. intros H. unfold andThen. now rewrite H. Qed.

Lemma getCredentials_ok (s : State N) raw config :
  fs s !! MCP_JSON_PATH = Some raw ->
  JSON_parse raw = Some config ->
  config <> VUndefined -> config <> VNull ->
  truthy (envOf "xero" "XERO_CLIENT_ID" config) = true ->
  truthy (envOf "xero" "XERO_CLIENT_SECRET" config) = true ->
  credentialsOf s
  = (Ok (envOf "xero" "XERO_CLIENT_ID" config, envOf "xero" "XERO_CLIENT_SECRET" config), s).
Proof.
  intros Hraw Hparse Hu Hn Hid Hsecret.
  assert (Hmember : member config "mcpServers" = Some (getProp config "mcpServers")).
  { destruct config; try reflexivity; contradiction. }
  unfold getCredentials, andThen at 1, readMcpConfig. rewrite Hraw, Hparse.
  unfold andThen at 1, dot. rewrite Hmember. cbn [pure].
  unfold envOf in Hid, Hsecret. now rewrite Hid, Hsecret.
Qed.

(** X24.  Without [--login], with credentials in place and a saved refresh
    token that is not blank, a refresh that the token endpoint answers with
    tokens and no error settles the run: exactly one token request is sent
    (the refresh grant, carrying the trimmed token), the browser is not
    opened, the local server answers nothing, and the run is the same
    whatever requests might have come in. *)
Theorem refresh_skips_browser argv incoming (s : State N) raw config text tokens n' :
  existsb (String.eqb "--login") argv = false ->
  fs s !! MCP_JSON_PATH = Some raw ->
  JSON_parse raw = Some config ->
  config <> VUndefined -> config <> VNull ->
  truthy (envOf "xero" "XERO_CLIENT_ID" config) = true ->
  truthy (envOf "xero" "XERO_CLIENT_SECRET" config) = true ->
  fs s !! REFRESH_TOKEN_PATH = Some text ->
  trim text <> "" ->
  tokenEndpoint [("grant_type", "refresh_token"); ("refresh_token", trim text)]
    ("Basic " ++ base64 (JsString (envOf "xero" "XERO_CLIENT_ID" config) ++ ":"
                         ++ JsString (envOf "xero" "XERO_CLIENT_SECRET" config)))
    (net s) = (Fulfilled tokens, n') ->
  truthy tokens = true ->
  truthy (getProp tokens "error") = false ->
  mainOf argv incoming s = mainOf argv [] s
  /\ requests (snd (mainOf argv incoming s))
     = (requests s ++ [[("grant_type", "refresh_token"); ("refresh_token", trim text)]])%list
  /\ opened (snd (mainOf argv incoming s)) = opened s
  /\ responses (snd (mainOf argv incoming s)) = responses s.
Proof.
  intros Hforce Hraw Hparse Hu Hn Hid Hsecret Htext Htrim Hanswer Htokens Herr.
  pose (s1 := {| fs := fs s; console := console s ++ ["Attempting token refresh..."];
                 opened := opened s;
                 requests := requests s ++ [[("grant_type", "refresh_token");
                                             ("refresh_token", trim text)]];
                 responses := responses s; net := n' |}).
  assert (Hrun : forall requestsIn, mainOf argv requestsIn s = finishOf tokens s1).
  { intros requestsIn. rewrite main_steps, Hforce. cbn [negb].
    rewrite (andThen_ok _ _ _ _ _ (getCredentials_ok s raw config Hraw Hparse Hu Hn Hid Hsecret)).
    cbn [fst snd].
    assert (Hrefresh :
              andThen (loadRefreshToken REFRESH_TOKEN_PATH) (fun refreshToken =>
                if truthyStr refreshToken
                then refreshFlow base64 typeError tokenEndpoint
                       (envOf "xero" "XERO_CLIENT_ID" config)
                       (envOf "xero" "XERO_CLIENT_SECRET" config) (default "" refreshToken)
                else pure VNull) s = (Ok tokens, s1)).
    { unfold andThen at 1, loadRefreshToken. rewrite Htext.
      assert (Ht : truthyStr (Some (trim text)) = true).
      { cbn. now apply negb_true_iff, String.eqb_neq. }
      rewrite Ht. cbn [default from_option id].
      unfold refreshFlow, andThen at 1, log. unfold andThen at 1, exchangeToken.
      cbn [net fs console opened requests responses basicAuth].
      unfold basicAuth. rewrite Hanswer. cbn [fst snd].
      unfold andThen, dot.
      assert (Hm : member tokens "error" = Some (getProp tokens "error")).
      { destruct tokens; try reflexivity; discriminate. }
      rewrite Hm. cbn [pure]. rewrite Herr. reflexivity. }
    rewrite (andThen_ok _ _ _ _ _ Hrefresh). rewrite Htokens. cbn [negb].
    unfold andThen at 1. reflexivity. }
  rewrite (Hrun incoming), (Hrun []).
  split; [reflexivity|].
  destruct (quiet_finish tokens s1) as (H1 & H2 & H3 & _).
  rewrite H1, H2, H3. auto.
Qed.

(** X25.  Without [--login], when the token endpoint answers the refresh with
    an error, the script reports it and falls back to the browser login: it
    prints the four lines, opens the authorisation URL once, and serves the
    incoming requests; nothing is written before that. *)
Theorem failed_refresh_opens_browser argv incoming (s : State N) raw config text tokens n' :
  existsb (String.eqb "--login") argv = false ->
  fs s !! MCP_JSON_PATH = Some raw ->
  JSON_parse raw = Some config ->
  config <> VUndefined -> config <> VNull ->
  truthy (envOf "xero" "XERO_CLIENT_ID" config) = true ->
  truthy (envOf "xero" "XERO_CLIENT_SECRET" config) = true ->
  fs s !! REFRESH_TOKEN_PATH = Some text ->
  trim text <> "" ->
  tokenEndpoint [("grant_type", "refresh_token"); ("refresh_token", trim text)]
    ("Basic " ++ base64 (JsString (envOf "xero" "XERO_CLIENT_ID" config) ++ ":"
                         ++ JsString (envOf "xero" "XERO_CLIENT_SECRET" config)))
    (net s) = (Fulfilled tokens, n') ->
  truthy (getProp tokens "error") = true ->
  mainOf argv incoming s
  = andThen
      (serve base64 typeError tokenEndpoint (envOf "xero" "XERO_CLIENT_ID" config)
         (envOf "xero" "XERO_CLIENT_SECRET" config) incoming)
      finishOf
      {| fs := fs s;
         console :=
           console s
           ++ ["Attempting token refresh...";
               "Refresh failed: "
               ++ JsString (orElse (getProp tokens "error_description")
                              (getProp tokens "error"));
               "No valid refresh token, opening browser...";
               "Opening browser for Xero login..."];
         opened :=
           opened s
           ++ ["open " ++ dq
               ++ authUrl encodeURIComponent (envOf "xero" "XERO_CLIENT_ID" config) ++ dq];
         requests :=
           requests s ++ [[("grant_type", "refresh_token"); ("refresh_token", trim text)]];
         responses := responses s;
         net := n' |}.
Proof.
  intros Hforce Hraw Hparse Hu Hn Hid Hsecret Htext Htrim Hanswer Herr.
  rewrite main_steps, Hforce. cbn [negb].
  rewrite (andThen_ok _ _ _ _ _ (getCredentials_ok s raw config Hraw Hparse Hu Hn Hid Hsecret)).
  cbn [fst snd].
  assert (Hm : member tokens "error" = Some (getProp tokens "error")).
  { destruct tokens; try reflexivity; discriminate. }
  assert (Ht : truthyStr (Some (trim text)) = true).
  { cbn. now apply negb_true_iff, String.eqb_neq. }
  unfold andThen at 1. unfold andThen at 1, loadRefreshToken. rewrite Htext, Ht.
  cbn [default from_option id].
  unfold refreshFlow, andThen at 1, log at 1. unfold andThen at 1, exchangeToken.
  cbn [net fs console opened requests responses].
  unfold basicAuth. rewrite Hanswer. cbn [fst snd].
  unfold andThen at 1, dot. rewrite Hm. cbn [pure]. rewrite Herr.
  unfold andThen at 1, log at 1. cbn [pure truthy negb fs console opened requests responses net].
  unfold andThen at 1. unfold andThen at 1, log at 1.
  unfold browserFlow. unfold andThen at 1, log at 1. unfold andThen at 1, exec.
  cbn [fs console opened requests responses net].
  rewrite <- !app_assoc. reflexivity.
Qed.

(** X26.  Saving and loading the refresh token is a round trip up to the
    trimming: [saveRefreshToken] returns only for a string, writes it to the
    refresh-token file and to no other, and [loadRefreshToken] then gives the
    trimmed string. *)
Theorem saved_refresh_token_is_loaded token (s s' : State N) :
  saveRefreshToken REFRESH_TOKEN_PATH typeError token s = (Ok tt, s') ->
  exists text,
    token = VStr text
    /\ loadRefreshToken REFRESH_TOKEN_PATH s' = (Ok (Some (trim text)), s')
    /\ (forall p, p <> REFRESH_TOKEN_PATH -> fs s' !! p = fs s !! p).
Proof.
  unfold saveRefreshToken, throw, writeFile.
  destruct token as [| |b|n|text|fields]; try discriminate.
  intros H. injection H as <-. exists text.
  split; [reflexivity|]. unfold loadRefreshToken. cbn [fs].
  split; [now rewrite lookup_insert_eq|].
  intros p Hp. now apply lookup_insert_ne.
Qed.

End ServerFacts.

(** ** The facts on the sample host *)

Lemma serve_ignores_witness :
  Forall ignored [faviconRequest; bareCallback]
  /\ sampleServe ([faviconRequest; bareCallback] ++ [codeCallback]) (freshState ∅)
     = sampleServe [codeCallback]
         (withResponses (repeat (204, "") 2) (freshState ∅)).
Proof.
  assert (H : Forall ignored [faviconRequest; bareCallback]).
  { constructor; [left; discriminate|].
    constructor; [right; reflexivity|]. constructor. }
  split; [exact H|].
  exact (serve_ignores (fun text => text) (sampleError "TypeError" "null") grantingEndpoint
           (VStr "id-1") (VStr "secret-1") [faviconRequest; bareCallback] [codeCallback]
           (freshState ∅) H).
Defined.

Lemma missing_credentials_exit_witness :
  sampleProgram ["--login"] [codeCallback] (freshState {[ sampleMcpPath := "bare" ]})
  = (Exit 1,
     withLines ["Error: XERO_CLIENT_ID and XERO_CLIENT_SECRET not found in .mcp.json"]
       (freshState {[ sampleMcpPath := "bare" ]})).
Proof.
  apply (missing_credentials_exit sampleMcpPath sampleRefreshPath sampleParse sampleStringify
           (fun text => text) (fun text => text) (fun _ => "30")
           (sampleError "ENOENT") (sampleError "SyntaxError")
           (sampleError "TypeError" "null") grantingEndpoint
           ["--login"] [codeCallback] (freshState {[ sampleMcpPath := "bare" ]})
           "bare" bareConfig).
  - vm_compute. reflexivity.
  - reflexivity.
  - discriminate.
  - discriminate.
  - reflexivity.
Defined.

Lemma forced_login_grants_witness :
  exists sent,
    requests (snd (sampleProgram ["--login"] [faviconRequest; codeCallback]
                     (freshState {[ sampleMcpPath := "full"; sampleRefreshPath := "refresh-1" ]})))
    = ([] ++ sent)%list
    /\ Forall (fun params => hd_error params = Some ("grant_type", "authorization_code")) sent.
Proof.
  apply (forced_login_grants sampleMcpPath sampleRefreshPath sampleParse sampleStringify
           (fun text => text) (fun text => text) (fun _ => "30")
           (sampleError "ENOENT") (sampleError "SyntaxError")
           (sampleError "TypeError" "null") grantingEndpoint
           ["--login"] [faviconRequest; codeCallback] eq_refl
           (freshState {[ sampleMcpPath := "full"; sampleRefreshPath := "refresh-1" ]})).
Defined.

Lemma updateBearerToken_writes_witness :
  exists raw config config',
    fs (freshState {[ sampleMcpPath := "full" ]}) !! sampleMcpPath = Some raw
    /\ sampleParse raw = Some config
    /\ snd (sampleUpdate (VStr "access-1") (freshState {[ sampleMcpPath := "full" ]}))
       = withFiles (<[ sampleMcpPath := sampleStringify config' ++ newline ]>
                      (fs (freshState {[ sampleMcpPath := "full" ]})))
           (freshState {[ sampleMcpPath := "full" ]})
    /\ envOf "xero" "XERO_CLIENT_BEARER_TOKEN" config' = VStr "access-1"
    /\ (truthy (getProp (getProp (getProp config "mcpServers") "xero-local") "env") = true ->
        envOf "xero-local" "XERO_CLIENT_BEARER_TOKEN" config' = VStr "access-1")
    /\ (forall server k,
          k <> "XERO_CLIENT_BEARER_TOKEN" -> envOf server k config' = envOf server k config)
    /\ (forall k, k <> "mcpServers" -> getProp config' k = getProp config k)
    /\ (forall server,
          server <> "xero" -> server <> "xero-local" ->
          getProp (getProp config' "mcpServers") server
          = getProp (getProp config "mcpServers") server).
Proof.
  apply (updateBearerToken_writes sampleMcpPath sampleParse sampleStringify
           (sampleError "ENOENT") (sampleError "SyntaxError")
           (sampleError "TypeError" "null") (VStr "access-1")
           (freshState {[ sampleMcpPath := "full" ]})
           (snd (sampleUpdate (VStr "access-1") (freshState {[ sampleMcpPath := "full" ]})))).
  vm_compute. reflexivity.
Defined.

Lemma refresh_skips_browser_witness :
  sampleMain [] [codeCallback]
    (freshState {[ sampleMcpPath := "full"; sampleRefreshPath := " refresh-1 " ]})
  = sampleMain [] []
      (freshState {[ sampleMcpPath := "full"; sampleRefreshPath := " refresh-1 " ]})
  /\ requests (snd (sampleMain [] [codeCallback]
                      (freshState {[ sampleMcpPath := "full";
                                     sampleRefreshPath := " refresh-1 " ]})))
     = ([] ++ [[("grant_type", "refresh_token"); ("refresh_token", trim " refresh-1 ")]])%list
  /\ opened (snd (sampleMain [] [codeCallback]
                    (freshState {[ sampleMcpPath := "full";
                                   sampleRefreshPath := " refresh-1 " ]}))) = []
  /\ responses (snd (sampleMain [] [codeCallback]
                       (freshState {[ sampleMcpPath := "full";
                                      sampleRefreshPath := " refresh-1 " ]}))) = [].
Proof.
  apply (refresh_skips_browser sampleMcpPath sampleRefreshPath sampleParse sampleStringify
           (fun text => text) (fun text => text) (fun _ => "30")
           (sampleError "ENOENT") (sampleError "SyntaxError")
           (sampleError "TypeError" "null") grantingEndpoint
           [] [codeCallback]
           (freshState {[ sampleMcpPath := "full"; sampleRefreshPath := " refresh-1 " ]})
           "full" fullConfig " refresh-1 " sampleTokens 1%nat).
  - reflexivity.
  - vm_compute. reflexivity.
  - reflexivity.
  - discriminate.
  - discriminate.
  - reflexivity.
  - reflexivity.
  - vm_compute. reflexivity.
  - vm_compute. discriminate.
  - reflexivity.
  - reflexivity.
  - reflexivity.
Defined.

Lemma failed_refresh_opens_browser_witness :
  main sampleMcpPath sampleRefreshPath sampleParse sampleStringify
    (fun text => text) (fun text => text) (fun _ => "30")
    (sampleError "ENOENT") (sampleError "SyntaxError") (sampleError "TypeError" "null")
    strictEndpoint [] [codeCallback] refreshState
  = andThen
      (serve (fun text => text) (sampleError "TypeError" "null") strictEndpoint
         (envOf "xero" "XERO_CLIENT_ID" fullConfig)
         (envOf "xero" "XERO_CLIENT_SECRET" fullConfig) [codeCallback])
      (finish sampleMcpPath sampleRefreshPath sampleParse sampleStringify (fun _ => "30")
         (sampleError "ENOENT") (sampleError "SyntaxError") (sampleError "TypeError" "null"))
      {| fs := fs refreshState;
         console :=
           console refreshState
           ++ ["Attempting token refresh...";
               "Refresh failed: "
               ++ JsString (orElse (getProp refusal "error_description")
                              (getProp refusal "error"));
               "No valid refresh token, opening browser...";
               "Opening browser for Xero login..."];
         opened :=
           opened refreshState
           ++ ["open " ++ dq
               ++ authUrl (fun text => text) (envOf "xero" "XERO_CLIENT_ID" fullConfig)
               ++ dq];
         requests :=
           requests refreshState
           ++ [[("grant_type", "refresh_token"); ("refresh_token", trim "refresh-1")]];
         responses := responses refreshState;
         net := 1%nat |}.
Proof.
  refine (failed_refresh_opens_browser sampleMcpPath sampleRefreshPath sampleParse
            sampleStringify (fun text => text) (fun text => text) (fun _ => "30")
            (sampleError "ENOENT") (sampleError "SyntaxError")
            (sampleError "TypeError" "null") strictEndpoint
            [] [codeCallback] refreshState
            "full" fullConfig "refresh-1" refusal 1%nat _ _ _ _ _ _ _ _ _ _ _).
  - reflexivity.
  - vm_compute. reflexivity.
  - reflexivity.
  - discriminate.
  - discriminate.
  - reflexivity.
  - reflexivity.
  - vm_compute. reflexivity.
  - vm_compute. discriminate.
  - reflexivity.
  - reflexivity.
Defined.

Lemma saved_refresh_token_is_loaded_witness :
  exists text,
    VStr " refresh-2 " = VStr text
    /\ loadRefreshToken sampleRefreshPath
         (snd (saveRefreshToken sampleRefreshPath (sampleError "TypeError" "null")
                 (VStr " refresh-2 ") (freshState {[ sampleMcpPath := "full" ]})))
       = (Ok (Some (trim text)),
          snd (saveRefreshToken sampleRefreshPath (sampleError "TypeError" "null")
                 (VStr " refresh-2 ") (freshState {[ sampleMcpPath := "full" ]})))
    /\ (forall p, p <> sampleRefreshPath ->
        fs (snd (saveRefreshToken sampleRefreshPath (sampleError "TypeError" "null")
                   (VStr " refresh-2 ") (freshState {[ sampleMcpPath := "full" ]}))) !! p
        = fs (freshState {[ sampleMcpPath := "full" ]}) !! p).
Proof.
  apply (saved_refresh_token_is_loaded sampleRefreshPath (sampleError "TypeError" "null")
           (VStr " refresh-2 ") (freshState {[ sampleMcpPath := "full" ]})).
  reflexivity.
Defined.

End XeroAuthFacts.
